(** * EduQuest: the generate / verify / score pipeline

    A shallow embedding of the Python code of the EduQuest back end
    ([backend/main.py], [backend/agents/question_generator.py],
    [backend/services/rag_service.py]) and the properties of its
    specification that concern question verification, the generation retry
    loop, context chunking and answer grading.

    Modelling conventions.
    - A Python [str] is a [string]; the text algorithms run on its list of
      characters.  Character classes follow Python on ASCII text
      ([str.isspace], [str.lower]); characters above 127 are neither
      whitespace nor cased here.
    - A Python [float] is an IEEE-754 binary64 value, [spec_float] with
      precision 53 and maximal exponent 1024, with the rounding of the
      standard library's executable model.
    - A value decoded by [json.loads], and every duck-typed dictionary the
      code passes around, is a [json] tree.
    - The embedding model, the generative model and [json.loads] are an
      explicit [World]; every model call is logged in a trace, and raising
      is a result of the computation. *)

From Stdlib Require Import List String Ascii ZArith Bool Lia PeanoNat DecimalString.
From Stdlib Require Import Floats.SpecFloat.
From Stdlib Require Import Sorting.Sorted Sorting.Permutation.
Import ListNotations.

Local Open Scope string_scope.
Local Open Scope list_scope.

(* ================================================================== *)
(** * Part I: the embedding *)
(* ================================================================== *)

(** ** Python text primitives *)

Module Text.

Definition chars := list ascii.

Definition of_string : string -> chars := list_ascii_of_string.
Definition to_string : chars -> string := string_of_list_ascii.

(** [str.isspace] on ASCII: TAB..CR, FS..US and the blank. *)
Definition isspace (c : ascii) : bool :=
  let n := nat_of_ascii c in
  (((9 <=? n) && (n <=? 13)) || ((28 <=? n) && (n <=? 32)))%nat.

(** [str.lower] on one ASCII character. *)
Definition lower_char (c : ascii) : ascii :=
  let n := nat_of_ascii c in
  if ((65 <=? n) && (n <=? 90))%nat then ascii_of_nat (n + 32) else c.

Definition lower_chars (s : chars) : chars := map lower_char s.

Fixpoint skip_space (s : chars) : chars :=
  match s with
  | c :: s' => if isspace c then skip_space s' else s
  | [] => []
  end.

(** [s.strip()] *)
Definition strip_chars (s : chars) : chars :=
  rev (skip_space (rev (skip_space s))).

(** [s.split()]: the maximal runs of non-blank characters. [cur] is the run
    being read, most recent character first. *)
Fixpoint split_ws_from (cur : chars) (s : chars) : list chars :=
  match s with
  | [] => match cur with [] => [] | _ => [rev cur] end
  | c :: s' =>
      if isspace c
      then match cur with
           | [] => split_ws_from [] s'
           | _ => rev cur :: split_ws_from [] s'
           end
      else split_ws_from (c :: cur) s'
  end.

Definition split_ws (s : chars) : list chars := split_ws_from [] s.

(** [sep.join(parts)] *)
Fixpoint join (sep : chars) (parts : list chars) : chars :=
  match parts with
  | [] => []
  | [w] => w
  | w :: ws => w ++ sep ++ join sep ws
  end.

Definition space : chars := [" "%char].

(** [' '.join(s.split())] *)
Definition collapse_ws (s : chars) : chars := join space (split_ws s).

(** [starts_with p s] is what follows [p] when [s] begins with [p]. *)
Fixpoint starts_with (p s : chars) : option chars :=
  match p, s with
  | [], _ => Some s
  | _ :: _, [] => None
  | a :: p', b :: s' => if Ascii.eqb a b then starts_with p' s' else None
  end.

(** The text before and after the first occurrence of [sep] in [s]. *)
Fixpoint find_sep (sep s : chars) : option (chars * chars) :=
  match starts_with sep s with
  | Some rest => Some ([], rest)
  | None =>
      match s with
      | [] => None
      | c :: s' =>
          match find_sep sep s' with
          | Some (b, a) => Some (c :: b, a)
          | None => None
          end
      end
  end.

(** [sep in s] *)
Definition contains (sep s : chars) : bool :=
  match find_sep sep s with Some _ => true | None => false end.

(** [s.split(sep)] for a non-empty [sep]; every occurrence found consumes a
    character, so [length s] rounds are enough. *)
Fixpoint split_on_fuel (fuel : nat) (sep s : chars) : list chars :=
  match fuel with
  | O => [s]
  | S n =>
      match find_sep sep s with
      | None => [s]
      | Some (b, a) => b :: split_on_fuel n sep a
      end
  end.

Definition split_on (sep s : chars) : list chars :=
  split_on_fuel (List.length s) sep s.

(** [s.replace(pat, '')] for a non-empty [pat]. *)
Fixpoint remove_all_fuel (fuel : nat) (pat s : chars) : chars :=
  match fuel with
  | O => s
  | S n =>
      match s with
      | [] => []
      | c :: s' =>
          match starts_with pat s with
          | Some rest => remove_all_fuel n pat rest
          | None => c :: remove_all_fuel n pat s'
          end
      end
  end.

Definition remove_all (pat s : chars) : chars :=
  remove_all_fuel (List.length s) pat s.

(** *** The two regular expressions of [normalize_answer] *)

(** After an opening parenthesis: the text that follows the first [')']. *)
Fixpoint after_close (s : chars) : option chars :=
  match s with
  | [] => None
  | c :: s' => if Ascii.eqb c ")" then Some s' else after_close s'
  end.

(** A match of [\s*\([^)]*\)] anchored at the head of [s]; the result is the
    text after the match.  Both stars are greedy and neither can give back a
    character: the blanks are followed by ['('], which is no blank, and the
    class [[^)]] is followed by [')']. *)
Definition match_paren (s : chars) : option chars :=
  match skip_space s with
  | c :: s' => if Ascii.eqb c "(" then after_close s' else None
  | [] => None
  end.

(** [re.sub(r'\s*\([^)]*\)', '', s)]: leftmost matches, left to right. *)
Fixpoint sub_paren_fuel (fuel : nat) (s : chars) : chars :=
  match fuel with
  | O => s
  | S n =>
      match s with
      | [] => []
      | c :: s' =>
          match match_paren s with
          | Some rest => sub_paren_fuel n rest
          | None => c :: sub_paren_fuel n s'
          end
      end
  end.

Definition sub_paren (s : chars) : chars := sub_paren_fuel (List.length s) s.

Definition is_punct (c : ascii) : bool :=
  existsb (Ascii.eqb c) ["."; ","; "!"; "?"; ";"; ":"]%char.

(** [re.sub(r'[.,!?;:]', '', s)] *)
Definition sub_punct (s : chars) : chars :=
  filter (fun c => negb (is_punct c)) s.

(** *** Notions for the properties of the normalizer *)

Definition nonspace (c : ascii) : bool := negb (isspace c).
Definition nonpunct (c : ascii) : bool := negb (is_punct c).
Definition is_paren (c : ascii) : bool := Ascii.eqb c "(" || Ascii.eqb c ")".
Definition lowered (c : ascii) : Prop := lower_char c = c.

(** A word of [split]: not empty and without a blank. *)
Definition word (w : chars) : Prop :=
  w <> [] /\ Forall (fun c => nonspace c = true) w.

(** Some ['('] has a [')'] after it. *)
Fixpoint has_pair (s : chars) : bool :=
  match s with
  | [] => false
  | c :: s' =>
      if Ascii.eqb c "(" then existsb (fun x => Ascii.eqb x ")") s' || has_pair s'
      else has_pair s'
  end.

(** [normalize_answer] on the characters. *)
Definition norm_chars (s : chars) : chars :=
  sub_punct (collapse_ws (sub_paren (lower_chars s))).

(** What one pass establishes for good: lower case, no pair of parentheses,
    no punctuation. *)
Definition clean (s : chars) : Prop :=
  Forall lowered s /\ has_pair s = false /\ Forall (fun c => nonpunct c = true) s.

End Text.

(** Python [str] methods on [string]. *)
Definition py_strip (s : string) : string :=
  Text.to_string (Text.strip_chars (Text.of_string s)).

Definition py_split (s : string) : list string :=
  map Text.to_string (Text.split_ws (Text.of_string s)).

Definition py_join (sep : string) (parts : list string) : string :=
  Text.to_string (Text.join (Text.of_string sep) (map Text.of_string parts)).

Definition py_in (sub s : string) : bool :=
  Text.contains (Text.of_string sub) (Text.of_string s).

Definition py_split_on (sep s : string) : list string :=
  map Text.to_string (Text.split_on (Text.of_string sep) (Text.of_string s)).

(** The bullet U+2022 in UTF-8. *)
Definition bullet : string :=
  String (ascii_of_nat 226) (String (ascii_of_nat 128) (String (ascii_of_nat 162) "")).

(** [normalize_answer] (main.py, nested in [check_answers]). *)
Definition normalize_answer (ans : string) : string :=
  let ans := Text.lower_chars (Text.of_string ans) in
  let ans := Text.sub_paren ans in
  let ans := Text.collapse_ws ans in
  let ans := Text.sub_punct ans in
  Text.to_string ans.


(** ** Python floats *)

Module F.

Definition float := spec_float.

Definition prec : Z := 53.
Definition emax : Z := 1024.

Definition add : float -> float -> float := SFadd prec emax.
Definition mul : float -> float -> float := SFmul prec emax.
Definition div : float -> float -> float := SFdiv prec emax.

(** [x < y], [x <= y], [x >= y]; every comparison with a NaN is false. *)
Definition lt (x y : float) : bool := SFltb x y.
Definition le (x y : float) : bool := SFleb x y.
Definition ge (x y : float) : bool := SFleb y x.

(** The float nearest to an integer (ties to even). *)
Definition of_Z (z : Z) : float := binary_normalize prec emax z 0 false.

(** A decimal literal [num/den], correctly rounded. *)
Definition lit (num den : Z) : float := div (of_Z num) (of_Z den).

Definition f0_0 : float := S754_zero false.
Definition f1_0 : float := Eval vm_compute in of_Z 1.
Definition f3 : float := Eval vm_compute in of_Z 3.
Definition f2 : float := Eval vm_compute in of_Z 2.
Definition f0_3 : float := Eval vm_compute in lit 3 10.
Definition f0_4 : float := Eval vm_compute in lit 4 10.
Definition f0_5 : float := Eval vm_compute in lit 5 10.
Definition f0_6 : float := Eval vm_compute in lit 6 10.
Definition f0_7 : float := Eval vm_compute in lit 7 10.
Definition f0_8 : float := Eval vm_compute in lit 8 10.

End F.


(** ** Python values, exceptions and effects *)

(** What [json.loads] returns, and the shape of every dictionary record of
    the code.  An object keeps its members in order; a lookup takes the
    first member with the key. *)
#[warnings="-register-all"]
Inductive json : Type :=
| JNull
| JBool (b : bool)
| JInt (z : Z)
| JFloat (f : F.float)
| JStr (s : string)
| JArr (items : list json)
| JObj (members : list (string * json)).

Inductive exn_class : Type :=
| JSONDecodeError
| KeyError
| TypeError
| AttributeError
| ValueError
| OverflowError
| ModelError.

(** A raised exception: a Python exception with its class and [str(e)], or
    FastAPI's [HTTPException] with its status code and detail. *)
Inductive exn : Type :=
| Exn (cls : exn_class) (str : string)
| HTTPException (status_code : Z) (detail : string).

Inductive result (A : Type) : Type :=
| Ok (a : A)
| Raise (e : exn).
Arguments Ok {A} a.
Arguments Raise {A} e.

(** [str(e)]; Starlette prints an [HTTPException] as its status code and its
    detail. *)
Definition exn_str (e : exn) : string :=
  match e with
  | Exn _ s => s
  | HTTPException code detail =>
      NilZero.string_of_int (Z.to_int code) ++ ": " ++ detail
  end.

(** [isinstance(e, json.JSONDecodeError)] *)
Definition is_JSONDecodeError (e : exn) : bool :=
  match e with
  | Exn JSONDecodeError _ => true
  | _ => false
  end.

(** [isinstance(e, Exception)] *)
Definition is_Exception (e : exn) : bool := true.

(** The prompts sent to the generative model, by the f-string that builds
    them and the values it interpolates.  [RetryPrompt] interpolates
    nothing. *)
Inductive prompt : Type :=
| GenerationPrompt (content : string) (num_questions : Z) (question_types : list string)
| RetryPrompt
| VerificationPrompt (context : string) (question answer explanation : json)
| FeedbackPrompt (question : json) (user_answer correct_answer verdict : string).

(** A call to one of the two models. *)
Inductive call : Type :=
| Encode (text : string)
| Generate (p : prompt).

(** The trace of model calls, most recent first. *)
Definition trace := list call.

(** The collaborators.  A model may answer the same request differently at
    different times: its answer depends on the number of model calls made
    before.  [generate_content] stands for the call together with the read
    of [.text]; [json_loads] gives the message of the [JSONDecodeError]
    when the text is no JSON document. *)
Record World : Type := {
  tensor : Type;
  encode : nat -> string -> result tensor;
  cosine_similarity : tensor -> tensor -> F.float;
  generate_content : nat -> prompt -> result string;
  json_loads : string -> string + json
}.

(** Computations that call the models and may raise. *)
Definition M (A : Type) : Type := trace -> result A * trace.

Definition ret {A} (a : A) : M A := fun tr => (Ok a, tr).

Definition raise {A} (e : exn) : M A := fun tr => (Raise e, tr).

Definition bind {A B} (m : M A) (k : A -> M B) : M B :=
  fun tr =>
    match m tr with
    | (Ok a, tr') => k a tr'
    | (Raise e, tr') => (Raise e, tr')
    end.

(** A pure step that may raise. *)
Definition lift {A} (r : result A) : M A := fun tr => (r, tr).

(** [try: body  except <class selected by handles> as e: handler e] *)
Definition try_except {A} (body : M A) (handles : exn -> bool) (handler : exn -> M A) : M A :=
  fun tr =>
    match body tr with
    | (Ok a, tr') => (Ok a, tr')
    | (Raise e, tr') => if handles e then handler e tr' else (Raise e, tr')
    end.

Declare Scope py_scope.
Delimit Scope py_scope with py.
Notation "x <- m ;; k" := (bind m (fun x => k))
  (at level 61, m at next level, right associativity) : py_scope.
Notation "m ;;; k" := (bind m (fun _ => k))
  (at level 61, right associativity) : py_scope.
Local Open Scope py_scope.

(** [for x in xs: acc = body acc x] *)
Fixpoint for_each {A B} (xs : list A) (acc : B) (body : B -> A -> M B) : M B :=
  match xs with
  | [] => ret acc
  | x :: xs' => acc' <- body acc x ;; for_each xs' acc' body
  end.

Section Calls.
Variable W : World.

Definition model_encode (text : string) : M (tensor W) :=
  fun tr => (encode W (List.length tr) text, Encode text :: tr).

Definition model_generate (p : prompt) : M string :=
  fun tr => (generate_content W (List.length tr) p, Generate p :: tr).

Definition loads (text : string) : result json :=
  match json_loads W text with
  | inl msg => Raise (Exn JSONDecodeError msg)
  | inr v => Ok v
  end.
End Calls.

(** *** Generation calls in a trace *)

(** The calls with the generation prompt or the retry prompt. *)
Definition is_generation_call (c : call) : bool :=
  match c with
  | Generate (GenerationPrompt _ _ _) | Generate RetryPrompt => true
  | _ => false
  end.

Definition generation_calls (tr : trace) : nat :=
  List.length (filter is_generation_call tr).

(** [m] only adds calls to the trace, at most [k] of them generation
    calls, however it ends. *)
Definition at_most {A} (k : nat) (m : M A) : Prop :=
  forall tr res tr', m tr = (res, tr') ->
    exists new, tr' = new ++ tr /\ generation_calls new <= k.

(** *** Dynamic operations on values *)

Fixpoint assoc (k : string) (members : list (string * json)) : option json :=
  match members with
  | [] => None
  | (k', v) :: rest => if String.eqb k k' then Some v else assoc k rest
  end.

(** [type(v).__name__] *)
Definition py_type_name (v : json) : string :=
  match v with
  | JNull => "NoneType"
  | JBool _ => "bool"
  | JInt _ => "int"
  | JFloat _ => "float"
  | JStr _ => "str"
  | JArr _ => "list"
  | JObj _ => "dict"
  end.

(** [v[k]] for a string key. *)
Definition py_getitem (v : json) (k : string) : result json :=
  match v with
  | JObj members =>
      match assoc k members with
      | Some x => Ok x
      | None => Raise (Exn KeyError ("'" ++ k ++ "'"))
      end
  | JStr _ => Raise (Exn TypeError "string indices must be integers, not 'str'")
  | JArr _ => Raise (Exn TypeError "list indices must be integers or slices, not str")
  | _ => Raise (Exn TypeError ("'" ++ py_type_name v ++ "' object is not subscriptable"))
  end.

(** [v.get(k, default)] *)
Definition py_get (v : json) (k : string) (default : json) : result json :=
  match v with
  | JObj members =>
      match assoc k members with
      | Some x => Ok x
      | None => Ok default
      end
  | _ => Raise (Exn AttributeError ("'" ++ py_type_name v ++ "' object has no attribute 'get'"))
  end.

(** Whether [v[k] = x] is allowed: only a dictionary takes a string key. *)
Definition py_setitem_check (v : json) : result unit :=
  match v with
  | JObj _ => Ok tt
  | JArr _ => Raise (Exn TypeError "list indices must be integers or slices, not str")
  | _ => Raise (Exn TypeError ("'" ++ py_type_name v ++ "' object does not support item assignment"))
  end.

(** [for x in v]: the items of a list, the keys of a dictionary, the
    characters of a string. *)
Definition py_iter (v : json) : result (list json) :=
  match v with
  | JArr items => Ok items
  | JObj members => Ok (map (fun kv => JStr (fst kv)) members)
  | JStr s => Ok (map (fun c => JStr (String c "")) (Text.of_string s))
  | _ => Raise (Exn TypeError ("'" ++ py_type_name v ++ "' object is not iterable"))
  end.

(** [v == s] for a string literal [s]. *)
Definition py_eq_str (v : json) (s : string) : bool :=
  match v with
  | JStr t => String.eqb t s
  | _ => false
  end.

(** The string method [attr] looked up on [v]: an attribute error unless
    [v] is a [str]. *)
Definition py_str_method (v : json) (attr : string) : result string :=
  match v with
  | JStr s => Ok s
  | _ => Raise (Exn AttributeError
                  ("'" ++ py_type_name v ++ "' object has no attribute '" ++ attr ++ "'"))
  end.

(** [float(z)] as in [int * float]: an integer whose nearest float is not
    finite cannot be converted. *)
Definition py_int_to_float (z : Z) : result F.float :=
  match F.of_Z z with
  | S754_infinity _ => Raise (Exn OverflowError "int too large to convert to float")
  | f => Ok f
  end.

(** [v * x] for a float [x]. *)
Definition py_mul_float (v : json) (x : F.float) : result F.float :=
  match v with
  | JFloat f => Ok (F.mul f x)
  | JInt z =>
      match py_int_to_float z with
      | Ok f => Ok (F.mul f x)
      | Raise e => Raise e
      end
  | JBool b => Ok (F.mul (if b then F.f1_0 else F.f0_0) x)
  | JStr _ | JArr _ => Raise (Exn TypeError "can't multiply sequence by non-int of type 'float'")
  | _ => Raise (Exn TypeError
                  ("unsupported operand type(s) for *: '" ++ py_type_name v ++ "' and 'float'"))
  end.

(** ** backend/services/rag_service.py *)

(** [preprocess_text] on a [str]: collapse blanks, drop bullets.  The module
    function of main.py and the method of [RAGService] have the same body. *)
Definition preprocess_str (text : string) : string :=
  let text := py_join " " (py_split text) in
  Text.to_string (Text.remove_all (Text.of_string bullet) (Text.of_string text)).

(** [preprocess_text] applied to a value of unknown type: [text.split()] is
    an attribute error unless [text] is a [str]. *)
Definition preprocess_text (text : json) : result string :=
  match py_str_method text "split" with
  | Ok s => Ok (preprocess_str s)
  | Raise e => Raise e
  end.

(** [if text:] for a string *)
Definition py_truthy_str (s : string) : bool :=
  match s with EmptyString => false | _ => true end.

(** The dictionary returned by [compute_question_similarity]. *)
Record similarity_result : Type := {
  question_similarity : F.float;
  answer_similarity : F.float;
  explanation_similarity : F.float;
  average_similarity : F.float;
  sr_is_valid : bool
}.

(** Python ints, as [range], slices and [len] see them. *)
Local Open Scope Z_scope.

(** [list(range(start, stop, step))]; a zero step is a [ValueError]. *)
Definition py_range (start stop step : Z) : result (list Z) :=
  if step =? 0 then Raise (Exn ValueError "range() arg 3 must not be zero")
  else
    let count :=
      if 0 <? step
      then (if start <? stop then (stop - start - 1) / step + 1 else 0)
      else (if stop <? start then (start - stop - 1) / (- step) + 1 else 0) in
    Ok (map (fun k => start + Z.of_nat k * step) (seq 0 (Z.to_nat count))).

(** The number of multiples of [step] below [n]. *)
Definition window_count (n step : Z) : nat :=
  Z.to_nat (if 0 <? n then (n - 1) / step + 1 else 0).

(** A slice bound, clamped as [l[lo:hi]] clamps it. *)
Definition slice_bound (len i : Z) : Z :=
  if i <? 0 then Z.max 0 (len + i) else Z.min i len.

(** [l[lo:hi]] *)
Definition py_slice {A} (l : list A) (lo hi : Z) : list A :=
  let len := Z.of_nat (List.length l) in
  let lo' := slice_bound len lo in
  let hi' := slice_bound len hi in
  firstn (Z.to_nat (hi' - lo')) (skipn (Z.to_nat lo') l).

(** [l[:hi]] *)
Definition py_slice_to {A} (l : list A) (hi : Z) : list A :=
  py_slice l 0 hi.

Local Close Scope Z_scope.

(** [l.sort(key=lambda x: x[1], reverse=True)]: a stable sort into
    descending order of the key.  [insert_desc x l] puts [x], which comes
    earlier in the input than every element of [l], before the first element
    whose key is not greater than its own.  On keys without NaN the order
    is total and a stable sort has one possible result.  With a NaN among
    the keys the result of [list.sort] depends on the comparisons its
    algorithm happens to make; that order is not modelled, and every
    property that depends on the order assumes keys without NaN. *)
Fixpoint insert_desc {A} (x : A * F.float) (l : list (A * F.float)) : list (A * F.float) :=
  match l with
  | [] => [x]
  | y :: l' => if F.lt (snd x) (snd y) then y :: insert_desc x l' else x :: l
  end.

Fixpoint sort_desc {A} (l : list (A * F.float)) : list (A * F.float) :=
  match l with
  | [] => []
  | x :: l' => insert_desc x (sort_desc l')
  end.

Module RAGService.
Section WithWorld.
Variable W : World.

(** [compute_similarity] *)
Definition compute_similarity (source_text generated_text : string) : M F.float :=
  let source_text := preprocess_str source_text in
  let generated_text := preprocess_str generated_text in
  source_embedding <- model_encode W source_text ;;
  generated_embedding <- model_encode W generated_text ;;
  ret (cosine_similarity W source_embedding generated_embedding).

(** [compute_question_similarity] *)
Definition compute_question_similarity (question : json) (context : string)
  : M similarity_result :=
  doc_embedding <- model_encode W (preprocess_str context) ;;
  q_raw <- lift (py_getitem question "question") ;;
  question_text <- lift (preprocess_text q_raw) ;;
  a_raw <- lift (py_getitem question "correct_answer") ;;
  answer_text <- lift (preprocess_text a_raw) ;;
  e_raw <- lift (py_get question "explanation" (JStr "")) ;;
  explanation_text <- lift (preprocess_text e_raw) ;;
  q_embedding <- model_encode W question_text ;;
  a_embedding <- model_encode W answer_text ;;
  let q_similarity := cosine_similarity W doc_embedding q_embedding in
  let a_similarity := cosine_similarity W doc_embedding a_embedding in
  e_similarity <-
    (if py_truthy_str explanation_text
     then e_embedding <- model_encode W explanation_text ;;
          ret (cosine_similarity W doc_embedding e_embedding)
     else ret F.f0_0) ;;
  let avg_similarity :=
    if py_truthy_str explanation_text
    then F.div (F.add (F.add q_similarity a_similarity) e_similarity) F.f3
    else F.div (F.add q_similarity a_similarity) F.f2 in
  ret {| question_similarity := q_similarity;
         answer_similarity := a_similarity;
         explanation_similarity := e_similarity;
         average_similarity := avg_similarity;
         sr_is_valid := F.ge avg_similarity F.f0_6 |}.

(** The chunks built by the first loop of [extract_relevant_context]. *)
Definition make_chunks (document : string) (chunk_size : Z) : result (list string) :=
  let words := py_split document in
  match py_range 0 (Z.of_nat (List.length words)) (chunk_size / 2) with
  | Raise e => Raise e
  | Ok starts =>
      Ok (map (fun i => py_join " " (py_slice words i (i + chunk_size))) starts)
  end.

(** [extract_relevant_context] *)
Definition extract_relevant_context (query document : string) (chunk_size top_k : Z)
  : M (list string) :=
  chunks <- lift (make_chunks document chunk_size) ;;
  match chunks with
  | [] => ret []
  | _ =>
      query_embedding <- model_encode W query ;;
      chunk_similarities <-
        for_each chunks []
          (fun acc chunk =>
             chunk_embedding <- model_encode W chunk ;;
             let similarity := cosine_similarity W query_embedding chunk_embedding in
             ret (acc ++ [(chunk, similarity)])) ;;
      let sorted := sort_desc chunk_similarities in
      ret (map fst (py_slice_to sorted top_k))
  end.
End WithWorld.
End RAGService.

(** ** Records shared by question_generator.py and main.py *)

(** The ["embedding_similarity"] dictionary of a verification. *)
Record embedding_scores : Type := {
  es_question : F.float;
  es_answer : F.float;
  es_explanation : F.float;
  es_average : F.float
}.

(** The ["verification"] dictionary; a key the code leaves out is [None]. *)
Record verification : Type := {
  embedding_similarity : option embedding_scores;
  hallucination_check : option json;
  quality_check : option json;
  semantic_consistency : option json;
  total_score : option F.float;
  is_valid : bool;
  error : option string
}.

(** What a verifier returns: [{"question_id": ..., "verification": ...}]. *)
Record verify_output : Type := {
  question_id : json;
  verification_of : verification
}.

(** A generated question after [q["verification"] = ...]. *)
Record verified_question : Type := {
  vq_question : json;
  vq_verification : verification
}.

(** The cleaning of a model response that precedes every [json.loads]:
    [text = text.strip()], then the interior of the first fenced block when
    there is one.  An index is in range whenever its branch is taken. *)
Definition extract_json_text (text : string) : string :=
  let text := py_strip text in
  if py_in "```json" text
  then py_strip (nth 0 (py_split_on "```" (nth 1 (py_split_on "```json" text) "")) "")
  else if py_in "```" text
  then py_strip (nth 1 (py_split_on "```" text) "")
  else text.

(** The scoring block of both verifiers (question_generator.py 217-237,
    main.py 143-163), from the decoded judgment to [total_score]. *)
Definition judgment_total_score (verification_result : json) : M F.float :=
  hc <- lift (py_getitem verification_result "hallucination_check") ;;
  hc_result <- lift (py_getitem hc "result") ;;
  let hallucination_score := if py_eq_str hc_result "Y" then F.f1_0 else F.f0_0 in
  qc <- lift (py_getitem verification_result "quality_check") ;;
  quality_rating <- lift (py_getitem qc "rating") ;;
  let quality_score :=
    if py_eq_str quality_rating "매우적절" then F.f1_0
    else if py_eq_str quality_rating "적절" then F.f0_7
    else F.f0_3 in
  sc <- lift (py_getitem verification_result "semantic_consistency") ;;
  semantic_score <- lift (py_getitem sc "average_score") ;;
  let weighted_h := F.mul hallucination_score F.f0_4 in
  let weighted_q := F.mul quality_score F.f0_3 in
  weighted_s <- lift (py_mul_float semantic_score F.f0_3) ;;
  ret (F.add (F.add weighted_h weighted_q) weighted_s).

(** The dictionary returned when the judgment was scored. *)
Definition judged_output (question : json) (scores : embedding_scores)
    (verification_result : json) (total : F.float) : M verify_output :=
  qid <- lift (py_get question "id" (JStr "")) ;;
  hc <- lift (py_getitem verification_result "hallucination_check") ;;
  qc <- lift (py_getitem verification_result "quality_check") ;;
  sc <- lift (py_getitem verification_result "semantic_consistency") ;;
  ret {| question_id := qid;
         verification_of :=
           {| embedding_similarity := Some scores;
              hallucination_check := Some hc;
              quality_check := Some qc;
              semantic_consistency := Some sc;
              total_score := Some total;
              is_valid := F.ge total F.f0_6;
              error := None |} |}.

(** The score the code computes from the fields of a judgment. *)
Definition code_total (hc_result rating : json) (semantic : F.float) : F.float :=
  let hallucination_score := if py_eq_str hc_result "Y" then F.f1_0 else F.f0_0 in
  let quality_score :=
    if py_eq_str rating "매우적절" then F.f1_0
    else if py_eq_str rating "적절" then F.f0_7
    else F.f0_3 in
  F.add (F.add (F.mul hallucination_score F.f0_4) (F.mul quality_score F.f0_3))
        (F.mul semantic F.f0_3).

Definition parse_failed : string := "LLM 응답 파싱 실패".

(** ** backend/agents/question_generator.py *)

Module QuestionGenerator.
Section WithWorld.
Variable W : World.

(** [verify_question] *)
Definition verify_question (question : json) (context : string) : M verify_output :=
  similarity_result <- RAGService.compute_question_similarity W question context ;;
  p_question <- lift (py_getitem question "question") ;;
  p_answer <- lift (py_getitem question "correct_answer") ;;
  p_explanation <- lift (py_get question "explanation" (JStr "")) ;;
  llm_text <- model_generate W (VerificationPrompt context p_question p_answer p_explanation) ;;
  let scores :=
    {| es_question := question_similarity similarity_result;
       es_answer := answer_similarity similarity_result;
       es_explanation := explanation_similarity similarity_result;
       es_average := average_similarity similarity_result |} in
  try_except
    (let llm_text := extract_json_text llm_text in
     verification_result <- lift (loads W llm_text) ;;
     total <- judgment_total_score verification_result ;;
     judged_output question scores verification_result total)
    is_JSONDecodeError
    (fun _ =>
       qid <- lift (py_get question "id" (JStr "")) ;;
       ret {| question_id := qid;
              verification_of :=
                {| embedding_similarity := Some scores;
                   hallucination_check := None;
                   quality_check := None;
                   semantic_consistency := None;
                   total_score := Some (average_similarity similarity_result);
                   is_valid := sr_is_valid similarity_result;
                   error := Some parse_failed |} |}).

(** The loop that verifies the decoded questions and keeps the valid
    ones. *)
Definition verify_all (generated_questions : json) (content : string)
  : M (list verified_question) :=
  questions <- lift (py_getitem generated_questions "questions") ;;
  items <- lift (py_iter questions) ;;
  for_each items []
    (fun verified_questions q =>
       v <- verify_question q content ;;
       if is_valid (verification_of v)
       then lift (py_setitem_check q) ;;;
            ret (verified_questions ++
                 [{| vq_question := q; vq_verification := verification_of v |}])
       else ret verified_questions).

(** [generate_questions] *)
Definition generate_questions (content : string) (num_questions : Z)
    (question_types : list string) : M (list verified_question) :=
  result_text <- model_generate W (GenerationPrompt content num_questions question_types) ;;
  try_except
    (let result_text := extract_json_text result_text in
     generated_questions <- lift (loads W result_text) ;;
     verify_all generated_questions content)
    is_JSONDecodeError
    (fun _ =>
       result_text <- model_generate W RetryPrompt ;;
       let result_text := extract_json_text result_text in
       try_except
         (generated_questions <- lift (loads W result_text) ;;
          verify_all generated_questions content)
         is_JSONDecodeError
         (fun e =>
            raise (Exn ValueError ("문제 생성 실패: JSON 파싱 오류 - " ++ exn_str e)))).
End WithWorld.
End QuestionGenerator.

(** ** backend/main.py *)

(** The value of [is_correct]: [True], [False] or the string ["partial"]. *)
Inductive correctness : Type :=
| IsTrue
| IsFalse
| IsPartial.

(** One entry of [processed_answers]; ["similarity"] is set for some
    answers only. *)
Record processed_answer : Type := {
  pa_question : json;
  pa_user_answer : string;
  pa_correct_answer : string;
  is_correct : correctness;
  score : F.float;
  feedback : string;
  similarity : option F.float
}.

(** The response of the generation endpoint: [{"questions": ...}]. *)
Record generate_response : Type := {
  questions : list verified_question
}.

Module Main.
Section WithWorld.
Variable W : World.

(** The body of the outer [try] of [verify_question_with_rag]. *)
Definition verify_question_with_rag_body (question : json) (context : string)
  : M verify_output :=
  doc_embedding <- model_encode W context ;;
  q_raw <- lift (py_getitem question "question") ;;
  question_text <- lift (preprocess_text q_raw) ;;
  a_raw <- lift (py_getitem question "correct_answer") ;;
  answer_text <- lift (preprocess_text a_raw) ;;
  e_raw <- lift (py_getitem question "explanation") ;;
  explanation_text <- lift (preprocess_text e_raw) ;;
  q_embedding <- model_encode W question_text ;;
  a_embedding <- model_encode W answer_text ;;
  e_embedding <- model_encode W explanation_text ;;
  let q_similarity := cosine_similarity W doc_embedding q_embedding in
  let a_similarity := cosine_similarity W doc_embedding a_embedding in
  let e_similarity := cosine_similarity W doc_embedding e_embedding in
  p_question <- lift (py_getitem question "question") ;;
  p_answer <- lift (py_getitem question "correct_answer") ;;
  p_explanation <- lift (py_getitem question "explanation") ;;
  llm_text <- model_generate W (VerificationPrompt context p_question p_answer p_explanation) ;;
  let average := F.div (F.add (F.add q_similarity a_similarity) e_similarity) F.f3 in
  let scores :=
    {| es_question := q_similarity;
       es_answer := a_similarity;
       es_explanation := e_similarity;
       es_average := average |} in
  try_except
    (let llm_text := extract_json_text llm_text in
     verification_result <- lift (loads W llm_text) ;;
     total <- judgment_total_score verification_result ;;
     judged_output question scores verification_result total)
    is_JSONDecodeError
    (fun _ =>
       qid <- lift (py_get question "id" (JStr "")) ;;
       ret {| question_id := qid;
              verification_of :=
                {| embedding_similarity := Some scores;
                   hallucination_check := None;
                   quality_check := None;
                   semantic_consistency := None;
                   total_score := Some average;
                   is_valid := F.ge average F.f0_6;
                   error := Some parse_failed |} |}).

(** [verify_question_with_rag] *)
Definition verify_question_with_rag (question : json) (context : string)
  : M verify_output :=
  try_except
    (verify_question_with_rag_body question context)
    is_Exception
    (fun e =>
       qid <- lift (py_get question "id" (JStr "")) ;;
       ret {| question_id := qid;
              verification_of :=
                {| embedding_similarity := None;
                   hallucination_check := None;
                   quality_check := None;
                   semantic_consistency := None;
                   total_score := None;
                   is_valid := false;
                   error := Some (exn_str e) |} |}).

(** The loop that verifies the decoded questions and keeps the valid
    ones. *)
Definition verify_all (generated_questions : json) (content : string)
  : M generate_response :=
  qs <- lift (py_getitem generated_questions "questions") ;;
  items <- lift (py_iter qs) ;;
  verified_questions <-
    for_each items []
      (fun verified_questions q =>
         v <- verify_question_with_rag q content ;;
         if is_valid (verification_of v)
         then lift (py_setitem_check q) ;;;
              ret (verified_questions ++
                   [{| vq_question := q; vq_verification := verification_of v |}])
         else ret verified_questions) ;;
  ret {| questions := verified_questions |}.

(** The endpoint [generate_questions]. *)
Definition generate_questions (content : string) (num_questions : Z)
    (question_types : list string) : M generate_response :=
  try_except
    (result_text <- model_generate W (GenerationPrompt content num_questions question_types) ;;
     try_except
       (let result_text := extract_json_text result_text in
        generated_questions <- lift (loads W result_text) ;;
        verify_all generated_questions content)
       is_JSONDecodeError
       (fun _ =>
          result_text <- model_generate W RetryPrompt ;;
          let result_text := extract_json_text result_text in
          try_except
            (generated_questions <- lift (loads W result_text) ;;
             verify_all generated_questions content)
            is_JSONDecodeError
            (fun e =>
               raise (HTTPException 500
                        ("문제 생성 실패: JSON 파싱 오류 - " ++ exn_str e)))))
    is_Exception
    (fun e => raise (HTTPException 500 ("문제 생성 실패: " ++ exn_str e))).

(** The text of [is_correct] in the feedback prompt. *)
Definition verdict_text (c : correctness) : string :=
  match c with
  | IsTrue => "맞음"
  | IsPartial => "부분 정답"
  | IsFalse => "틀림"
  end.

(** One round of the [for answer in answers] loop of [check_answers]
    (main.py 363-425): the grading of one submitted answer. *)
Definition check_answer (answer : json) : M processed_answer :=
  question <- lift (py_getitem answer "question") ;;
  ua_raw <- lift (py_getitem answer "user_answer") ;;
  ua_str <- lift (py_str_method ua_raw "strip") ;;
  let user_answer := py_strip ua_str in
  ca_raw <- lift (py_getitem answer "correct_answer") ;;
  ca_str <- lift (py_str_method ca_raw "strip") ;;
  let correct_answer := py_strip ca_str in
  question_type <- lift (py_get answer "question_type" (JStr "unknown")) ;;
  let normalized_user_answer := normalize_answer user_answer in
  let normalized_correct_answer := normalize_answer correct_answer in
  let exact := String.eqb normalized_user_answer normalized_correct_answer in
  graded <-
    (if py_eq_str question_type "short_answer" && negb exact
     then user_embedding <- model_encode W normalized_user_answer ;;
          correct_embedding <- model_encode W normalized_correct_answer ;;
          let similarity := cosine_similarity W user_embedding correct_embedding in
          if F.ge similarity F.f0_8 then ret (IsTrue, similarity)
          else if F.ge similarity F.f0_6 then ret (IsPartial, similarity)
          else ret (IsFalse, similarity)
     else ret (if exact then IsTrue else IsFalse, F.f0_0)) ;;
  let '(is_correct, similarity) := graded in
  let score :=
    match is_correct with
    | IsTrue => F.f1_0
    | IsPartial => F.f0_5
    | IsFalse => F.f0_0
    end in
  feedback_text <-
    model_generate W (FeedbackPrompt question user_answer correct_answer
                        (verdict_text is_correct)) ;;
  let feedback := py_strip feedback_text in
  ret {| pa_question := question;
         pa_user_answer := user_answer;
         pa_correct_answer := correct_answer;
         is_correct := is_correct;
         score := score;
         feedback := feedback;
         similarity :=
           if py_eq_str question_type "short_answer" &&
              negb (match is_correct with IsTrue => true | _ => false end)
           then Some similarity else None |}.
End WithWorld.
End Main.

(** ** The fusion formula, in the words of the specification *)

Module Spec.

(** The three quality ratings, and the labels the judgment prompt asks
    for. *)
Inductive quality : Type :=
| very_appropriate
| appropriate
| inappropriate.

Definition rating_label (r : quality) : string :=
  match r with
  | very_appropriate => "매우적절"
  | appropriate => "적절"
  | inappropriate => "부적절"
  end.

Definition quality_score (r : quality) : F.float :=
  match r with
  | very_appropriate => F.f1_0
  | appropriate => F.f0_7
  | inappropriate => F.f0_3
  end.

(** 1.0 when the hallucination result is ["Y"], 0.0 otherwise. *)
Definition hallucination_score (result : json) : F.float :=
  if py_eq_str result "Y" then F.f1_0 else F.f0_0.

(** [0.4*hallucination_score + 0.3*quality_score + 0.3*semantic_score] *)
Definition total_score (hallucination quality semantic : F.float) : F.float :=
  F.add (F.add (F.mul F.f0_4 hallucination) (F.mul F.f0_3 quality))
        (F.mul F.f0_3 semantic).

End Spec.

(** ** Worlds for examples *)

(** The embedding of a text is the text; the similarity of two embeddings is
    read off the second one; the generative model and the decoder follow a
    script. *)
Definition scripted_world (sims : string -> F.float)
    (reply : nat -> prompt -> result string)
    (decode : string -> string + json) : World :=
  {| tensor := string;
     encode := fun _ text => Ok text;
     cosine_similarity := fun _ b => sims b;
     generate_content := reply;
     json_loads := decode |}.

(** The embedding model is down; the generative model answers ["{}"]. *)
Definition embedder_down : World :=
  {| tensor := unit;
     encode := fun _ _ => Raise (Exn ModelError "embedding model unavailable");
     cosine_similarity := fun _ _ => F.f0_0;
     generate_content := fun _ _ => Ok "{}";
     json_loads := fun _ => inr (JObj []) |}.

(** A question with its three texts. *)
Definition example_question : json :=
  JObj [("question", JStr "q"); ("correct_answer", JStr "a");
        ("explanation", JStr "because")].

(** A judgment in the format the verification prompt asks for. *)
Definition judgment (result rating : string) (average : F.float) : json :=
  JObj [("hallucination_check",
         JObj [("result", JStr result); ("evidence", JStr "");
               ("explanation", JStr "")]);
        ("quality_check", JObj [("rating", JStr rating); ("reasoning", JStr "")]);
        ("semantic_consistency",
         JObj [("content_relevance", JFloat average);
               ("factual_accuracy", JFloat average);
               ("context_alignment", JFloat average);
               ("average_score", JFloat average)])].

(** The judge answers Y, appropriate, 0.9. *)
Definition judging_world : World :=
  scripted_world (fun _ => F.f0_5) (fun _ _ => Ok "```json {...} ```")
    (fun _ => inr (judgment "Y" "적절" (F.lit 9 10))).

(** The generative model answers in prose; every similarity is 0.55. *)
Definition babbling_world : World :=
  scripted_world (fun _ => F.lit 55 100) (fun _ _ => Ok "I cannot judge this.")
    (fun _ => inl "Expecting value").

(** The answer [{"question": q, "user_answer": u, "correct_answer": c,
    "question_type": t}]. *)
Definition submission (q : json) (u c : string) (t : json) : json :=
  JObj [("question", q); ("user_answer", JStr u); ("correct_answer", JStr c);
        ("question_type", t)].

(** The similarities of the examples: 0.9 for the question, 0.7 for the
    answer, 0.2 for anything else. *)
Definition example_sims (text : string) : F.float :=
  if String.eqb text "q" then F.lit 9 10
  else if String.eqb text "a" then F.f0_7
  else F.lit 2 10.

Definition example_world : World :=
  scripted_world example_sims (fun _ _ => Ok "no judgment") (fun _ => inl "no JSON").

Definition question_with (explanation : string) : json :=
  JObj [("question", JStr "q"); ("correct_answer", JStr "a");
        ("explanation", JStr explanation)].

(** The similarity of a text to the context ["ctx"] is 0.75 for the
    question, 0.35 for the answer, 0.55 for the explanation and 0.1 for
    anything else; no other embedding is similar to anything.  The
    generative model answers in prose. *)
Definition fallback_world : World :=
  {| tensor := string;
     encode := fun _ text => Ok text;
     cosine_similarity := fun doc text =>
       if String.eqb doc "ctx"
       then (if String.eqb text "q" then F.lit 75 100
             else if String.eqb text "a" then F.lit 35 100
             else if String.eqb text "because" then F.lit 55 100
             else F.lit 1 10)
       else F.f0_0;
     generate_content := fun _ _ => Ok "I cannot judge this.";
     json_loads := fun _ => inl "Expecting value" |}.

(** The decoder reads [v] out of every text; the generative model answers
    ["{}"]; every similarity is 0.5. *)
Definition replying_world (v : json) : World :=
  scripted_world (fun _ => F.f0_5) (fun _ _ => Ok "{}") (fun _ => inr v).

(** The embedding model is down; the decoder reads [v] out of every
    text. *)
Definition deaf_world (v : json) : World :=
  {| tensor := unit;
     encode := fun _ _ => Raise (Exn ModelError "embedding model unavailable");
     cosine_similarity := fun _ _ => F.f0_0;
     generate_content := fun _ _ => Ok "{}";
     json_loads := fun _ => inr v |}.

(** The generative model proposes [example_question] and judges it Y,
    appropriate, 0.9. *)
Definition tutoring_world : World :=
  scripted_world (fun _ => F.f0_5)
    (fun _ p =>
       match p with
       | VerificationPrompt _ _ _ _ => Ok "judgment"
       | _ => Ok "questions"
       end)
    (fun text =>
       if String.eqb text "judgment" then inr (judgment "Y" "적절" (F.lit 9 10))
       else inr (JObj [("questions", JArr [example_question])])).

(** ** Notions for the properties *)

(** The words that [normalize_answer] joins with single blanks before it
    deletes the punctuation: the blank-delimited words of the answer once it
    is in lower case and without its parentheticals. *)
Definition answer_words (x : string) : list Text.chars :=
  Text.split_ws (Text.sub_paren (Text.lower_chars (Text.of_string x))).

(** A word made of the characters [. , ! ? ; :] only. *)
Definition all_punct (w : Text.chars) : bool := forallb Text.is_punct w.

(** A word that is not empty. *)
Definition some_char (w : Text.chars) : bool :=
  match w with [] => false | _ => true end.

(** [isinstance(v, dict)] *)
Definition is_dict (v : json) : bool :=
  match v with JObj _ => true | _ => false end.

(** A verification that lets a question through: valid, with a total score
    of at least 0.6. *)
Definition accepted (v : verification) : Prop :=
  is_valid v = true /\ exists t, total_score v = Some t /\ F.ge t F.f0_6 = true.

(** [p] comes before [q] in a descending order of the similarity. *)
Definition desc {A} (p q : A * F.float) : Prop := F.ge (snd p) (snd q) = true.

(** The similarity is a number. *)
Definition has_number {A} (p : A * F.float) : Prop := snd p <> S754_nan.

(** Fenced blocks in a model response. *)
Module Fence.
Import Text.

Definition tick : ascii := "`"%char.

Definition fence : chars := of_string "```".
Definition fence_json : chars := of_string "```json".

(** No backtick in a text. *)
Definition no_tick (s : chars) : Prop := Forall (fun c => Ascii.eqb c tick = false) s.

(** The text does not begin with a backtick. *)
Definition head_not_tick (s : chars) : Prop :=
  match s with
  | [] => True
  | c :: _ => Ascii.eqb c tick = false
  end.

(** [extract_json_text] on the characters. *)
Definition extract_chars (text : chars) : chars :=
  let fj := of_string "```json" in
  let f := of_string "```" in
  let t := strip_chars text in
  if contains fj t
  then strip_chars (nth 0 (split_on f (nth 1 (split_on fj t) [])) [])
  else if contains f t
  then strip_chars (nth 1 (split_on f t) [])
  else t.

(** [s.split(sep)[0]]: the text before the first occurrence, or all of it. *)
Definition before (sep s : chars) : chars :=
  match find_sep sep s with
  | Some (b, _) => b
  | None => s
  end.

(** The blanks at the end removed. *)
Definition rskip (s : chars) : chars := rev (skip_space (rev s)).

End Fence.

(* ================================================================== *)
(** * Part II: properties *)
(* ================================================================== *)

(** ** Facts about the text primitives *)

Module TextFacts.
Import Text.

Lemma of_to_string (l : chars) : of_string (to_string l) = l.
Proof. apply list_ascii_of_string_of_list_ascii. Qed.

Lemma to_of_string (s : string) : to_string (of_string s) = s.
Proof. apply string_of_list_ascii_of_string. Qed.


(** Facts about single characters, by enumeration of the 256 of them. *)
Ltac by_cases_on_char c :=
  destruct c as [[] [] [] [] [] [] [] []]; vm_compute; try reflexivity; try discriminate; auto.

Lemma lower_char_idem (c : ascii) : lowered (lower_char c).
Proof. unfold lowered. by_cases_on_char c. Qed.

Lemma paren_nonspace (c : ascii) : is_paren c = true -> nonspace c = true.
Proof. by_cases_on_char c. Qed.

Lemma paren_nonpunct (c : ascii) : is_paren c = true -> nonpunct c = true.
Proof. by_cases_on_char c. Qed.

Lemma space_lowered : lowered " ".
Proof. reflexivity. Qed.

(** *** Filters *)

Lemma filter_refines {A} (p q : A -> bool) (l : list A) :
  (forall x, p x = true -> q x = true) ->
  filter p (filter q l) = filter p l.
Proof.
  intros Hpq. induction l as [|x l IH]; simpl; [reflexivity|].
  destruct (q x) eqn:Hq; simpl.
  - now rewrite IH.
  - destruct (p x) eqn:Hp; [|exact IH].
    apply Hpq in Hp. congruence.
Qed.

Lemma filter_all {A} (p : A -> bool) (l : list A) :
  Forall (fun x => p x = true) l -> filter p l = l.
Proof.
  induction 1 as [|x l Hx _ IH]; simpl; [reflexivity|].
  now rewrite Hx, IH.
Qed.

Lemma filter_Forall {A} (p : A -> bool) (l : list A) :
  Forall (fun x => p x = true) (filter p l).
Proof.
  induction l as [|x l IH]; simpl; [constructor|].
  destruct (p x) eqn:Hp; [constructor|]; assumption.
Qed.

Lemma Forall_filter_keep {A} (P : A -> Prop) (p : A -> bool) (l : list A) :
  Forall P l -> Forall P (filter p l).
Proof.
  induction 1 as [|x l Hx _ IH]; simpl; [constructor|].
  destruct (p x); [constructor|]; assumption.
Qed.

(** *** Splitting on blanks and joining *)


Lemma split_ws_from_words (s cur : chars) :
  Forall (fun c => nonspace c = true) cur ->
  Forall word (split_ws_from cur s).
Proof.
  revert cur. induction s as [|c s IH]; intros cur Hcur; simpl.
  - destruct cur as [|a cur]; constructor; [|constructor].
    split.
    + intro H. apply (f_equal (@List.length _)) in H.
      rewrite length_rev in H. discriminate.
    + now apply Forall_rev.
  - destruct (isspace c) eqn:Hc.
    + destruct cur as [|a cur]; [now apply IH|].
      constructor; [|now apply IH].
      split.
      * intro H. apply (f_equal (@List.length _)) in H.
        rewrite length_rev in H. discriminate.
      * now apply Forall_rev.
    + apply IH. constructor; [|assumption].
      unfold nonspace. now rewrite Hc.
Qed.

Lemma split_ws_from_app (w rest cur : chars) :
  Forall (fun c => nonspace c = true) w ->
  split_ws_from cur (w ++ rest) = split_ws_from (rev w ++ cur) rest.
Proof.
  revert cur. induction w as [|c w IH]; intros cur Hw; simpl; [reflexivity|].
  inversion Hw as [|? ? Hc Hw']; subst.
  unfold nonspace in Hc. apply negb_true_iff in Hc. rewrite Hc.
  rewrite IH by assumption. now rewrite <- app_assoc.
Qed.

Lemma split_join (ws : list chars) :
  Forall word ws -> split_ws (join space ws) = ws.
Proof.
  unfold split_ws.
  induction 1 as [|w ws [Hne Hw] Hws IH]; [reflexivity|].
  assert (Hrev : rev w <> []).
  { intro H. apply Hne. apply (f_equal (@rev _)) in H.
    now rewrite rev_involutive in H. }
  destruct ws as [|w2 ws].
  - simpl. rewrite <- (app_nil_r w) at 1.
    rewrite split_ws_from_app by assumption. simpl. rewrite app_nil_r.
    destruct (rev w) eqn:E; [contradiction|].
    now rewrite <- E, rev_involutive.
  - change (join space (w :: w2 :: ws)) with (w ++ space ++ join space (w2 :: ws)).
    rewrite split_ws_from_app by assumption. rewrite app_nil_r.
    remember (join space (w2 :: ws)) as tl eqn:Etl.
    change (space ++ tl) with (" "%char :: tl).
    change (split_ws_from (rev w) (" "%char :: tl))
      with (match rev w with
            | [] => split_ws_from [] tl
            | _ => rev (rev w) :: split_ws_from [] tl
            end).
    destruct (rev w) eqn:E; [contradiction|].
    rewrite <- E, rev_involutive. now rewrite IH.
Qed.

Lemma collapse_ws_idem (s : chars) : collapse_ws (collapse_ws s) = collapse_ws s.
Proof.
  unfold collapse_ws. rewrite split_join; [reflexivity|].
  apply split_ws_from_words. constructor.
Qed.

(** What a transformation keeps of a property of all characters. *)

Lemma join_Forall (P : ascii -> Prop) (ws : list chars) :
  P " "%char -> Forall (Forall P) ws -> Forall P (join space ws).
Proof.
  intros Hsp. induction 1 as [|w ws Hw Hws IH]; [constructor|].
  destruct ws as [|w2 ws]; [exact Hw|].
  change (join space (w :: w2 :: ws)) with (w ++ space ++ join space (w2 :: ws)).
  apply Forall_app. split; [exact Hw|].
  apply Forall_app. split; [|exact IH].
  constructor; [exact Hsp|constructor].
Qed.

Lemma split_ws_from_Forall (P : ascii -> Prop) (s cur : chars) :
  Forall P cur -> Forall P s -> Forall (Forall P) (split_ws_from cur s).
Proof.
  revert cur. induction s as [|c s IH]; intros cur Hcur Hs; simpl.
  - destruct cur; constructor; [|constructor]. now apply Forall_rev.
  - inversion Hs as [|? ? Hc Hs']; subst.
    destruct (isspace c).
    + destruct cur as [|a cur]; [now apply IH|].
      constructor; [now apply Forall_rev|now apply IH].
    + apply IH; [constructor|]; assumption.
Qed.

Lemma collapse_ws_Forall (P : ascii -> Prop) (s : chars) :
  P " "%char -> Forall P s -> Forall P (collapse_ws s).
Proof.
  intros Hsp Hs. apply join_Forall; [exact Hsp|].
  apply split_ws_from_Forall; [constructor|exact Hs].
Qed.

Lemma Forall_skip_space (P : ascii -> Prop) (s : chars) :
  Forall P s -> Forall P (skip_space s).
Proof.
  induction 1 as [|c s Hc Hs IH]; simpl; [constructor|].
  destruct (isspace c); [exact IH|now constructor].
Qed.

Lemma Forall_after_close (P : ascii -> Prop) (s rest : chars) :
  Forall P s -> after_close s = Some rest -> Forall P rest.
Proof.
  induction 1 as [|c s Hc Hs IH]; simpl; [discriminate|].
  destruct (Ascii.eqb c ")"); [|exact IH].
  intros [= <-]. exact Hs.
Qed.

Lemma Forall_match_paren (P : ascii -> Prop) (s rest : chars) :
  Forall P s -> match_paren s = Some rest -> Forall P rest.
Proof.
  intros Hs. unfold match_paren.
  pose proof (Forall_skip_space P s Hs) as Hk.
  destruct (skip_space s) as [|c s']; [discriminate|].
  destruct (Ascii.eqb c "("); [|discriminate].
  inversion Hk; subst. now apply Forall_after_close.
Qed.

Lemma sub_paren_fuel_Forall (P : ascii -> Prop) (fuel : nat) (s : chars) :
  Forall P s -> Forall P (sub_paren_fuel fuel s).
Proof.
  revert s. induction fuel as [|n IH]; intros s Hs; simpl; [exact Hs|].
  destruct s as [|c s']; [constructor|].
  destruct (match_paren (c :: s')) as [rest|] eqn:Hm.
  - apply IH. eapply Forall_match_paren; eassumption.
  - inversion Hs; subst. constructor; [assumption|now apply IH].
Qed.

(** *** The blanks removed, [collapse_ws] changes nothing *)

Lemma join_filter_nonspace (w : chars) (ws : list chars) :
  filter nonspace (join space (w :: ws)) =
  filter nonspace w ++ filter nonspace (join space ws).
Proof.
  destruct ws as [|w2 ws].
  - simpl. now rewrite app_nil_r.
  - change (join space (w :: w2 :: ws)) with (w ++ space ++ join space (w2 :: ws)).
    now rewrite !filter_app.
Qed.

Lemma split_ws_from_filter (s cur : chars) :
  Forall (fun c => nonspace c = true) cur ->
  filter nonspace (join space (split_ws_from cur s)) = rev cur ++ filter nonspace s.
Proof.
  revert cur. induction s as [|c s IH]; intros cur Hcur.
  - simpl. destruct cur as [|a cur]; [reflexivity|].
    rewrite app_nil_r. apply filter_all. now apply Forall_rev.
  - simpl split_ws_from.
    change (filter nonspace (c :: s))
      with (if nonspace c then c :: filter nonspace s else filter nonspace s).
    assert (Hn : nonspace c = negb (isspace c)) by reflexivity.
    destruct (isspace c) eqn:Hc; simpl in Hn; rewrite Hn.
    + destruct cur as [|a cur]; [now apply (IH [])|].
      rewrite join_filter_nonspace, (IH []) by constructor.
      simpl app at 2. f_equal. apply filter_all. now apply Forall_rev.
    + rewrite IH.
      * simpl. now rewrite <- app_assoc.
      * constructor; [|assumption]. unfold nonspace. now rewrite Hc.
Qed.

Lemma collapse_ws_filter (s : chars) :
  filter nonspace (collapse_ws s) = filter nonspace s.
Proof. unfold collapse_ws, split_ws. now rewrite split_ws_from_filter. Qed.

(** *** Parentheses *)


Lemma existsb_close_filter (s : chars) :
  existsb (fun x => Ascii.eqb x ")") (filter is_paren s) =
  existsb (fun x => Ascii.eqb x ")") s.
Proof.
  induction s as [|c s IH]; [reflexivity|]. simpl.
  unfold is_paren at 1.
  destruct (Ascii.eqb c "(") eqn:Ho, (Ascii.eqb c ")") eqn:Hc; simpl;
    rewrite ?Hc, ?IH; reflexivity.
Qed.

Lemma has_pair_filter (s : chars) : has_pair (filter is_paren s) = has_pair s.
Proof.
  induction s as [|c s IH]; [reflexivity|]. simpl.
  unfold is_paren at 1.
  destruct (Ascii.eqb c "(") eqn:Ho, (Ascii.eqb c ")") eqn:Hc; simpl;
    rewrite ?Ho, ?existsb_close_filter, ?IH; reflexivity.
Qed.

Lemma has_pair_collapse_ws (s : chars) : has_pair (collapse_ws s) = has_pair s.
Proof.
  rewrite <- (has_pair_filter (collapse_ws s)), <- (has_pair_filter s).
  rewrite <- (filter_refines is_paren nonspace (collapse_ws s)) by apply paren_nonspace.
  rewrite collapse_ws_filter.
  now rewrite filter_refines by apply paren_nonspace.
Qed.

Lemma has_pair_sub_punct (s : chars) : has_pair (sub_punct s) = has_pair s.
Proof.
  rewrite <- (has_pair_filter (sub_punct s)), <- (has_pair_filter s).
  unfold sub_punct.
  now rewrite (filter_refines is_paren (fun c => negb (is_punct c))) by apply paren_nonpunct.
Qed.

Lemma after_close_some (s rest : chars) :
  after_close s = Some rest -> existsb (fun x => Ascii.eqb x ")") s = true.
Proof.
  revert rest. induction s as [|c s IH]; simpl; [discriminate|].
  intros rest. destruct (Ascii.eqb c ")"); [reflexivity|]. apply IH.
Qed.

Lemma after_close_none (s : chars) :
  after_close s = None -> Forall (fun x => Ascii.eqb x ")" = false) s.
Proof.
  induction s as [|c s IH]; simpl; [constructor|].
  destruct (Ascii.eqb c ")") eqn:Hc; [discriminate|].
  intros H. constructor; [exact Hc|now apply IH].
Qed.

Lemma has_pair_skip_space (s : chars) :
  has_pair (skip_space s) = true -> has_pair s = true.
Proof.
  induction s as [|c s IH]; simpl; [trivial|].
  destruct (isspace c) eqn:Hs; [|trivial].
  intros H. apply IH in H. rewrite H.
  destruct (Ascii.eqb c "("); [apply orb_true_r|reflexivity].
Qed.

Lemma match_paren_has_pair (s rest : chars) :
  match_paren s = Some rest -> has_pair s = true.
Proof.
  unfold match_paren. intros H. apply has_pair_skip_space.
  destruct (skip_space s) as [|c s']; [discriminate|]. simpl.
  destruct (Ascii.eqb c "("); [|discriminate].
  now rewrite (after_close_some _ _ H).
Qed.

Lemma has_pair_tail (c : ascii) (s : chars) :
  has_pair (c :: s) = false -> has_pair s = false.
Proof.
  simpl. destruct (Ascii.eqb c "("); [|trivial].
  intros H. now apply orb_false_iff in H.
Qed.

(** Without a pair there is nothing to substitute. *)
Lemma sub_paren_fuel_fix (fuel : nat) (s : chars) :
  has_pair s = false -> sub_paren_fuel fuel s = s.
Proof.
  revert s. induction fuel as [|n IH]; intros s Hs; simpl; [reflexivity|].
  destruct s as [|c s']; [reflexivity|].
  destruct (match_paren (c :: s')) as [rest|] eqn:Hm.
  - apply match_paren_has_pair in Hm. congruence.
  - f_equal. apply IH. eapply has_pair_tail; eassumption.
Qed.

Lemma skip_space_length (s : chars) : (List.length (skip_space s) <= List.length s)%nat.
Proof.
  induction s as [|c s IH]; simpl; [lia|].
  destruct (isspace c); simpl; lia.
Qed.

Lemma after_close_length (s rest : chars) :
  after_close s = Some rest -> (List.length rest < List.length s)%nat.
Proof.
  revert rest. induction s as [|c s IH]; simpl; [discriminate|].
  intros rest. destruct (Ascii.eqb c ")").
  - intros [= <-]. lia.
  - intros H. apply IH in H. lia.
Qed.

Lemma match_paren_length (s rest : chars) :
  match_paren s = Some rest -> (List.length rest < List.length s)%nat.
Proof.
  unfold match_paren. pose proof (skip_space_length s) as Hk.
  destruct (skip_space s) as [|c s']; [discriminate|].
  destruct (Ascii.eqb c "("); [|discriminate].
  intros H. apply after_close_length in H. simpl in Hk. lia.
Qed.

Lemma open_not_space (c : ascii) : Ascii.eqb c "(" = true -> isspace c = false.
Proof. by_cases_on_char c. Qed.

(** With enough rounds the substitution leaves no pair. *)
Lemma sub_paren_fuel_no_pair (fuel : nat) (s : chars) :
  (List.length s <= fuel)%nat -> has_pair (sub_paren_fuel fuel s) = false.
Proof.
  revert s. induction fuel as [|n IH]; intros s Hlen.
  - destruct s; [reflexivity|simpl in Hlen; lia].
  - simpl. destruct s as [|c s']; [reflexivity|].
    destruct (match_paren (c :: s')) as [rest|] eqn:Hm.
    + apply IH. apply match_paren_length in Hm. simpl in *. lia.
    + simpl in Hlen. simpl.
      rewrite IH by lia.
      destruct (Ascii.eqb c "(") eqn:Ho; [|reflexivity].
      rewrite orb_false_r.
      unfold match_paren in Hm. simpl in Hm.
      rewrite (open_not_space _ Ho), Ho in Hm.
      apply after_close_none in Hm.
      apply (sub_paren_fuel_Forall _ n) in Hm.
      clear -Hm. induction Hm as [|x l Hx _ IHl]; simpl; [reflexivity|].
      now rewrite Hx.
Qed.

Lemma sub_paren_no_pair (s : chars) : has_pair (sub_paren s) = false.
Proof. apply sub_paren_fuel_no_pair. constructor. Qed.

Lemma sub_paren_fix (s : chars) : has_pair s = false -> sub_paren s = s.
Proof. apply sub_paren_fuel_fix. Qed.

(** More rounds than characters change nothing. *)
Lemma sub_paren_fuel_enough (fuel : nat) (s : chars) :
  (List.length s <= fuel)%nat -> sub_paren_fuel fuel s = sub_paren s.
Proof.
  unfold sub_paren. remember (List.length s) as m eqn:Hm.
  assert (Hle : (List.length s <= m)%nat) by lia. clear Hm.
  revert s m Hle. induction fuel as [|n IH]; intros s m Hle Hlen.
  - destruct s; simpl in *; [now destruct m|lia].
  - destruct m as [|m]; [destruct s; simpl in *; [reflexivity|lia]|].
    simpl. destruct s as [|c s']; [reflexivity|].
    destruct (match_paren (c :: s')) as [rest|] eqn:Hmp.
    + apply match_paren_length in Hmp. simpl in *. apply IH; lia.
    + simpl in *. f_equal. apply IH; lia.
Qed.
(** *** Splitting on a marker *)

Lemma split_on_fuel_not_nil (fuel : nat) (sep s : chars) : split_on_fuel fuel sep s <> [].
Proof.
  destruct fuel; simpl; [discriminate|].
  destruct (find_sep sep s) as [[b a]|]; discriminate.
Qed.

(** Where [sep in s] holds, [s.split(sep)] has an element of index 1: the
    reads [split(...)[1]] of [extract_json_text] do not raise. *)
Lemma split_on_second (sep s : chars) :
  sep <> [] -> contains sep s = true ->
  (2 <= List.length (split_on sep s))%nat.
Proof.
  intros Hsep. unfold contains, split_on.
  destruct (find_sep sep s) as [[b a]|] eqn:E; [intros _|discriminate].
  destruct s as [|c s'].
  - destruct sep; [contradiction|discriminate].
  - cbn [List.length split_on_fuel]. rewrite E. cbn [List.length].
    pose proof (split_on_fuel_not_nil (List.length s') sep a) as Hne.
    destruct (split_on_fuel (List.length s') sep a); [contradiction|simpl; lia].
Qed.

Lemma py_split_on_second (sep s : string) :
  sep <> "" -> py_in sep s = true -> (2 <= List.length (py_split_on sep s))%nat.
Proof.
  intros Hsep Hin. unfold py_split_on. rewrite length_map.
  apply split_on_second; [|exact Hin].
  intros H. apply Hsep. rewrite <- (to_of_string sep). now rewrite H.
Qed.
End TextFacts.

(** ** Facts about computations *)

Module MonadFacts.

Lemma bind_ok {A B} (m : M A) (k : A -> M B) (tr tr1 : trace) (a : A) :
  m tr = (Ok a, tr1) -> bind m k tr = k a tr1.
Proof. unfold bind. now intros ->. Qed.

Lemma bind_raise {A B} (m : M A) (k : A -> M B) (tr tr1 : trace) (e : exn) :
  m tr = (Raise e, tr1) -> bind m k tr = (Raise e, tr1).
Proof. unfold bind. now intros ->. Qed.

Lemma bind_inv_ok {A B} (m : M A) (k : A -> M B) (tr tr' : trace) (b : B) :
  bind m k tr = (Ok b, tr') ->
  exists a tr1, m tr = (Ok a, tr1) /\ k a tr1 = (Ok b, tr').
Proof.
  unfold bind. destruct (m tr) as [[a|e] tr1]; [eauto|discriminate].
Qed.

Lemma lift_inv_ok {A} (r : result A) (tr tr' : trace) (a : A) :
  lift r tr = (Ok a, tr') -> r = Ok a /\ tr' = tr.
Proof. unfold lift. now intros [= -> ->]. Qed.

Lemma ret_inv {A} (x a : A) (tr tr' : trace) :
  ret x tr = (Ok a, tr') -> a = x /\ tr' = tr.
Proof. unfold ret. now intros [= -> ->]. Qed.

Lemma try_ok {A} (body : M A) handles handler (tr tr1 : trace) (a : A) :
  body tr = (Ok a, tr1) -> try_except body handles handler tr = (Ok a, tr1).
Proof. unfold try_except. now intros ->. Qed.

Lemma try_handled {A} (body : M A) handles handler (tr tr1 : trace) (e : exn) :
  body tr = (Raise e, tr1) -> handles e = true ->
  try_except body handles handler tr = handler e tr1.
Proof. unfold try_except. now intros -> ->. Qed.

Lemma try_unhandled {A} (body : M A) handles handler (tr tr1 : trace) (e : exn) :
  body tr = (Raise e, tr1) -> handles e = false ->
  try_except body handles handler tr = (Raise e, tr1).
Proof. unfold try_except. now intros -> ->. Qed.

Lemma try_inv_ok {A} (body : M A) handles handler (tr tr' : trace) (a : A) :
  try_except body handles handler tr = (Ok a, tr') ->
  body tr = (Ok a, tr') \/
  exists e tr1, body tr = (Raise e, tr1) /\ handles e = true /\
                handler e tr1 = (Ok a, tr').
Proof.
  unfold try_except. destruct (body tr) as [[x|e] tr1].
  - now left.
  - destruct (handles e) eqn:H; [|discriminate]. right. eauto.
Qed.

(** *** Counting the generation calls of a computation *)

Lemma generation_calls_app (a b : trace) :
  generation_calls (a ++ b) = generation_calls a + generation_calls b.
Proof. unfold generation_calls. now rewrite filter_app, length_app. Qed.


Lemma at_most_ret {A} (a : A) : at_most 0 (ret a).
Proof. intros tr res tr' [= <- <-]. now exists []. Qed.

Lemma at_most_raise {A} (e : exn) : at_most 0 (@raise A e).
Proof. intros tr res tr' [= <- <-]. now exists []. Qed.

Lemma at_most_lift {A} (r : result A) : at_most 0 (lift r).
Proof. intros tr res tr' [= <- <-]. now exists []. Qed.

Lemma at_most_encode (W : World) (text : string) : at_most 0 (model_encode W text).
Proof. intros tr res tr' [= <- <-]. now exists [Encode text]. Qed.

Lemma at_most_generate (W : World) (p : prompt) :
  at_most (if is_generation_call (Generate p) then 1 else 0) (model_generate W p).
Proof.
  intros tr res tr' [= <- <-]. exists [Generate p]. split; [reflexivity|].
  unfold generation_calls. simpl. destruct p; simpl; lia.
Qed.

Lemma at_most_weaken {A} (j k : nat) (m : M A) : j <= k -> at_most j m -> at_most k m.
Proof.
  intros Hjk Hm tr res tr' H. destruct (Hm _ _ _ H) as (new & -> & Hn).
  exists new. split; [reflexivity|lia].
Qed.

Lemma at_most_bind {A B} (j k : nat) (m : M A) (f : A -> M B) :
  at_most j m -> (forall a, at_most k (f a)) -> at_most (j + k) (bind m f).
Proof.
  intros Hm Hf tr res tr'. unfold bind.
  destruct (m tr) as [[a|e] tr1] eqn:Em; destruct (Hm _ _ _ Em) as (new1 & -> & Hn1).
  - intros H. destruct (Hf a _ _ _ H) as (new2 & -> & Hn2).
    exists (new2 ++ new1). rewrite app_assoc, generation_calls_app. split; [reflexivity|lia].
  - intros [= <- <-]. exists new1. split; [reflexivity|lia].
Qed.

Lemma at_most_try {A} (j k : nat) (body : M A) handles handler :
  at_most j body -> (forall e, at_most k (handler e)) ->
  at_most (j + k) (try_except body handles handler).
Proof.
  intros Hb Hh tr res tr'. unfold try_except.
  destruct (body tr) as [[a|e] tr1] eqn:Eb; destruct (Hb _ _ _ Eb) as (new1 & -> & Hn1).
  - intros [= <- <-]. exists new1. split; [reflexivity|lia].
  - destruct (handles e).
    + intros H. destruct (Hh e _ _ _ H) as (new2 & -> & Hn2).
      exists (new2 ++ new1). rewrite app_assoc, generation_calls_app. split; [reflexivity|lia].
    + intros [= <- <-]. exists new1. split; [reflexivity|lia].
Qed.

Lemma at_most_for_each {A B} (xs : list A) (body : B -> A -> M B) :
  (forall acc x, at_most 0 (body acc x)) ->
  forall acc, at_most 0 (for_each xs acc body).
Proof.
  intros Hbody. induction xs as [|x xs IH]; intros acc; simpl.
  - apply at_most_ret.
  - apply (at_most_bind 0 0); [apply Hbody|intros acc'; apply IH].
Qed.

(** A computation built from steps without generation calls makes none. *)
Ltac quiet :=
  repeat first
    [ apply at_most_ret
    | apply at_most_raise
    | apply at_most_lift
    | apply at_most_encode
    | apply (at_most_generate _ (VerificationPrompt _ _ _ _))
    | apply at_most_for_each; intros
    | apply (at_most_bind 0 0); [|intros]
    | apply (at_most_try 0 0); [|intros]
    | match goal with
      | |- at_most _ (if ?c then _ else _) => destruct c
      | |- at_most _ (match ?c with _ => _ end) => destruct c
      end ].

End MonadFacts.

(** ** Facts about floats *)

Module FloatFacts.

Lemma mul_comm (x y : F.float) : F.mul x y = F.mul y x.
Proof.
  unfold F.mul.
  destruct x as [sx|sx| |sx mx ex], y as [sy|sy| |sy my ey]; simpl;
    rewrite ?(xorb_comm sx sy); try reflexivity.
  now rewrite Pos.mul_comm, Z.add_comm.
Qed.

(** Below a positive constant [c] means not at or above a constant [d]
    that is no smaller than [c]; this needs no assumption on [x], which
    may be a NaN, an infinity or a zero. *)
Lemma lt_then_not_ge (x : F.float) (mc md : positive) (ec ed : Z) :
  (ec < ed \/ (ec = ed /\ (mc <= md)%positive))%Z ->
  F.lt x (S754_finite false mc ec) = true ->
  F.ge x (S754_finite false md ed) = false.
Proof.
  intros Hcd. unfold F.lt, F.ge, SFltb, SFleb.
  destruct x as [[]|[]| |[] m e]; simpl; try congruence.
  rewrite !Pos.compare_cont_spec. simpl.
  destruct (Z.compare_spec e ec) as [He|He|He]; try discriminate;
  destruct (Z.compare_spec ed e) as [Hd|Hd|Hd]; try reflexivity; try lia.
  subst. destruct (Pos.compare_spec m mc); try discriminate.
  destruct (Pos.compare_spec md m); try reflexivity; lia.
Qed.

Lemma lt_0_8_not_ge_0_8 (x : F.float) : F.lt x F.f0_8 = true -> F.ge x F.f0_8 = false.
Proof. apply lt_then_not_ge. right. split; [reflexivity|apply Pos.le_refl]. Qed.

Lemma lt_0_6_not_ge_0_6 (x : F.float) : F.lt x F.f0_6 = true -> F.ge x F.f0_6 = false.
Proof. apply lt_then_not_ge. right. split; [reflexivity|apply Pos.le_refl]. Qed.

Lemma lt_0_6_not_ge_0_8 (x : F.float) : F.lt x F.f0_6 = true -> F.ge x F.f0_8 = false.
Proof. apply lt_then_not_ge. right. split; [reflexivity|]. vm_compute. discriminate. Qed.

(** The literals of the code are the correctly rounded decimals. *)
Lemma literals :
  F.f0_3 = S754_finite false 5404319552844595 (-54) /\
  F.f0_4 = S754_finite false 7205759403792794 (-54) /\
  F.f0_5 = S754_finite false 4503599627370496 (-53) /\
  F.f0_6 = S754_finite false 5404319552844595 (-53) /\
  F.f0_7 = S754_finite false 6305039478318694 (-53) /\
  F.f0_8 = S754_finite false 7205759403792794 (-53) /\
  F.f1_0 = S754_finite false 4503599627370496 (-52).
Proof. repeat split. Qed.
End FloatFacts.

(** ** The answer normalizer *)

Module NormalizeFacts.
Import Text TextFacts.


Lemma normalize_answer_chars (x : string) :
  normalize_answer x = to_string (norm_chars (of_string x)).
Proof. reflexivity. Qed.


Lemma lower_chars_lowered (s : chars) : Forall lowered (lower_chars s).
Proof.
  induction s as [|c s IH]; simpl; constructor; [apply lower_char_idem|exact IH].
Qed.

Lemma lower_chars_fix (s : chars) : Forall lowered s -> lower_chars s = s.
Proof.
  induction 1 as [|c s Hc _ IH]; simpl; [reflexivity|]. now rewrite Hc, IH.
Qed.

Lemma lower_char_nonpunct (c : ascii) : nonpunct (lower_char c) = nonpunct c.
Proof. by_cases_on_char c. Qed.

Lemma lower_chars_nonpunct (s : chars) :
  Forall (fun c => nonpunct c = true) s ->
  Forall (fun c => nonpunct c = true) (lower_chars s).
Proof.
  induction 1 as [|c s Hc _ IH]; simpl; constructor; [|exact IH].
  now rewrite lower_char_nonpunct.
Qed.

Lemma sub_punct_fix (s : chars) :
  Forall (fun c => nonpunct c = true) s -> sub_punct s = s.
Proof. apply filter_all. Qed.

Lemma norm_chars_clean (s : chars) : clean (norm_chars s).
Proof.
  unfold norm_chars. repeat split.
  - apply Forall_filter_keep, collapse_ws_Forall; [exact space_lowered|].
    apply sub_paren_fuel_Forall, lower_chars_lowered.
  - rewrite has_pair_sub_punct, has_pair_collapse_ws. apply sub_paren_no_pair.
  - apply (filter_Forall (fun c => negb (is_punct c))).
Qed.

Lemma collapse_ws_clean (s : chars) : clean s -> clean (collapse_ws s).
Proof.
  intros (Hl & Hp & Hq). repeat split.
  - apply collapse_ws_Forall; [exact space_lowered|exact Hl].
  - now rewrite has_pair_collapse_ws.
  - apply collapse_ws_Forall; [reflexivity|exact Hq].
Qed.

(** On a clean text only the blanks are left to normalize. *)
Lemma norm_chars_on_clean (s : chars) : clean s -> norm_chars s = collapse_ws s.
Proof.
  intros Hc. pose proof (collapse_ws_clean s Hc) as (_ & _ & Hq).
  destruct Hc as (Hl & Hp & _). unfold norm_chars.
  rewrite (lower_chars_fix s Hl), (sub_paren_fix s Hp).
  now apply sub_punct_fix.
Qed.

Lemma norm_chars_twice_fixed (s : chars) :
  norm_chars (norm_chars (norm_chars s)) = norm_chars (norm_chars s).
Proof.
  pose proof (norm_chars_clean s) as Hc.
  rewrite (norm_chars_on_clean (norm_chars s) Hc).
  rewrite (norm_chars_on_clean _ (collapse_ws_clean _ Hc)).
  apply collapse_ws_idem.
Qed.
(** *** When a second pass changes the result *)

Lemma sub_punct_join (ws : list chars) :
  sub_punct (join space ws) = join space (map sub_punct ws).
Proof.
  induction ws as [|w ws IH]; [reflexivity|].
  destruct ws as [|w2 ws]; [reflexivity|].
  change (join space (w :: w2 :: ws)) with (w ++ space ++ join space (w2 :: ws)).
  change (map sub_punct (w :: w2 :: ws)) with (sub_punct w :: map sub_punct (w2 :: ws)).
  unfold sub_punct at 1. rewrite !filter_app. fold (sub_punct w).
  fold (sub_punct (join space (w2 :: ws))). rewrite IH. reflexivity.
Qed.

(** Splitting joined words gives back the words that are not empty. *)
Lemma split_join_some (l : list chars) :
  Forall (Forall (fun c => nonspace c = true)) l ->
  split_ws (join space l) = filter some_char l.
Proof.
  unfold split_ws.
  induction 1 as [|w l Hw Hl IH]; [reflexivity|].
  assert (Hrev : forall tl,
    match rev w with [] => tl | _ => rev (rev w) :: tl end =
    if some_char w then w :: tl else tl).
  { intros tl. destruct w as [|c w']; [reflexivity|]. cbn [some_char].
    destruct (rev (c :: w')) eqn:E; [|now rewrite <- E, rev_involutive].
    apply (f_equal (@List.length _)) in E. rewrite length_rev in E. discriminate. }
  destruct l as [|w2 l].
  - cbn [join filter]. rewrite <- (app_nil_r w) at 1.
    rewrite split_ws_from_app by exact Hw. rewrite app_nil_r.
    cbn [split_ws_from]. exact (Hrev []).
  - change (join space (w :: w2 :: l)) with (w ++ " "%char :: join space (w2 :: l)).
    rewrite split_ws_from_app by exact Hw. rewrite app_nil_r.
    change (split_ws_from (rev w) (" "%char :: join space (w2 :: l)))
      with (match rev w with
            | [] => split_ws_from [] (join space (w2 :: l))
            | _ => rev (rev w) :: split_ws_from [] (join space (w2 :: l))
            end).
    rewrite Hrev, IH. cbn [filter]. destruct (some_char w); reflexivity.
Qed.

Lemma join_length (l : list chars) :
  List.length (join space l) = list_sum (map (@List.length _) l) + pred (List.length l).
Proof.
  induction l as [|w l IH]; [reflexivity|].
  destruct l as [|w2 l]; [simpl; lia|].
  change (join space (w :: w2 :: l)) with (w ++ space ++ join space (w2 :: l)).
  rewrite !length_app, IH. simpl. lia.
Qed.

Lemma filter_some_sum (l : list chars) :
  list_sum (map (@List.length _) (filter some_char l)) = list_sum (map (@List.length _) l).
Proof.
  induction l as [|w l IH]; [reflexivity|].
  destruct w; simpl; [exact IH|]. now rewrite IH.
Qed.

Lemma filter_same_length {A} (p : A -> bool) (l : list A) :
  List.length (filter p l) = List.length l -> filter p l = l.
Proof.
  induction l as [|x l IH]; [reflexivity|]. simpl.
  pose proof (filter_length_le p l) as Hle.
  destruct (p x); simpl; intros H; [f_equal; apply IH; lia|lia].
Qed.

(** Dropping the empty words changes the joined text unless there is none
    to drop or the empty word is the only one. *)
Lemma join_without_empty (l : list chars) :
  join space (filter some_char l) = join space l <->
  filter some_char l = l \/ l = [[]].
Proof.
  split.
  - intros E. apply (f_equal (@List.length _)) in E.
    rewrite !join_length, filter_some_sum in E.
    pose proof (filter_length_le some_char l) as Hle.
    destruct (Nat.eq_dec (List.length (filter some_char l)) (List.length l)) as [Heq|Hne].
    + left. now apply filter_same_length.
    + right. destruct l as [|w [|w2 l]].
      * simpl in Hne. contradiction.
      * destruct w; [reflexivity|]. simpl in Hne. contradiction.
      * exfalso. cbn [List.length] in *.
        destruct (filter some_char (w :: w2 :: l)) as [|a [|b r]] eqn:Ef;
          cbn [List.length pred] in *; lia.
  - intros [->| ->]; reflexivity.
Qed.

Lemma sub_punct_nil (w : chars) : some_char (sub_punct w) = negb (forallb is_punct w).
Proof.
  induction w as [|c w IH]; [reflexivity|]. unfold sub_punct in *. simpl.
  destruct (is_punct c); simpl; [exact IH|reflexivity].
Qed.

Lemma filter_some_sub_punct (ws : list chars) :
  filter some_char (map sub_punct ws) = map sub_punct ws <->
  existsb (forallb is_punct) ws = false.
Proof.
  induction ws as [|w ws IH]; [split; reflexivity|].
  cbn [map filter existsb]. rewrite sub_punct_nil.
  destruct (forallb is_punct w); cbn [negb orb].
  - split; [|discriminate]. intros E. exfalso.
    apply (f_equal (@List.length _)) in E. cbn [List.length] in E.
    pose proof (filter_length_le some_char (map sub_punct ws)). lia.
  - rewrite <- IH. split; [now intros [= E]|now intros ->].
Qed.

Lemma words_condition (ws : list chars) :
  filter some_char (map sub_punct ws) = map sub_punct ws \/ map sub_punct ws = [[]] <->
  List.length ws <= 1 \/ existsb (forallb is_punct) ws = false.
Proof.
  rewrite filter_some_sub_punct. split.
  - intros [H|H]; [now right|left].
    apply (f_equal (@List.length _)) in H. rewrite length_map in H. simpl in H. lia.
  - intros [H|H]; [|now left].
    destruct ws as [|w [|w2 ws]]; [now left| |simpl in H; lia].
    cbn [existsb map]. destruct (forallb is_punct w) eqn:Hw; [right|now left].
    f_equal. pose proof (sub_punct_nil w) as E. rewrite Hw in E.
    destruct (sub_punct w); [reflexivity|discriminate].
Qed.

(** The second pass of the normalizer changes its result exactly when there
    are two words or more and one of them is punctuation only. *)
Lemma norm_chars_idem_iff (s : chars) :
  norm_chars (norm_chars s) = norm_chars s <->
  let ws := split_ws (sub_paren (lower_chars s)) in
  List.length ws <= 1 \/ existsb (forallb is_punct) ws = false.
Proof.
  cbv zeta. set (ws := split_ws (sub_paren (lower_chars s))).
  assert (Hwords : Forall word ws) by (apply split_ws_from_words; constructor).
  assert (Hl : Forall (Forall (fun c => nonspace c = true)) (map sub_punct ws)).
  { apply Forall_map. eapply Forall_impl; [|exact Hwords].
    intros w [_ Hw]. now apply Forall_filter_keep. }
  assert (E1 : norm_chars s = join space (map sub_punct ws)).
  { unfold norm_chars, collapse_ws. fold ws. apply sub_punct_join. }
  rewrite (norm_chars_on_clean _ (norm_chars_clean s)).
  rewrite E1. unfold collapse_ws. rewrite (split_join_some _ Hl).
  rewrite join_without_empty. apply words_condition.
Qed.
End NormalizeFacts.

(** C7: [normalize(" The Cat! (informal) ")] is ["the cat"], but the
    normalizer is not idempotent.  It collapses the blanks before it deletes
    the punctuation, so a word made of punctuation marks leaves the blanks
    around it behind: ["a . b"] becomes ["a  b"], which a second pass turns
    into ["a b"], and ["yes ."] becomes ["yes "], which does not match the
    normal form of ["yes"] when the answer is graded.  The second pass
    changes the result exactly when the answer, in lower case and without
    its parentheticals, has two words or more of which one is punctuation
    only; a third pass never changes anything. *)
Theorem C7_normalizer_is_not_idempotent :
  normalize_answer " The Cat! (informal) " = "the cat" /\
  (normalize_answer "a . b" = "a  b" /\
   normalize_answer (normalize_answer "a . b") = "a b") /\
  (normalize_answer "yes ." = "yes " /\
   normalize_answer "yes" = "yes" /\
   Main.check_answer
     (scripted_world (fun _ => F.f0_0) (fun _ _ => Ok "Check again.") (fun _ => inl "no JSON"))
     (submission (JStr "Is water wet?") "yes ." "yes" (JStr "multiple_choice")) [] =
   (Ok {| pa_question := JStr "Is water wet?";
          pa_user_answer := "yes .";
          pa_correct_answer := "yes";
          is_correct := IsFalse;
          score := F.f0_0;
          feedback := "Check again.";
          similarity := None |},
    [Generate (FeedbackPrompt (JStr "Is water wet?") "yes ." "yes" "틀림")])) /\
  (forall x,
     normalize_answer (normalize_answer x) = normalize_answer x <->
     List.length (answer_words x) <= 1 \/ existsb all_punct (answer_words x) = false) /\
  (forall x,
     normalize_answer (normalize_answer (normalize_answer x)) =
     normalize_answer (normalize_answer x)).
Proof.
  split; [reflexivity|].
  split; [split; reflexivity|].
  split; [repeat split; vm_compute; reflexivity|].
  split.
  - intros x. rewrite !NormalizeFacts.normalize_answer_chars, TextFacts.of_to_string.
    rewrite <- (NormalizeFacts.norm_chars_idem_iff (Text.of_string x)).
    split.
    + intros E. apply (f_equal Text.of_string) in E.
      now rewrite !TextFacts.of_to_string in E.
    + now intros ->.
  - intros x. rewrite !NormalizeFacts.normalize_answer_chars.
    rewrite !TextFacts.of_to_string.
    now rewrite NormalizeFacts.norm_chars_twice_fixed.
Qed.

(** ** Grading *)

Arguments normalize_answer : simpl never.
Arguments py_strip : simpl never.
Arguments extract_json_text : simpl never.
Arguments preprocess_str : simpl never.

Module GradingFacts.


Lemma string_eqb_false (a b : string) : a <> b -> String.eqb a b = false.
Proof. intros H. now apply String.eqb_neq. Qed.

End GradingFacts.

(** C10: ["(anything)"] and ["???"] are distinct and not empty, both
    normalize to the empty string, and an answer that opposes them is graded
    as an exact match whatever its question type: [is_correct] is [True],
    the score is 1.0, no similarity is attached and the only model call is
    the request for feedback. *)
Theorem C10_empty_normal_forms_match :
  "(anything)" <> "???" /\ "(anything)" <> "" /\ "???" <> "" /\
  normalize_answer "(anything)" = "" /\
  normalize_answer "???" = "" /\
  forall (W : World) (tr : trace) (q question_type : json) (fb : string),
    generate_content W (List.length tr) (FeedbackPrompt q "(anything)" "???" "맞음") = Ok fb ->
    Main.check_answer W (submission q "(anything)" "???" question_type) tr =
    (Ok {| pa_question := q;
           pa_user_answer := "(anything)";
           pa_correct_answer := "???";
           is_correct := IsTrue;
           score := F.f1_0;
           feedback := py_strip fb;
           similarity := None |},
     Generate (FeedbackPrompt q "(anything)" "???" "맞음") :: tr).
Proof.
  repeat (split; [try discriminate; try reflexivity|]).
  intros W tr q question_type fb Hfb.
  unfold Main.check_answer, submission, bind, lift, ret, model_generate.
  cbn [py_getitem py_get assoc String.eqb Ascii.eqb Bool.eqb py_str_method].
  change (py_strip "(anything)") with "(anything)".
  change (py_strip "???") with "???".
  change (normalize_answer "(anything)") with "".
  change (normalize_answer "???") with "".
  cbn [String.eqb negb]. rewrite andb_false_r.
  cbn [Main.verdict_text]. rewrite Hfb.
  cbn [negb]. now rewrite andb_false_r.
Qed.

Lemma C10_empty_normal_forms_match_witness :
  Main.check_answer
    (scripted_world (fun _ => F.f0_0) (fun _ _ => Ok " Well done. ") (fun _ => inl "no JSON"))
    (submission (JStr "2+2?") "(anything)" "???" (JStr "multiple_choice")) [] =
  (Ok {| pa_question := JStr "2+2?";
         pa_user_answer := "(anything)";
         pa_correct_answer := "???";
         is_correct := IsTrue;
         score := F.f1_0;
         feedback := py_strip " Well done. ";
         similarity := None |},
   [Generate (FeedbackPrompt (JStr "2+2?") "(anything)" "???" "맞음")]).
Proof.
  apply (proj2 (proj2 (proj2 (proj2 (proj2 C10_empty_normal_forms_match))))).
  reflexivity.
Defined.

(** C8: the grading of one answer whose fields are read as [q], [user],
    [correct] and [question_type].  (1) Equal normal forms: [True], 1.0, no
    similarity attached, with the request for feedback as only model call.  (2) A short answer
    with different normal forms is graded on the similarity of their
    embeddings: at least 0.8 gives [True] and 1.0; in [0.6, 0.8) gives
    ["partial"] and 0.5; below 0.6 gives [False] and 0.0; the similarity is
    attached unless the verdict is [True].  (3) Any other question type with
    different normal forms: [False], 0.0, no embedding computed and no
    similarity attached. *)
Theorem C8_grading_rules
    (W : World) (tr : trace) (answer q question_type : json) (user correct : string) :
  py_getitem answer "question" = Ok q ->
  py_getitem answer "user_answer" = Ok (JStr user) ->
  py_getitem answer "correct_answer" = Ok (JStr correct) ->
  py_get answer "question_type" (JStr "unknown") = Ok question_type ->
  let user_answer := py_strip user in
  let correct_answer := py_strip correct in
  let nu := normalize_answer user_answer in
  let nc := normalize_answer correct_answer in
  let n := List.length tr in
  (nu = nc ->
   forall fb,
     generate_content W n (FeedbackPrompt q user_answer correct_answer "맞음") = Ok fb ->
     exists pa,
       Main.check_answer W answer tr =
         (Ok pa, Generate (FeedbackPrompt q user_answer correct_answer "맞음") :: tr) /\
       is_correct pa = IsTrue /\ score pa = F.f1_0 /\ similarity pa = None) /\
  (nu <> nc ->
   question_type = JStr "short_answer" ->
   forall eu ec fb,
     encode W n nu = Ok eu ->
     encode W (S n) nc = Ok ec ->
     (forall verdict,
        generate_content W (S (S n))
          (FeedbackPrompt q user_answer correct_answer verdict) = Ok fb) ->
     let sim := cosine_similarity W eu ec in
     exists pa verdict,
       Main.check_answer W answer tr =
         (Ok pa,
          [Generate (FeedbackPrompt q user_answer correct_answer verdict);
           Encode nc; Encode nu] ++ tr) /\
       (F.ge sim F.f0_8 = true ->
        is_correct pa = IsTrue /\ score pa = F.f1_0 /\ similarity pa = None) /\
       (F.ge sim F.f0_6 = true -> F.lt sim F.f0_8 = true ->
        is_correct pa = IsPartial /\ score pa = F.f0_5 /\ similarity pa = Some sim) /\
       (F.lt sim F.f0_6 = true ->
        is_correct pa = IsFalse /\ score pa = F.f0_0 /\ similarity pa = Some sim)) /\
  (nu <> nc ->
   py_eq_str question_type "short_answer" = false ->
   forall fb,
     generate_content W n (FeedbackPrompt q user_answer correct_answer "틀림") = Ok fb ->
     exists pa,
       Main.check_answer W answer tr =
         (Ok pa, Generate (FeedbackPrompt q user_answer correct_answer "틀림") :: tr) /\
       is_correct pa = IsFalse /\ score pa = F.f0_0 /\ similarity pa = None).
Proof.
  intros Hq Hu Hc Ht user_answer correct_answer nu nc n.
  assert (Hrun : forall tr0,
    Main.check_answer W answer tr0 =
    (let exact := String.eqb nu nc in
     graded <-
       (if py_eq_str question_type "short_answer" && negb exact
        then user_embedding <- model_encode W nu ;;
             correct_embedding <- model_encode W nc ;;
             let similarity := cosine_similarity W user_embedding correct_embedding in
             if F.ge similarity F.f0_8 then ret (IsTrue, similarity)
             else if F.ge similarity F.f0_6 then ret (IsPartial, similarity)
             else ret (IsFalse, similarity)
        else ret (if exact then IsTrue else IsFalse, F.f0_0)) ;;
     let '(is_correct, similarity) := graded in
     feedback_text <-
       model_generate W (FeedbackPrompt q user_answer correct_answer
                           (Main.verdict_text is_correct)) ;;
     ret {| pa_question := q;
            pa_user_answer := user_answer;
            pa_correct_answer := correct_answer;
            is_correct := is_correct;
            score := match is_correct with
                     | IsTrue => F.f1_0
                     | IsPartial => F.f0_5
                     | IsFalse => F.f0_0
                     end;
            feedback := py_strip feedback_text;
            similarity :=
              if py_eq_str question_type "short_answer" &&
                 negb (match is_correct with IsTrue => true | _ => false end)
              then Some similarity else None |}) tr0).
  { intros tr0. unfold Main.check_answer, bind, lift.
    rewrite Hq, Hu. cbn [py_str_method]. rewrite Hc. cbn [py_str_method].
    rewrite Ht. reflexivity. }
  split; [|split].
  - intros Heq fb Hfb. rewrite Hrun.
    unfold bind, ret, model_generate.
    rewrite (proj2 (String.eqb_eq nu nc) Heq).
    cbn [negb]. rewrite andb_false_r. cbn [Main.verdict_text].
    fold n. rewrite Hfb. eexists. split; [reflexivity|].
    cbn [is_correct score similarity negb]. rewrite andb_false_r. repeat split.
  - intros Hne -> eu ec fb Heu Hec Hfb sim. rewrite Hrun.
    unfold bind, ret, model_generate, model_encode.
    rewrite (GradingFacts.string_eqb_false nu nc Hne).
    cbn [py_eq_str String.eqb Ascii.eqb Bool.eqb negb andb].
    fold n. rewrite Heu. cbn [List.length]. fold n. rewrite Hec.
    fold sim.
    destruct (F.ge sim F.f0_8) eqn:H8; [|destruct (F.ge sim F.f0_6) eqn:H6];
      cbn [List.length]; fold n; rewrite Hfb;
      eexists; eexists; (split; [reflexivity|]); cbn [is_correct score similarity negb];
      repeat split; try reflexivity; try discriminate; intros;
      try (exfalso;
           match goal with
           | H : F.lt sim F.f0_8 = true |- _ =>
               apply FloatFacts.lt_0_8_not_ge_0_8 in H; congruence
           | H : F.lt sim F.f0_6 = true |- _ =>
               first [ apply FloatFacts.lt_0_6_not_ge_0_8 in H; congruence
                     | apply FloatFacts.lt_0_6_not_ge_0_6 in H; congruence ]
           end).
  - intros Hne Hty fb Hfb. rewrite Hrun.
    unfold bind, ret, model_generate.
    rewrite (GradingFacts.string_eqb_false nu nc Hne), Hty.
    cbn [negb andb Main.verdict_text]. fold n. rewrite Hfb.
    eexists. split; [reflexivity|]. repeat split.
Qed.

Lemma C8_grading_rules_witness :
  exists pa tr',
    Main.check_answer
      (scripted_world (fun _ => F.lit 65 100) (fun _ _ => Ok "Close.") (fun _ => inl "no JSON"))
      (submission (JStr "Capital of France?") "Paris" "Paris city"
         (JStr "short_answer")) [] = (Ok pa, tr') /\
    is_correct pa = IsPartial /\ score pa = F.f0_5 /\ similarity pa = Some (F.lit 65 100).
Proof.
  pose proof (C8_grading_rules
    (scripted_world (fun _ => F.lit 65 100) (fun _ _ => Ok "Close.") (fun _ => inl "no JSON"))
    [] (submission (JStr "Capital of France?") "Paris" "Paris city"
          (JStr "short_answer"))
    (JStr "Capital of France?") (JStr "short_answer") "Paris" "Paris city"
    eq_refl eq_refl eq_refl eq_refl) as H.
  cbv zeta in H. destruct H as (_ & H & _).
  assert (Hne : normalize_answer (py_strip "Paris") <> normalize_answer (py_strip "Paris city"))
    by (vm_compute; discriminate).
  destruct (H Hne eq_refl _ _ "Close." eq_refl eq_refl (fun _ => eq_refl))
    as (pa & verdict & Hrun & _ & Hpartial & _).
  destruct (Hpartial eq_refl eq_refl) as (Hc & Hs & Hsim).
  exists pa. eexists. repeat split; eassumption.
Defined.

(** ** Context chunks *)

Module ChunkFacts.

Local Open Scope Z_scope.


Lemma window_count_spec (n step : Z) (k : nat) :
  0 < step -> ((k < window_count n step)%nat <-> Z.of_nat k * step < n).
Proof.
  intros Hstep. unfold window_count.
  destruct (0 <? n) eqn:Hn.
  - apply Z.ltb_lt in Hn.
    assert (Hq : 0 <= (n - 1) / step) by (apply Z.div_pos; lia).
    split; intros H.
    + assert (Hk : Z.of_nat k <= (n - 1) / step) by lia.
      pose proof (Z.mul_div_le (n - 1) step Hstep). nia.
    + assert (Hk : Z.of_nat k <= (n - 1) / step).
      { apply Z.div_le_lower_bound; [exact Hstep|]. nia. }
      lia.
  - apply Z.ltb_ge in Hn. simpl. split; intros H; [lia|]. nia.
Qed.

Lemma py_range_from_zero (n step : Z) :
  0 < step ->
  py_range 0 n step =
  Ok (map (fun k => Z.of_nat k * step) (seq 0 (window_count n step))).
Proof.
  intros Hstep. unfold py_range, window_count.
  destruct (step =? 0) eqn:E; [apply Z.eqb_eq in E; lia|].
  destruct (0 <? step) eqn:E2; [|apply Z.ltb_ge in E2; lia].
  rewrite !Z.sub_0_r. reflexivity.
Qed.

(** A window that starts inside the list and has a length that is not
    negative is a [firstn] of a [skipn]: Python truncates it at the end of
    the list. *)
Lemma py_slice_window {A} (l : list A) (i size : Z) :
  0 <= i <= Z.of_nat (List.length l) -> 0 <= size ->
  py_slice l i (i + size) = firstn (Z.to_nat size) (skipn (Z.to_nat i) l).
Proof.
  intros Hi Hsize. unfold py_slice, slice_bound.
  destruct (i <? 0) eqn:E1; [apply Z.ltb_lt in E1; lia|].
  destruct (i + size <? 0) eqn:E2; [apply Z.ltb_lt in E2; lia|].
  rewrite (Z.min_l i) by lia.
  destruct (Z.le_ge_cases (i + size) (Z.of_nat (List.length l))) as [H|H].
  - rewrite Z.min_l by lia. now replace (i + size - i)%Z with size by lia.
  - rewrite Z.min_r by lia.
    rewrite !firstn_all2; try reflexivity; rewrite length_skipn; lia.
Qed.

(** [l[:k]] has [min k (len l)] elements when [k] is not negative. *)
Lemma py_slice_to_length {A} (l : list A) (k : Z) :
  0 <= k ->
  List.length (py_slice_to l k) = Nat.min (Z.to_nat k) (List.length l).
Proof.
  intros Hk. unfold py_slice_to, py_slice, slice_bound. simpl (0 <? 0).
  destruct (k <? 0) eqn:E; [apply Z.ltb_lt in E; lia|].
  rewrite (Z.min_l 0) by lia. rewrite Z.sub_0_r. simpl skipn.
  rewrite length_firstn. lia.
Qed.

Lemma insert_desc_length {A} (x : A * F.float) (l : list (A * F.float)) :
  List.length (insert_desc x l) = S (List.length l).
Proof.
  induction l as [|y l IH]; simpl; [reflexivity|].
  destruct (F.lt (snd x) (snd y)); simpl; [now rewrite IH|reflexivity].
Qed.

Lemma sort_desc_length {A} (l : list (A * F.float)) :
  List.length (sort_desc l) = List.length l.
Proof.
  induction l as [|x l IH]; simpl; [reflexivity|].
  now rewrite insert_desc_length, IH.
Qed.

Local Close Scope Z_scope.

(** The scoring loop gives one pair per chunk, when it ends. *)
Lemma scoring_loop_length (W : World) (q : tensor W) (chunks : list string) :
  forall (acc : list (string * F.float)) (tr : trace) res tr',
    for_each chunks acc
      (fun acc chunk =>
         chunk_embedding <- model_encode W chunk ;;
         ret (acc ++ [(chunk, cosine_similarity W q chunk_embedding)])) tr
    = (Ok res, tr') ->
    List.length res = List.length acc + List.length chunks.
Proof.
  induction chunks as [|c chunks IH]; intros acc tr res tr'; simpl.
  - unfold ret. intros [= <- <-]. lia.
  - unfold bind at 1. unfold bind at 1. unfold model_encode at 1.
    destruct (encode W (List.length tr) c) as [v|e]; [|discriminate].
    unfold ret at 1. intros H. apply IH in H.
    rewrite length_app in H. simpl in H. lia.
Qed.

(** The scoring loop ends when the embedding model answers. *)
Lemma scoring_loop_runs (W : World) (q : tensor W) (chunks : list string) :
  (forall n text, exists v, encode W n text = Ok v) ->
  forall (acc : list (string * F.float)) (tr : trace),
  exists res tr',
    for_each chunks acc
      (fun acc chunk =>
         chunk_embedding <- model_encode W chunk ;;
         ret (acc ++ [(chunk, cosine_similarity W q chunk_embedding)])) tr
    = (Ok res, tr').
Proof.
  intros Henc. induction chunks as [|c chunks IH]; intros acc tr; simpl.
  - unfold ret. eauto.
  - unfold bind at 1. unfold bind at 1. unfold model_encode at 1.
    destruct (Henc (List.length tr) c) as [v ->].
    unfold ret at 1. apply IH.
Qed.
End ChunkFacts.

(** C9 (as stated): with [chunk_size = 1] the step of the window loop is
    zero and the retriever raises, also for an empty document; and a
    negative [top_k] keeps all chunks but the last ones, here three. *)
Lemma C9_zero_step_and_negative_top_k :
  RAGService.extract_relevant_context embedder_down "query" "" 1 3 [] =
    (Raise (Exn ValueError "range() arg 3 must not be zero"), []) /\
  fst (RAGService.extract_relevant_context
         (scripted_world (fun _ => F.f0_5) (fun _ _ => Ok "") (fun _ => inl ""))
         "query" "a b c d" 2 (-1) []) =
    Ok ["a b"; "b c"; "c d"].
Proof. split; vm_compute; reflexivity. Qed.

(** C9 (amended): for a [chunk_size] of at least 2 and a [top_k] that is not
    negative.  The chunks are the windows of [chunk_size] words that start
    at the multiples of [chunk_size // 2] below the number of words, each cut
    at the end of the document; 1000 words and [chunk_size = 500] give the
    offsets 0, 250, 500, 750, the last window holding the last 250 words; a
    document without words gives the empty list and no model call; a
    returned list has [min top_k (number of chunks)] elements; and the
    retriever returns whenever the embedding model answers. *)
Theorem C9_chunk_windows
    (W : World) (query document : string) (chunk_size top_k : Z) (tr : trace) :
  (2 <= chunk_size)%Z -> (0 <= top_k)%Z ->
  let words := py_split document in
  let step := Z.to_nat (chunk_size / 2) in
  let window (k : nat) :=
    py_join " " (firstn (Z.to_nat chunk_size) (skipn (k * step) words)) in
  exists count : nat,
    (forall k, k < count <-> k * step < List.length words) /\
    RAGService.make_chunks document chunk_size = Ok (map window (seq 0 count)) /\
    (List.length words = 1000 -> chunk_size = 500%Z ->
     RAGService.make_chunks document chunk_size =
       Ok [py_join " " (firstn 500 words);
           py_join " " (firstn 500 (skipn 250 words));
           py_join " " (firstn 500 (skipn 500 words));
           py_join " " (skipn 750 words)]) /\
    (words = [] ->
     RAGService.extract_relevant_context W query document chunk_size top_k tr = (Ok [], tr)) /\
    (forall r tr',
       RAGService.extract_relevant_context W query document chunk_size top_k tr = (Ok r, tr') ->
       List.length r = Nat.min (Z.to_nat top_k) count) /\
    ((forall n text, exists v, encode W n text = Ok v) ->
     exists r tr',
       RAGService.extract_relevant_context W query document chunk_size top_k tr = (Ok r, tr')).
Proof.
  intros Hsize Htop words step window.
  assert (Hstep : (0 < chunk_size / 2)%Z).
  { apply Z.div_str_pos. lia. }
  set (n := Z.of_nat (List.length words)).
  set (count := window_count n (chunk_size / 2)).
  assert (Hcount : forall k, k < count <-> k * step < List.length words).
  { intros k. unfold count. rewrite ChunkFacts.window_count_spec by exact Hstep.
    unfold n, step. split; intros H.
    - apply Nat2Z.inj_lt. rewrite Nat2Z.inj_mul, Z2Nat.id by lia. exact H.
    - apply Nat2Z.inj_lt in H. rewrite Nat2Z.inj_mul, Z2Nat.id in H by lia. exact H. }
  assert (Hchunks : RAGService.make_chunks document chunk_size = Ok (map window (seq 0 count))).
  { unfold RAGService.make_chunks. fold words. fold n.
    rewrite ChunkFacts.py_range_from_zero by exact Hstep. fold count.
    f_equal. rewrite map_map. apply map_ext_in. intros k Hk.
    apply in_seq in Hk. destruct Hk as [_ Hk]. simpl in Hk.
    apply Hcount in Hk. unfold window.
    rewrite ChunkFacts.py_slice_window.
    - unfold step. do 3 f_equal. rewrite Z2Nat.inj_mul, Nat2Z.id by lia. reflexivity.
    - split; [lia|]. apply Nat2Z.inj_lt in Hk.
      rewrite Nat2Z.inj_mul in Hk. unfold step in Hk. rewrite Z2Nat.id in Hk by lia. lia.
    - lia. }
  exists count. split; [exact Hcount|]. split; [exact Hchunks|].
  split; [|split; [|split]].
  - intros Hlen Hcs. rewrite Hchunks. f_equal.
    assert (Ecount : count = 4).
    { unfold count, n. rewrite Hlen, Hcs. reflexivity. }
    rewrite Ecount.
    change (map window (seq 0 4)) with [window 0; window 1; window 2; window 3].
    assert (E3 : window 3 = py_join " " (skipn 750 words)).
    { unfold window, step. rewrite Hcs.
      change (3 * Z.to_nat (500 / 2)) with 750.
      f_equal. apply firstn_all2. rewrite length_skipn, Hlen.
      change (Z.to_nat 500) with 500. lia. }
    rewrite E3. unfold window, step. rewrite Hcs. reflexivity.
  - intros Hnil. unfold RAGService.extract_relevant_context, bind, lift.
    rewrite Hchunks.
    assert (Ecount : count = 0).
    { destruct count as [|c]; [reflexivity|].
      assert (H0 : 0 < S c) by lia. apply Hcount in H0.
      rewrite Hnil in H0. simpl in H0. lia. }
    rewrite Ecount. reflexivity.
  - intros r tr'. unfold RAGService.extract_relevant_context, bind at 1, lift.
    rewrite Hchunks.
    destruct (map window (seq 0 count)) as [|c0 cs] eqn:Emap.
    + unfold ret. intros [= <- <-].
      apply (f_equal (@List.length _)) in Emap.
      rewrite length_map, length_seq in Emap. simpl in Emap. rewrite Emap. simpl. lia.
    + unfold bind at 1, model_encode at 1.
      destruct (encode W (List.length tr) query) as [qe|e]; [|discriminate].
      unfold bind at 1.
      match goal with
      | |- context [for_each ?l ?acc ?body ?t] =>
          destruct (for_each l acc body t) as [[res|e] tr1] eqn:Eloop
      end; [|discriminate].
      unfold ret. intros [= <- <-].
      apply ChunkFacts.scoring_loop_length in Eloop.
      rewrite length_map, ChunkFacts.py_slice_to_length by exact Htop.
      rewrite ChunkFacts.sort_desc_length, Eloop, <- Emap.
      rewrite length_map, length_seq. reflexivity.
  - intros Henc. unfold RAGService.extract_relevant_context, bind at 1, lift.
    rewrite Hchunks.
    destruct (map window (seq 0 count)) as [|c0 cs] eqn:Emap.
    + unfold ret. eauto.
    + unfold bind at 1, model_encode at 1.
      destruct (Henc (List.length tr) query) as [qe ->].
      unfold bind at 1.
      destruct (ChunkFacts.scoring_loop_runs W qe (c0 :: cs) Henc [] (Encode query :: tr))
        as (res & tr1 & ->).
      unfold ret. eauto.
Qed.

Lemma C9_chunk_windows_witness :
  (2 <= 4)%Z /\ (0 <= 2)%Z /\
  exists count : nat,
    (forall k, k < count <-> k * 2 < 5) /\
    RAGService.make_chunks "a b c d e" 4 =
      Ok (map (fun k => py_join " " (firstn 4 (skipn (k * 2) ["a"; "b"; "c"; "d"; "e"])))
              (seq 0 count)).
Proof.
  assert (H1 : (2 <= 4)%Z) by lia.
  assert (H2 : (0 <= 2)%Z) by lia.
  split; [exact H1|]. split; [exact H2|].
  destruct (C9_chunk_windows embedder_down "query" "a b c d e" 4 2 [] H1 H2)
    as (count & Hcount & Hchunks & _).
  exists count. split; [exact Hcount|exact Hchunks].
Defined.

(** ** The embedding signal *)


(** C5 (as stated): an explanation that is one blank is not empty, yet
    [compute_question_similarity] embeds no explanation and returns the
    2-way mean 0.8, which is not the 3-way mean. *)
Lemma C5_blank_explanation_two_way :
  exists sr,
    RAGService.compute_question_similarity example_world
      (question_with " ") "ctx" [] =
      (Ok sr, [Encode "a"; Encode "q"; Encode "ctx"]) /\
    average_similarity sr = F.div (F.add (F.lit 9 10) F.f0_7) F.f2 /\
    average_similarity sr = F.f0_8 /\
    average_similarity sr <>
      F.div (F.add (F.add (F.lit 9 10) F.f0_7) (example_sims " ")) F.f3.
Proof.
  eexists. split; [vm_compute; reflexivity|].
  split; [vm_compute; reflexivity|].
  split; [vm_compute; reflexivity|].
  vm_compute. discriminate.
Qed.

(** C5 (amended): in [compute_question_similarity], for a question whose
    ["question"], ["correct_answer"] and (possibly missing, then empty)
    ["explanation"] are strings and an embedding model that answers: when
    the preprocessed explanation is empty, as it is for a missing or empty
    explanation, the average is the 2-way mean of the context-question and
    context-answer similarities and no explanation is embedded; otherwise it
    is the 3-way mean with the context-explanation similarity. *)
Theorem C5_average_by_preprocessed_explanation
    (W : World) (question : json) (context q a e : string) (tr : trace)
    (d qe ae : tensor W) :
  py_getitem question "question" = Ok (JStr q) ->
  py_getitem question "correct_answer" = Ok (JStr a) ->
  py_get question "explanation" (JStr "") = Ok (JStr e) ->
  let n := List.length tr in
  encode W n (preprocess_str context) = Ok d ->
  encode W (S n) (preprocess_str q) = Ok qe ->
  encode W (S (S n)) (preprocess_str a) = Ok ae ->
  let qs := cosine_similarity W d qe in
  let as_ := cosine_similarity W d ae in
  preprocess_str "" = "" /\
  (preprocess_str e = "" ->
   exists sr,
     RAGService.compute_question_similarity W question context tr =
       (Ok sr, [Encode (preprocess_str a); Encode (preprocess_str q);
                Encode (preprocess_str context)] ++ tr) /\
     question_similarity sr = qs /\ answer_similarity sr = as_ /\
     average_similarity sr = F.div (F.add qs as_) F.f2) /\
  (preprocess_str e <> "" ->
   forall ee, encode W (S (S (S n))) (preprocess_str e) = Ok ee ->
   let es := cosine_similarity W d ee in
   exists sr,
     RAGService.compute_question_similarity W question context tr =
       (Ok sr, [Encode (preprocess_str e); Encode (preprocess_str a);
                Encode (preprocess_str q); Encode (preprocess_str context)] ++ tr) /\
     question_similarity sr = qs /\ answer_similarity sr = as_ /\
     explanation_similarity sr = es /\
     average_similarity sr = F.div (F.add (F.add qs as_) es) F.f3).
Proof.
  intros Hq Ha He n Hd Hqe Hae qs as_.
  split; [reflexivity|].
  assert (Hrun :
    RAGService.compute_question_similarity W question context tr =
    (let explanation_text := preprocess_str e in
     e_similarity <-
       (if py_truthy_str explanation_text
        then e_embedding <- model_encode W explanation_text ;;
             ret (cosine_similarity W d e_embedding)
        else ret F.f0_0) ;;
     let avg_similarity :=
       if py_truthy_str explanation_text
       then F.div (F.add (F.add qs as_) e_similarity) F.f3
       else F.div (F.add qs as_) F.f2 in
     ret {| question_similarity := qs;
            answer_similarity := as_;
            explanation_similarity := e_similarity;
            average_similarity := avg_similarity;
            sr_is_valid := F.ge avg_similarity F.f0_6 |})
      ([Encode (preprocess_str a); Encode (preprocess_str q);
        Encode (preprocess_str context)] ++ tr)).
  { unfold RAGService.compute_question_similarity.
    unfold bind at 1, model_encode at 1. fold n. rewrite Hd.
    unfold bind at 1, lift at 1. rewrite Hq.
    unfold bind at 1, lift at 1. cbn [preprocess_text py_str_method].
    unfold bind at 1, lift at 1. rewrite Ha.
    unfold bind at 1, lift at 1. cbn [preprocess_text py_str_method].
    unfold bind at 1, lift at 1. rewrite He.
    unfold bind at 1, lift at 1. cbn [preprocess_text py_str_method].
    unfold bind at 1, model_encode at 1. cbn [List.length]. fold n. rewrite Hqe.
    unfold bind at 1, model_encode at 1. cbn [List.length]. fold n. rewrite Hae.
    reflexivity. }
  split.
  - intros Hempty. rewrite Hrun, Hempty. cbn.
    eexists. split; [reflexivity|]. repeat split.
  - intros Hne ee Hee es. rewrite Hrun.
    destruct (preprocess_str e) as [|c rest] eqn:Ep; [contradiction|].
    cbn zeta. cbn [py_truthy_str].
    unfold bind, model_encode, ret. cbn [List.length app]. fold n. rewrite Hee.
    eexists. split; [reflexivity|]. repeat split.
Qed.

(** The verifier of main.py has no guard on the explanation: an empty one is
    embedded and averaged like any other, a missing one is a [KeyError] that
    its catch-all turns into an error result. *)
Lemma Main_embeds_empty_explanation :
  (exists out tr',
     Main.verify_question_with_rag example_world (question_with "") "ctx" [] =
       (Ok out, tr') /\
     In (Encode "") tr' /\
     option_map es_average (embedding_similarity (verification_of out)) =
       Some (F.div (F.add (F.add (F.lit 9 10) F.f0_7) (F.lit 2 10)) F.f3)) /\
  (exists out tr',
     Main.verify_question_with_rag example_world
       (JObj [("question", JStr "q"); ("correct_answer", JStr "a")]) "ctx" [] =
       (Ok out, tr') /\
     error (verification_of out) = Some "'explanation'").
Proof.
  split; eexists; eexists; (split; [vm_compute; reflexivity|]).
  - split; [simpl; tauto|reflexivity].
  - reflexivity.
Qed.

(** ** The generation retry loop *)

Module GenerationFacts.
Import MonadFacts.

Lemma compute_question_similarity_quiet (W : World) (question : json) (context : string) :
  at_most 0 (RAGService.compute_question_similarity W question context).
Proof. unfold RAGService.compute_question_similarity. quiet. Qed.

Lemma judgment_total_score_quiet (vr : json) : at_most 0 (judgment_total_score vr).
Proof. unfold judgment_total_score. quiet. Qed.

Lemma judged_output_quiet (question : json) scores (vr : json) total :
  at_most 0 (judged_output question scores vr total).
Proof. unfold judged_output. quiet. Qed.

Lemma verify_question_quiet (W : World) (question : json) (context : string) :
  at_most 0 (QuestionGenerator.verify_question W question context).
Proof.
  unfold QuestionGenerator.verify_question.
  apply (at_most_bind 0 0); [apply compute_question_similarity_quiet|intros].
  quiet.
Qed.

Lemma verify_question_with_rag_quiet (W : World) (question : json) (context : string) :
  at_most 0 (Main.verify_question_with_rag W question context).
Proof.
  unfold Main.verify_question_with_rag, Main.verify_question_with_rag_body.
  quiet.
Qed.

Lemma QG_verify_all_quiet (W : World) (generated : json) (content : string) :
  at_most 0 (QuestionGenerator.verify_all W generated content).
Proof.
  unfold QuestionGenerator.verify_all.
  quiet.
Qed.

Lemma Main_verify_all_quiet (W : World) (generated : json) (content : string) :
  at_most 0 (Main.verify_all W generated content).
Proof.
  unfold Main.verify_all.
  quiet.
Qed.

Lemma QG_generate_at_most_two (W : World) content num_questions question_types :
  at_most 2 (QuestionGenerator.generate_questions W content num_questions question_types).
Proof.
  unfold QuestionGenerator.generate_questions.
  apply (at_most_bind 1 1);
    [apply (at_most_generate W (GenerationPrompt content num_questions question_types))|].
  intros r1. apply (at_most_try 0 1).
  - apply (at_most_bind 0 0); [apply at_most_lift|intros; apply QG_verify_all_quiet].
  - intros _. apply (at_most_bind 1 0); [apply (at_most_generate W RetryPrompt)|].
    intros r2. apply (at_most_try 0 0).
    + apply (at_most_bind 0 0); [apply at_most_lift|intros; apply QG_verify_all_quiet].
    + intros e. apply at_most_raise.
Qed.

Lemma Main_generate_at_most_two (W : World) content num_questions question_types :
  at_most 2 (Main.generate_questions W content num_questions question_types).
Proof.
  unfold Main.generate_questions.
  apply (at_most_try 2 0); [|intros e; apply at_most_raise].
  apply (at_most_bind 1 1);
    [apply (at_most_generate W (GenerationPrompt content num_questions question_types))|].
  intros r1. apply (at_most_try 0 1).
  - apply (at_most_bind 0 0); [apply at_most_lift|intros; apply Main_verify_all_quiet].
  - intros _. apply (at_most_bind 1 0); [apply (at_most_generate W RetryPrompt)|].
    intros r2. apply (at_most_try 0 0).
    + apply (at_most_bind 0 0); [apply at_most_lift|intros; apply Main_verify_all_quiet].
    + intros e. apply at_most_raise.
Qed.

(** A response that is no JSON document ends the body of the [try] with a
    [JSONDecodeError], before any question is verified. *)
Lemma decode_fails {A} (W : World) (text msg : string) (k : json -> M A) (tr : trace) :
  json_loads W text = inl msg ->
  (generated <- lift (loads W text) ;; k generated) tr =
  (Raise (Exn JSONDecodeError msg), tr).
Proof. intros H. unfold bind, lift, loads. now rewrite H. Qed.

Section Retry.
Variable W : World.
Variables (content : string) (num_questions : Z) (question_types : list string).
Variable tr : trace.
Variables r1 msg1 : string.
Hypothesis first_answer :
  generate_content W (List.length tr)
    (GenerationPrompt content num_questions question_types) = Ok r1.
Hypothesis first_malformed : json_loads W (extract_json_text r1) = inl msg1.

Let gen := Generate (GenerationPrompt content num_questions question_types).

(** After a malformed first response, generation is the retry. *)
Lemma QG_generate_retries :
  QuestionGenerator.generate_questions W content num_questions question_types tr =
  (result_text <- model_generate W RetryPrompt ;;
   let result_text := extract_json_text result_text in
   try_except
     (generated_questions <- lift (loads W result_text) ;;
      QuestionGenerator.verify_all W generated_questions content)
     is_JSONDecodeError
     (fun e => raise (Exn ValueError ("문제 생성 실패: JSON 파싱 오류 - " ++ exn_str e))))
    (gen :: tr).
Proof.
  unfold QuestionGenerator.generate_questions.
  erewrite bind_ok by (unfold model_generate; rewrite first_answer; reflexivity).
  now rewrite (try_handled _ _ _ _ _ _ (decode_fails W _ _ _ _ first_malformed) eq_refl).
Qed.

(** The retry of the endpoint, inside its outer [try]. *)
Local Abbreviation Main_retry :=
  (result_text <- model_generate W RetryPrompt ;;
   let result_text := extract_json_text result_text in
   try_except
     (generated_questions <- lift (loads W result_text) ;;
      Main.verify_all W generated_questions content)
     is_JSONDecodeError
     (fun e =>
        raise (HTTPException 500 ("문제 생성 실패: JSON 파싱 오류 - " ++ exn_str e)))).

Lemma Main_generate_retries :
  Main.generate_questions W content num_questions question_types tr =
  match Main_retry (gen :: tr) with
  | (Ok a, tr') => (Ok a, tr')
  | (Raise e, tr') => (Raise (HTTPException 500 ("문제 생성 실패: " ++ exn_str e)), tr')
  end.
Proof.
  unfold Main.generate_questions. unfold try_except at 1.
  erewrite bind_ok by (unfold model_generate; rewrite first_answer; reflexivity).
  now rewrite (try_handled _ _ _ _ _ _ (decode_fails W _ _ _ _ first_malformed) eq_refl).
Qed.

Lemma QG_generate_one_retry (res : result (list verified_question)) (tr' : trace) :
  QuestionGenerator.generate_questions W content num_questions question_types tr = (res, tr') ->
  exists rest, tr' = rest ++ [Generate RetryPrompt; gen] ++ tr /\ generation_calls rest = 0.
Proof.
  rewrite QG_generate_retries. unfold bind at 1, model_generate at 1.
  destruct (generate_content W (List.length (gen :: tr)) RetryPrompt) as [r2|e].
  - intros H.
    assert (Hq : at_most 0
      (try_except
         (generated_questions <- lift (loads W (extract_json_text r2)) ;;
          QuestionGenerator.verify_all W generated_questions content)
         is_JSONDecodeError
         (fun e => raise (Exn ValueError ("문제 생성 실패: JSON 파싱 오류 - " ++ exn_str e))))).
    { apply (at_most_try 0 0).
      - apply (at_most_bind 0 0); [apply at_most_lift|intros; apply QG_verify_all_quiet].
      - intros e. apply at_most_raise. }
    destruct (Hq _ _ _ H) as (rest & -> & Hrest).
    exists rest. split; [reflexivity|lia].
  - intros [= <- <-]. now exists [].
Qed.

Lemma Main_retry_trace (res : result generate_response) (tr' : trace) :
  Main_retry (gen :: tr) = (res, tr') ->
  exists rest, tr' = rest ++ [Generate RetryPrompt; gen] ++ tr /\ generation_calls rest = 0.
Proof.
  unfold bind at 1, model_generate at 1.
  destruct (generate_content W (List.length (gen :: tr)) RetryPrompt) as [r2|e].
  - intros H.
    assert (Hq : at_most 0
      (try_except
         (generated_questions <- lift (loads W (extract_json_text r2)) ;;
          Main.verify_all W generated_questions content)
         is_JSONDecodeError
         (fun e => raise (HTTPException 500
                            ("문제 생성 실패: JSON 파싱 오류 - " ++ exn_str e))))).
    { apply (at_most_try 0 0).
      - apply (at_most_bind 0 0); [apply at_most_lift|intros; apply Main_verify_all_quiet].
      - intros e. apply at_most_raise. }
    destruct (Hq _ _ _ H) as (rest & -> & Hrest).
    exists rest. split; [reflexivity|lia].
  - intros [= <- <-]. now exists [].
Qed.

Lemma Main_generate_one_retry (res : result generate_response) (tr' : trace) :
  Main.generate_questions W content num_questions question_types tr = (res, tr') ->
  exists rest, tr' = rest ++ [Generate RetryPrompt; gen] ++ tr /\ generation_calls rest = 0.
Proof.
  rewrite Main_generate_retries.
  destruct (Main_retry (gen :: tr)) as [[a|e] tr1] eqn:E;
    intros [= <- <-]; eapply Main_retry_trace; exact E.
Qed.

(** A malformed retry response ends generation with the fatal error. *)
Lemma QG_generate_gives_up (r2 msg2 : string) :
  generate_content W (S (List.length tr)) RetryPrompt = Ok r2 ->
  json_loads W (extract_json_text r2) = inl msg2 ->
  QuestionGenerator.generate_questions W content num_questions question_types tr =
  (Raise (Exn ValueError ("문제 생성 실패: JSON 파싱 오류 - " ++ msg2)),
   [Generate RetryPrompt; gen] ++ tr).
Proof.
  intros H2 Hm2. rewrite QG_generate_retries.
  erewrite bind_ok by (unfold model_generate; cbn [List.length]; rewrite H2; reflexivity).
  cbv zeta.
  now rewrite (try_handled _ _ _ _ _ _ (decode_fails W _ _ _ _ Hm2) eq_refl).
Qed.

Lemma Main_generate_gives_up (r2 msg2 : string) :
  generate_content W (S (List.length tr)) RetryPrompt = Ok r2 ->
  json_loads W (extract_json_text r2) = inl msg2 ->
  Main.generate_questions W content num_questions question_types tr =
  (Raise (HTTPException 500
            ("문제 생성 실패: " ++
             exn_str (HTTPException 500 ("문제 생성 실패: JSON 파싱 오류 - " ++ msg2)))),
   [Generate RetryPrompt; gen] ++ tr).
Proof.
  intros H2 Hm2. rewrite Main_generate_retries.
  erewrite bind_ok by (unfold model_generate; cbn [List.length]; rewrite H2; reflexivity).
  cbv zeta.
  now rewrite (try_handled _ _ _ _ _ _ (decode_fails W _ _ _ _ Hm2) eq_refl).
Qed.
End Retry.

End GenerationFacts.

(** C6: both generators ([QuestionGenerator.generate_questions] and the
    endpoint of main.py).  (1) However a request ends, it adds at most two
    generation calls to the trace, whatever the number of questions.
    (2) When the first response is no JSON document, the next model call is
    the retry prompt, which interpolates nothing, and no generation call
    follows it.  (3) When the response to the retry is no JSON document
    either, the request fails after exactly these two calls: with a
    [ValueError] from the agent, with an [HTTPException] of status 500 from
    the endpoint. *)
Theorem C6_one_retry_then_fatal
    (W : World) (content : string) (num_questions : Z) (question_types : list string)
    (tr : trace) :
  let gen := Generate (GenerationPrompt content num_questions question_types) in
  (forall res tr',
     QuestionGenerator.generate_questions W content num_questions question_types tr =
       (res, tr') ->
     exists new, tr' = new ++ tr /\ generation_calls new <= 2) /\
  (forall res tr',
     Main.generate_questions W content num_questions question_types tr = (res, tr') ->
     exists new, tr' = new ++ tr /\ generation_calls new <= 2) /\
  (forall r1 msg1,
     generate_content W (List.length tr)
       (GenerationPrompt content num_questions question_types) = Ok r1 ->
     json_loads W (extract_json_text r1) = inl msg1 ->
     (forall res tr',
        QuestionGenerator.generate_questions W content num_questions question_types tr =
          (res, tr') ->
        exists rest, tr' = rest ++ [Generate RetryPrompt; gen] ++ tr /\
                     generation_calls rest = 0) /\
     (forall res tr',
        Main.generate_questions W content num_questions question_types tr = (res, tr') ->
        exists rest, tr' = rest ++ [Generate RetryPrompt; gen] ++ tr /\
                     generation_calls rest = 0) /\
     (forall r2 msg2,
        generate_content W (S (List.length tr)) RetryPrompt = Ok r2 ->
        json_loads W (extract_json_text r2) = inl msg2 ->
        QuestionGenerator.generate_questions W content num_questions question_types tr =
          (Raise (Exn ValueError ("문제 생성 실패: JSON 파싱 오류 - " ++ msg2)),
           [Generate RetryPrompt; gen] ++ tr) /\
        Main.generate_questions W content num_questions question_types tr =
          (Raise (HTTPException 500
                    ("문제 생성 실패: " ++
                     exn_str (HTTPException 500
                                ("문제 생성 실패: JSON 파싱 오류 - " ++ msg2)))),
           [Generate RetryPrompt; gen] ++ tr))).
Proof.
  intros gen. split; [|split].
  - intros res tr'. apply GenerationFacts.QG_generate_at_most_two.
  - intros res tr'. apply GenerationFacts.Main_generate_at_most_two.
  - intros r1 msg1 H1 Hm1. split; [|split].
    + intros res tr'. now apply (GenerationFacts.QG_generate_one_retry W _ _ _ _ r1 msg1).
    + intros res tr'. now apply (GenerationFacts.Main_generate_one_retry W _ _ _ _ r1 msg1).
    + intros r2 msg2 H2 Hm2. split.
      * now apply (GenerationFacts.QG_generate_gives_up W _ _ _ _ r1 msg1 H1 Hm1 r2).
      * now apply (GenerationFacts.Main_generate_gives_up W _ _ _ _ r1 msg1 H1 Hm1 r2).
Qed.

Lemma C6_one_retry_then_fatal_witness :
  QuestionGenerator.generate_questions babbling_world "text" 5 ["multiple_choice"] [] =
    (Raise (Exn ValueError "문제 생성 실패: JSON 파싱 오류 - Expecting value"),
     [Generate RetryPrompt; Generate (GenerationPrompt "text" 5 ["multiple_choice"])]) /\
  exists detail,
    Main.generate_questions babbling_world "text" 5 ["multiple_choice"] [] =
      (Raise (HTTPException 500 detail),
       [Generate RetryPrompt; Generate (GenerationPrompt "text" 5 ["multiple_choice"])]).
Proof.
  destruct (C6_one_retry_then_fatal babbling_world "text" 5 ["multiple_choice"] [])
    as (_ & _ & H).
  destruct (H "I cannot judge this." "Expecting value" eq_refl eq_refl) as (_ & _ & H2).
  destruct (H2 "I cannot judge this." "Expecting value" eq_refl eq_refl) as (Hq & Hm).
  split; [exact Hq|]. eexists. exact Hm.
Defined.

(** ** Question verification *)

Module VerifyFacts.
Import MonadFacts.

Lemma getitem_is_get (v x d : json) (k : string) :
  py_getitem v k = Ok x -> py_get v k d = Ok x.
Proof.
  destruct v; simpl; try discriminate.
  destruct (assoc k members); [trivial|discriminate].
Qed.

Lemma getitem_get_total (v x d : json) (k k' : string) :
  py_getitem v k = Ok x -> exists y, py_get v k' d = Ok y.
Proof.
  destruct v; simpl; try discriminate. intros _.
  destruct (assoc k' members); eauto.
Qed.

Ltac run_lift :=
  match goal with
  | |- context [bind (lift ?r) ?k ?tr] =>
      erewrite (bind_ok (lift r) k tr tr) by (unfold lift; f_equal; eassumption);
      cbv beta
  end.

Ltac run_encode Henc :=
  match goal with
  | |- context [bind (model_encode ?W ?text) ?k ?tr] =>
      let v := fresh "v" in
      let Hv := fresh "Hv" in
      destruct (Henc (List.length tr) text) as [v Hv];
      rewrite (bind_ok (model_encode W text) k tr (Encode text :: tr) v)
        by (unfold model_encode; now rewrite Hv);
      cbv beta
  end.

Ltac run_generate Hgen :=
  match goal with
  | |- context [bind (model_generate ?W ?p) ?k ?tr] =>
      rewrite (bind_ok (model_generate W p) k tr (Generate p :: tr) _)
        by (unfold model_generate; now rewrite Hgen);
      cbv beta
  end.


Section Judged.
Variable W : World.
Variables (question qid : json) (scores : embedding_scores) (llm_text : string).
Variables (vr hc qc sc hc_result rating : json) (semantic : F.float).
Hypothesis question_id_read : py_get question "id" (JStr "") = Ok qid.
Hypothesis decoded : json_loads W (extract_json_text llm_text) = inr vr.
Hypothesis has_hc : py_getitem vr "hallucination_check" = Ok hc.
Hypothesis has_result : py_getitem hc "result" = Ok hc_result.
Hypothesis has_qc : py_getitem vr "quality_check" = Ok qc.
Hypothesis has_rating : py_getitem qc "rating" = Ok rating.
Hypothesis has_sc : py_getitem vr "semantic_consistency" = Ok sc.
Hypothesis has_average : py_getitem sc "average_score" = Ok (JFloat semantic).

(** The body of the inner [try] of both verifiers, on a judgment that
    decodes and has its fields. *)
Lemma judged (tr : trace) :
  (verification_result <- lift (loads W (extract_json_text llm_text)) ;;
   total <- judgment_total_score verification_result ;;
   judged_output question scores verification_result total) tr =
  (Ok {| question_id := qid;
         verification_of :=
           {| embedding_similarity := Some scores;
              hallucination_check := Some hc;
              quality_check := Some qc;
              semantic_consistency := Some sc;
              total_score := Some (code_total hc_result rating semantic);
              is_valid := F.ge (code_total hc_result rating semantic) F.f0_6;
              error := None |} |}, tr).
Proof.
  assert (Hloads : loads W (extract_json_text llm_text) = Ok vr)
    by (unfold loads; now rewrite decoded).
  run_lift.
  unfold judgment_total_score.
  rewrite (bind_ok _ _ tr tr (code_total hc_result rating semantic)).
  - unfold judged_output. repeat run_lift. reflexivity.
  - repeat run_lift.
    assert (Hmul : py_mul_float (JFloat semantic) F.f0_3 = Ok (F.mul semantic F.f0_3))
      by reflexivity.
    run_lift. reflexivity.
Qed.
End Judged.

(** What a result of the inner [try] states about itself. *)
Lemma judged_output_inv (question : json) scores (vr : json) total tr out tr' :
  judged_output question scores vr total tr = (Ok out, tr') ->
  total_score (verification_of out) = Some total /\
  is_valid (verification_of out) = F.ge total F.f0_6 /\
  error (verification_of out) = None.
Proof.
  unfold judged_output. intros H.
  repeat (apply bind_inv_ok in H; destruct H as (? & ? & _ & H)).
  apply ret_inv in H. destruct H as [-> _]. repeat split.
Qed.

Lemma judge_inv (W : World) (question : json) scores (text : string) tr out tr' :
  (verification_result <- lift (loads W text) ;;
   total <- judgment_total_score verification_result ;;
   judged_output question scores verification_result total) tr = (Ok out, tr') ->
  exists total,
    total_score (verification_of out) = Some total /\
    is_valid (verification_of out) = F.ge total F.f0_6 /\
    error (verification_of out) = None.
Proof.
  intros H.
  apply bind_inv_ok in H. destruct H as (vr & tr1 & _ & H).
  apply bind_inv_ok in H. destruct H as (total & tr2 & _ & H).
  exists total. eapply judged_output_inv. exact H.
Qed.

Lemma compute_question_similarity_valid (W : World) (question : json) (context : string)
    tr sr tr' :
  RAGService.compute_question_similarity W question context tr = (Ok sr, tr') ->
  sr_is_valid sr = F.ge (average_similarity sr) F.f0_6.
Proof.
  unfold RAGService.compute_question_similarity. intros H.
  repeat (apply bind_inv_ok in H; destruct H as (? & ? & _ & H)).
  apply ret_inv in H. destruct H as [-> _]. reflexivity.
Qed.

(** The invariant of [QuestionGenerator.verify_question]. *)
Lemma QG_verify_inv (W : World) (question : json) (context : string) tr out tr' :
  QuestionGenerator.verify_question W question context tr = (Ok out, tr') ->
  exists t, total_score (verification_of out) = Some t /\
            is_valid (verification_of out) = F.ge t F.f0_6.
Proof.
  unfold QuestionGenerator.verify_question. intros H.
  apply bind_inv_ok in H. destruct H as (sr & tr1 & Hsr & H).
  apply compute_question_similarity_valid in Hsr.
  repeat (apply bind_inv_ok in H; destruct H as (? & ? & _ & H)).
  apply try_inv_ok in H. destruct H as [H|(e & tr2 & _ & _ & H)].
  - apply judge_inv in H. destruct H as (t & Ht & Hv & _). eauto.
  - apply bind_inv_ok in H. destruct H as (? & ? & _ & H).
    apply ret_inv in H. destruct H as [-> _]. simpl. eauto.
Qed.

(** The invariant of the body of [verify_question_with_rag]. *)
Lemma Main_body_inv (W : World) (question : json) (context : string) tr out tr' :
  Main.verify_question_with_rag_body W question context tr = (Ok out, tr') ->
  exists t, total_score (verification_of out) = Some t /\
            is_valid (verification_of out) = F.ge t F.f0_6.
Proof.
  unfold Main.verify_question_with_rag_body. intros H.
  repeat (apply bind_inv_ok in H; destruct H as (? & ? & _ & H)).
  apply try_inv_ok in H. destruct H as [H|(e & tr2 & _ & _ & H)].
  - apply judge_inv in H. destruct H as (t & Ht & Hv & _). eauto.
  - apply bind_inv_ok in H. destruct H as (? & ? & _ & H).
    apply ret_inv in H. destruct H as [-> _]. simpl. eauto.
Qed.

(** The catch-all of [verify_question_with_rag]: on a dictionary it always
    returns, and what the body raised becomes an error result. *)
Lemma Main_verify_total (W : World) (members : list (string * json)) (context : string) tr :
  exists out tr',
    Main.verify_question_with_rag W (JObj members) context tr = (Ok out, tr') /\
    (Main.verify_question_with_rag_body W (JObj members) context tr = (Ok out, tr') \/
     exists e,
       Main.verify_question_with_rag_body W (JObj members) context tr = (Raise e, tr') /\
       total_score (verification_of out) = None /\
       is_valid (verification_of out) = false /\
       error (verification_of out) = Some (exn_str e)).
Proof.
  unfold Main.verify_question_with_rag, try_except.
  destruct (Main.verify_question_with_rag_body W (JObj members) context tr)
    as [[out|e] tr1].
  - exists out, tr1. split; [reflexivity|now left].
  - cbn [is_Exception]. unfold bind, lift, ret. cbn [py_get].
    destruct (assoc "id" members); eexists; eexists; (split; [reflexivity|]);
      right; exists e; repeat split.
Qed.

Lemma Main_verify_inv (W : World) (question : json) (context : string) tr out tr' :
  Main.verify_question_with_rag W question context tr = (Ok out, tr') ->
  (exists t, total_score (verification_of out) = Some t /\
             is_valid (verification_of out) = F.ge t F.f0_6) \/
  (total_score (verification_of out) = None /\
   is_valid (verification_of out) = false /\
   exists msg, error (verification_of out) = Some msg).
Proof.
  unfold Main.verify_question_with_rag. intros H.
  apply try_inv_ok in H. destruct H as [H|(e & tr1 & _ & _ & H)].
  - left. eapply Main_body_inv. exact H.
  - right. apply bind_inv_ok in H. destruct H as (? & ? & _ & H).
    apply ret_inv in H. destruct H as [-> _]. simpl. eauto.
Qed.

(** The code multiplies each score by its weight; the specification writes
    the weight first. *)
Lemma code_total_is_spec (hc_result : json) (rating : Spec.quality) (semantic : F.float) :
  code_total hc_result (JStr (Spec.rating_label rating)) semantic =
  Spec.total_score (Spec.hallucination_score hc_result) (Spec.quality_score rating) semantic.
Proof.
  unfold code_total, Spec.total_score, Spec.hallucination_score.
  rewrite (FloatFacts.mul_comm semantic F.f0_3).
  destruct rating, (py_eq_str hc_result "Y"); reflexivity.
Qed.

Section Runs.
Variable W : World.
Variables (question : json) (context q a e : string).
Hypothesis has_question : py_getitem question "question" = Ok (JStr q).
Hypothesis has_answer : py_getitem question "correct_answer" = Ok (JStr a).
Hypothesis has_explanation : py_getitem question "explanation" = Ok (JStr e).
Hypothesis embedder_answers : forall n text, exists v, encode W n text = Ok v.

Lemma compute_question_similarity_runs (tr : trace) :
  exists sr tr1,
    RAGService.compute_question_similarity W question context tr = (Ok sr, tr1).
Proof.
  pose proof (getitem_is_get _ _ (JStr "") _ has_explanation) as Hget.
  unfold RAGService.compute_question_similarity.
  run_encode embedder_answers.
  do 6 (run_lift; cbn [preprocess_text py_str_method]).
  do 2 run_encode embedder_answers.
  destruct (py_truthy_str (preprocess_str e)).
  - unfold bind at 1. run_encode embedder_answers. unfold ret. eauto.
  - unfold bind, ret. eauto.
Qed.

Variable llm_text : string.
Hypothesis judge_answers :
  forall n,
    generate_content W n (VerificationPrompt context (JStr q) (JStr a) (JStr e)) = Ok llm_text.

(** Both verifiers reach the inner [try] with embedding scores. *)
Lemma Main_body_reaches_try (tr : trace) :
  exists scores tr1,
    es_average scores =
      F.div (F.add (F.add (es_question scores) (es_answer scores)) (es_explanation scores))
            F.f3 /\
    Main.verify_question_with_rag_body W question context tr =
    try_except
      (verification_result <- lift (loads W (extract_json_text llm_text)) ;;
       total <- judgment_total_score verification_result ;;
       judged_output question scores verification_result total)
      is_JSONDecodeError
      (fun _ =>
         qid <- lift (py_get question "id" (JStr "")) ;;
         ret {| question_id := qid;
                verification_of :=
                  {| embedding_similarity := Some scores;
                     hallucination_check := None;
                     quality_check := None;
                     semantic_consistency := None;
                     total_score := Some (es_average scores);
                     is_valid := F.ge (es_average scores) F.f0_6;
                     error := Some parse_failed |} |}) tr1.
Proof.
  unfold Main.verify_question_with_rag_body.
  run_encode embedder_answers.
  do 6 (run_lift; cbn [preprocess_text py_str_method]).
  do 3 run_encode embedder_answers.
  do 3 run_lift.
  run_generate judge_answers.
  eexists {| es_question := _; es_answer := _; es_explanation := _; es_average := _ |}.
  eexists. split; [|reflexivity]. reflexivity.
Qed.

Lemma QG_reaches_try (tr : trace) :
  exists sr tr1,
    sr_is_valid sr = F.ge (average_similarity sr) F.f0_6 /\
    QuestionGenerator.verify_question W question context tr =
    try_except
      (verification_result <- lift (loads W (extract_json_text llm_text)) ;;
       total <- judgment_total_score verification_result ;;
       judged_output question
         {| es_question := question_similarity sr;
            es_answer := answer_similarity sr;
            es_explanation := explanation_similarity sr;
            es_average := average_similarity sr |} verification_result total)
      is_JSONDecodeError
      (fun _ =>
         qid <- lift (py_get question "id" (JStr "")) ;;
         ret {| question_id := qid;
                verification_of :=
                  {| embedding_similarity :=
                       Some {| es_question := question_similarity sr;
                               es_answer := answer_similarity sr;
                               es_explanation := explanation_similarity sr;
                               es_average := average_similarity sr |};
                     hallucination_check := None;
                     quality_check := None;
                     semantic_consistency := None;
                     total_score := Some (average_similarity sr);
                     is_valid := sr_is_valid sr;
                     error := Some parse_failed |} |}) tr1.
Proof.
  pose proof (getitem_is_get _ _ (JStr "") _ has_explanation) as Hget.
  destruct (compute_question_similarity_runs tr) as (sr & tr1 & Hsr).
  exists sr. unfold QuestionGenerator.verify_question.
  rewrite (bind_ok _ _ _ _ _ Hsr).
  do 3 run_lift.
  run_generate judge_answers.
  eexists. split; [|reflexivity].
  eapply compute_question_similarity_valid. exact Hsr.
Qed.
End Runs.
End VerifyFacts.

(** C1: a question with its three texts, models that answer and a judgment
    response that decodes into a judgment with a hallucination result, a
    quality rating and a semantic average.  Both verifiers return a result
    without error whose total score is
    [0.4*hallucination_score + 0.3*quality_score + 0.3*semantic average] and
    which is valid exactly when that total is at least 0.6.  For result Y,
    rating appropriate and average 0.9 the total is 0.88 and the question is
    valid. *)
Theorem C1_fused_total_score
    (W : World) (question : json) (context q a e : string) (tr : trace)
    (llm_text : string) (vr hc qc sc hc_result : json) (rating : Spec.quality)
    (semantic : F.float) :
  py_getitem question "question" = Ok (JStr q) ->
  py_getitem question "correct_answer" = Ok (JStr a) ->
  py_getitem question "explanation" = Ok (JStr e) ->
  (forall n text, exists v, encode W n text = Ok v) ->
  (forall n, generate_content W n
               (VerificationPrompt context (JStr q) (JStr a) (JStr e)) = Ok llm_text) ->
  json_loads W (extract_json_text llm_text) = inr vr ->
  py_getitem vr "hallucination_check" = Ok hc ->
  py_getitem hc "result" = Ok hc_result ->
  py_getitem vr "quality_check" = Ok qc ->
  py_getitem qc "rating" = Ok (JStr (Spec.rating_label rating)) ->
  py_getitem vr "semantic_consistency" = Ok sc ->
  py_getitem sc "average_score" = Ok (JFloat semantic) ->
  let total :=
    Spec.total_score (Spec.hallucination_score hc_result) (Spec.quality_score rating)
      semantic in
  (exists out tr',
     Main.verify_question_with_rag W question context tr = (Ok out, tr') /\
     total_score (verification_of out) = Some total /\
     is_valid (verification_of out) = F.ge total F.f0_6 /\
     error (verification_of out) = None) /\
  (exists out tr',
     QuestionGenerator.verify_question W question context tr = (Ok out, tr') /\
     total_score (verification_of out) = Some total /\
     is_valid (verification_of out) = F.ge total F.f0_6 /\
     error (verification_of out) = None) /\
  Spec.total_score (Spec.hallucination_score (JStr "Y"))
    (Spec.quality_score Spec.appropriate) (F.lit 9 10) = F.lit 88 100 /\
  F.ge (F.lit 88 100) F.f0_6 = true.
Proof.
  intros Hq Ha He Henc Hgen Hvr Hhc Hres Hqc Hrat Hsc Havg total.
  destruct (VerifyFacts.getitem_get_total question _ (JStr "") "question" "id" Hq)
    as [qid Hid].
  assert (Htotal : code_total hc_result (JStr (Spec.rating_label rating)) semantic
                   = total) by apply VerifyFacts.code_total_is_spec.
  split; [|split; [|split; reflexivity]].
  - destruct (VerifyFacts.Main_body_reaches_try W question context q a e Hq Ha He Henc
                llm_text Hgen tr) as (scores & tr1 & _ & Hbody).
    unfold Main.verify_question_with_rag.
    erewrite MonadFacts.try_ok; cycle 1.
    + rewrite Hbody. apply MonadFacts.try_ok.
      eapply VerifyFacts.judged; eassumption.
    + eexists. eexists. split; [reflexivity|].
      cbn [verification_of total_score is_valid error]. rewrite Htotal. repeat split.
  - destruct (VerifyFacts.QG_reaches_try W question context q a e Hq Ha He Henc
                llm_text Hgen tr) as (sr & tr1 & _ & Hrun).
    rewrite Hrun. erewrite MonadFacts.try_ok; cycle 1.
    + eapply VerifyFacts.judged; eassumption.
    + eexists. eexists. split; [reflexivity|].
      cbn [verification_of total_score is_valid error]. rewrite Htotal. repeat split.
Qed.

(** C4: a question with its three texts, an embedding model that answers
    and a judgment response that is no JSON document.  Both verifiers return
    a result whose total score is the average of the embedding similarities,
    which is valid exactly when that average is at least 0.6 and which
    carries the parse-failure marker; an average of 0.55 makes the question
    invalid.  The similarities are the cosine similarities of the embedding
    of the context with the embeddings of the preprocessed question, answer
    and explanation.  [verify_question_with_rag] embeds the context as it is
    and averages the three; [QuestionGenerator.verify_question] embeds the
    preprocessed context and averages the three when the preprocessed
    explanation is not empty, the first two otherwise. *)
Theorem C4_fallback_to_embedding_average
    (W : World) (question : json) (context q a e : string) (tr : trace)
    (llm_text msg : string) (d dp qe ae ee : tensor W) :
  py_getitem question "question" = Ok (JStr q) ->
  py_getitem question "correct_answer" = Ok (JStr a) ->
  py_getitem question "explanation" = Ok (JStr e) ->
  let n := List.length tr in
  encode W n context = Ok d ->
  encode W n (preprocess_str context) = Ok dp ->
  encode W (S n) (preprocess_str q) = Ok qe ->
  encode W (S (S n)) (preprocess_str a) = Ok ae ->
  encode W (S (S (S n))) (preprocess_str e) = Ok ee ->
  (forall k, generate_content W k
               (VerificationPrompt context (JStr q) (JStr a) (JStr e)) = Ok llm_text) ->
  json_loads W (extract_json_text llm_text) = inl msg ->
  let fallen_back (r : result verify_output * trace) (scores : embedding_scores) :=
    exists out tr',
      r = (Ok out, tr') /\
      embedding_similarity (verification_of out) = Some scores /\
      total_score (verification_of out) = Some (es_average scores) /\
      is_valid (verification_of out) = F.ge (es_average scores) F.f0_6 /\
      error (verification_of out) = Some parse_failed /\
      (es_average scores = F.lit 55 100 ->
       total_score (verification_of out) = Some (F.lit 55 100) /\
       is_valid (verification_of out) = false) in
  let mean3 x y z := F.div (F.add (F.add x y) z) F.f3 in
  let mean2 x y := F.div (F.add x y) F.f2 in
  let sim := cosine_similarity W in
  fallen_back (Main.verify_question_with_rag W question context tr)
    {| es_question := sim d qe;
       es_answer := sim d ae;
       es_explanation := sim d ee;
       es_average := mean3 (sim d qe) (sim d ae) (sim d ee) |} /\
  fallen_back (QuestionGenerator.verify_question W question context tr)
    (if py_truthy_str (preprocess_str e)
     then {| es_question := sim dp qe;
             es_answer := sim dp ae;
             es_explanation := sim dp ee;
             es_average := mean3 (sim dp qe) (sim dp ae) (sim dp ee) |}
     else {| es_question := sim dp qe;
             es_answer := sim dp ae;
             es_explanation := F.f0_0;
             es_average := mean2 (sim dp qe) (sim dp ae) |}).
Proof.
  intros Hq Ha He n Hd Hdp Hqe Hae Hee Hgen Hmsg fallen_back mean3 mean2 sim.
  destruct (VerifyFacts.getitem_get_total question _ (JStr "") "question" "id" Hq)
    as [qid Hid].
  pose proof (VerifyFacts.getitem_is_get _ _ (JStr "") _ He) as Hget.
  split.
  - assert (Hbody : exists tr1,
      Main.verify_question_with_rag_body W question context tr =
      (Ok {| question_id := qid;
             verification_of :=
               {| embedding_similarity :=
                    Some {| es_question := sim d qe;
                            es_answer := sim d ae;
                            es_explanation := sim d ee;
                            es_average := mean3 (sim d qe) (sim d ae) (sim d ee) |};
                  hallucination_check := None;
                  quality_check := None;
                  semantic_consistency := None;
                  total_score := Some (mean3 (sim d qe) (sim d ae) (sim d ee));
                  is_valid := F.ge (mean3 (sim d qe) (sim d ae) (sim d ee)) F.f0_6;
                  error := Some parse_failed |} |}, tr1)).
    { unfold Main.verify_question_with_rag_body.
      unfold bind at 1, model_encode at 1. fold n. rewrite Hd.
      unfold bind at 1, lift at 1. rewrite Hq.
      unfold bind at 1, lift at 1. cbn [preprocess_text py_str_method].
      unfold bind at 1, lift at 1. rewrite Ha.
      unfold bind at 1, lift at 1. cbn [preprocess_text py_str_method].
      unfold bind at 1, lift at 1. rewrite He.
      unfold bind at 1, lift at 1. cbn [preprocess_text py_str_method].
      unfold bind at 1, model_encode at 1. cbn [List.length]. fold n. rewrite Hqe.
      unfold bind at 1, model_encode at 1. cbn [List.length]. fold n. rewrite Hae.
      unfold bind at 1, model_encode at 1. cbn [List.length]. fold n. rewrite Hee.
      do 3 (unfold bind at 1, lift at 1).
      unfold bind at 1, model_generate at 1. rewrite Hgen.
      cbv zeta.
      rewrite (MonadFacts.try_handled _ _ _ _ _ _
                 (GenerationFacts.decode_fails W _ _ _ _ Hmsg) eq_refl).
      unfold bind, lift, ret. rewrite Hid. eexists. reflexivity. }
    destruct Hbody as [tr1 Hbody].
    unfold Main.verify_question_with_rag.
    rewrite (MonadFacts.try_ok _ _ _ _ _ _ Hbody).
    eexists. eexists. split; [reflexivity|].
    cbn [verification_of total_score is_valid error embedding_similarity es_average].
    do 4 (split; [reflexivity|]). intros E. rewrite E. split; reflexivity.
  - assert (Hsim : exists tr1,
      RAGService.compute_question_similarity W question context tr =
      (Ok (if py_truthy_str (preprocess_str e)
           then {| question_similarity := sim dp qe;
                   answer_similarity := sim dp ae;
                   explanation_similarity := sim dp ee;
                   average_similarity := mean3 (sim dp qe) (sim dp ae) (sim dp ee);
                   sr_is_valid :=
                     F.ge (mean3 (sim dp qe) (sim dp ae) (sim dp ee)) F.f0_6 |}
           else {| question_similarity := sim dp qe;
                   answer_similarity := sim dp ae;
                   explanation_similarity := F.f0_0;
                   average_similarity := mean2 (sim dp qe) (sim dp ae);
                   sr_is_valid := F.ge (mean2 (sim dp qe) (sim dp ae)) F.f0_6 |}), tr1)).
    { unfold RAGService.compute_question_similarity.
      unfold bind at 1, model_encode at 1. fold n. rewrite Hdp.
      unfold bind at 1, lift at 1. rewrite Hq.
      unfold bind at 1, lift at 1. cbn [preprocess_text py_str_method].
      unfold bind at 1, lift at 1. rewrite Ha.
      unfold bind at 1, lift at 1. cbn [preprocess_text py_str_method].
      unfold bind at 1, lift at 1. rewrite Hget.
      unfold bind at 1, lift at 1. cbn [preprocess_text py_str_method].
      unfold bind at 1, model_encode at 1. cbn [List.length]. fold n. rewrite Hqe.
      unfold bind at 1, model_encode at 1. cbn [List.length]. fold n. rewrite Hae.
      destruct (py_truthy_str (preprocess_str e)).
      - unfold bind, model_encode, ret. cbn [List.length]. fold n. rewrite Hee.
        eexists. reflexivity.
      - unfold bind, ret. eexists. reflexivity. }
    destruct Hsim as [tr1 Hsim].
    unfold QuestionGenerator.verify_question.
    rewrite (MonadFacts.bind_ok _ _ _ _ _ Hsim).
    unfold bind at 1, lift at 1. rewrite Hq.
    unfold bind at 1, lift at 1. rewrite Ha.
    unfold bind at 1, lift at 1. rewrite Hget.
    unfold bind at 1, model_generate at 1. rewrite Hgen.
    cbv zeta.
    rewrite (MonadFacts.try_handled _ _ _ _ _ _
               (GenerationFacts.decode_fails W _ _ _ _ Hmsg) eq_refl).
    unfold bind, lift, ret. rewrite Hid.
    eexists. eexists. split; [reflexivity|].
    cbn [verification_of total_score is_valid error embedding_similarity].
    destruct (py_truthy_str (preprocess_str e));
      cbn [question_similarity answer_similarity explanation_similarity
           average_similarity sr_is_valid es_average];
      (do 4 (split; [reflexivity|])); intros E; rewrite E; split; reflexivity.
Qed.

Lemma C1_fused_total_score_witness :
  (exists out tr',
     Main.verify_question_with_rag judging_world example_question "ctx" [] = (Ok out, tr') /\
     total_score (verification_of out) = Some (F.lit 88 100) /\
     is_valid (verification_of out) = true) /\
  (exists out tr',
     QuestionGenerator.verify_question judging_world example_question "ctx" [] =
       (Ok out, tr') /\
     total_score (verification_of out) = Some (F.lit 88 100) /\
     is_valid (verification_of out) = true).
Proof.
  destruct (C1_fused_total_score judging_world example_question "ctx" "q" "a" "because" []
              "```json {...} ```" (judgment "Y" "적절" (F.lit 9 10)) _ _ _ (JStr "Y")
              Spec.appropriate (F.lit 9 10)
              eq_refl eq_refl eq_refl (fun n text => ex_intro _ text eq_refl)
              (fun n => eq_refl) eq_refl eq_refl eq_refl eq_refl eq_refl eq_refl eq_refl)
    as ((out1 & tr1 & Hrun1 & Ht1 & Hv1 & _) & (out2 & tr2 & Hrun2 & Ht2 & Hv2 & _) & Ht & Hv).
  rewrite Ht in Ht1, Hv1, Ht2, Hv2. rewrite Hv in Hv1, Hv2.
  split; [exists out1, tr1|exists out2, tr2]; repeat split; assumption.
Defined.

Lemma C4_fallback_to_embedding_average_witness :
  (exists out tr',
     Main.verify_question_with_rag fallback_world example_question "ctx" [] = (Ok out, tr') /\
     embedding_similarity (verification_of out) =
       Some {| es_question := F.lit 75 100;
               es_answer := F.lit 35 100;
               es_explanation := F.lit 55 100;
               es_average :=
                 F.div (F.add (F.add (F.lit 75 100) (F.lit 35 100)) (F.lit 55 100)) F.f3 |} /\
     total_score (verification_of out) = Some (F.lit 55 100) /\
     is_valid (verification_of out) = false /\
     error (verification_of out) = Some parse_failed) /\
  (exists out tr',
     QuestionGenerator.verify_question fallback_world example_question "ctx" [] =
       (Ok out, tr') /\
     embedding_similarity (verification_of out) =
       Some {| es_question := F.lit 75 100;
               es_answer := F.lit 35 100;
               es_explanation := F.lit 55 100;
               es_average :=
                 F.div (F.add (F.add (F.lit 75 100) (F.lit 35 100)) (F.lit 55 100)) F.f3 |} /\
     total_score (verification_of out) = Some (F.lit 55 100) /\
     is_valid (verification_of out) = false /\
     error (verification_of out) = Some parse_failed).
Proof.
  destruct (C4_fallback_to_embedding_average fallback_world example_question
              "ctx" "q" "a" "because" [] "I cannot judge this." "Expecting value"
              "ctx" "ctx" "q" "a" "because"
              eq_refl eq_refl eq_refl eq_refl eq_refl eq_refl eq_refl eq_refl
              (fun k => eq_refl) eq_refl)
    as ((out1 & tr1 & Hrun1 & Hs1 & _ & _ & He1 & H1) &
        (out2 & tr2 & Hrun2 & Hs2 & _ & _ & He2 & H2)).
  destruct (H1 eq_refl) as [Ht1 Hv1]. destruct (H2 eq_refl) as [Ht2 Hv2].
  split; [exists out1, tr1|exists out2, tr2];
    (split; [assumption|]); (split; [assumption|]); repeat split; assumption.
Defined.

(** C2 (as stated): the result of the catch-all path of
    [verify_question_with_rag] has no total score.  Here the embedding model
    is down. *)
Lemma C2_error_result_has_no_total_score :
  Main.verify_question_with_rag embedder_down example_question "ctx" [] =
  (Ok {| question_id := JStr "";
         verification_of :=
           {| embedding_similarity := None;
              hallucination_check := None;
              quality_check := None;
              semantic_consistency := None;
              total_score := None;
              is_valid := false;
              error := Some "embedding model unavailable" |} |},
   [Encode "ctx"]) /\
  ~ (forall (W : World) question context tr out tr',
       Main.verify_question_with_rag W question context tr = (Ok out, tr') ->
       exists t, total_score (verification_of out) = Some t /\
                 is_valid (verification_of out) = F.ge t F.f0_6).
Proof.
  split; [reflexivity|]. intros H.
  destruct (H embedder_down example_question "ctx" [] _ _ eq_refl) as (t & Ht & _).
  discriminate.
Qed.

(** C2 (amended): every result of [QuestionGenerator.verify_question], and
    every result of [verify_question_with_rag] that has a total score, is
    valid exactly when its total score is at least 0.6; this covers the
    judged results and the parse-failure fallback.  The other results of
    [verify_question_with_rag], those of its catch-all path, have no total
    score, are not valid and carry an error. *)
Theorem C2_valid_iff_total_at_least_0_6
    (W : World) (question : json) (context : string) (tr tr' : trace) (out : verify_output) :
  (QuestionGenerator.verify_question W question context tr = (Ok out, tr') ->
   exists t, total_score (verification_of out) = Some t /\
             is_valid (verification_of out) = F.ge t F.f0_6) /\
  (Main.verify_question_with_rag W question context tr = (Ok out, tr') ->
   (exists t, total_score (verification_of out) = Some t /\
              is_valid (verification_of out) = F.ge t F.f0_6) \/
   (total_score (verification_of out) = None /\
    is_valid (verification_of out) = false /\
    exists msg, error (verification_of out) = Some msg)).
Proof.
  split.
  - apply VerifyFacts.QG_verify_inv.
  - apply VerifyFacts.Main_verify_inv.
Qed.

Lemma C2_valid_iff_total_at_least_0_6_witness :
  exists out tr',
    QuestionGenerator.verify_question babbling_world example_question "ctx" [] =
      (Ok out, tr') /\
    exists t, total_score (verification_of out) = Some t /\
              is_valid (verification_of out) = F.ge t F.f0_6.
Proof.
  destruct (QuestionGenerator.verify_question babbling_world example_question "ctx" [])
    as [[out|e] tr'] eqn:Hrun.
  - exists out, tr'. split; [reflexivity|].
    exact (proj1 (C2_valid_iff_total_at_least_0_6 babbling_world example_question
                    "ctx" [] tr' out) Hrun).
  - exfalso. vm_compute in Hrun. discriminate.
Defined.

(** C3: with the embedding model down, [QuestionGenerator.verify_question]
    raises the model's exception to its caller, while
    [verify_question_with_rag] returns an error result for the same
    question. *)
Theorem C3_agent_verifier_propagates :
  QuestionGenerator.verify_question embedder_down example_question "ctx" [] =
    (Raise (Exn ModelError "embedding model unavailable"), [Encode "ctx"]) /\
  exists out,
    Main.verify_question_with_rag embedder_down example_question "ctx" [] =
      (Ok out, [Encode "ctx"]) /\
    is_valid (verification_of out) = false /\
    error (verification_of out) = Some "embedding model unavailable".
Proof.
  split; [reflexivity|]. eexists. split; [reflexivity|]. split; reflexivity.
Qed.

Lemma C5_average_by_preprocessed_explanation_witness :
  exists sr,
    RAGService.compute_question_similarity example_world
      example_question "ctx" [] =
      (Ok sr, [Encode "because"; Encode "a"; Encode "q"; Encode "ctx"]) /\
    average_similarity sr =
      F.div (F.add (F.add (F.lit 9 10) F.f0_7) (F.lit 2 10)) F.f3.
Proof.
  destruct (C5_average_by_preprocessed_explanation example_world
              example_question "ctx" "q" "a" "because" [] "ctx" "q" "a"
              eq_refl eq_refl eq_refl eq_refl eq_refl eq_refl) as (_ & _ & H).
  assert (Hne : preprocess_str "because" <> "") by (vm_compute; discriminate).
  destruct (H Hne "because" eq_refl) as (sr & Hrun & _ & _ & _ & Havg).
  exists sr. split; [exact Hrun|exact Havg].
Defined.

(* ================================================================== *)
(** * Part III: further properties of the code *)
(* ================================================================== *)

(** ** The normalizer and the preprocessor *)

Module MoreTextFacts.
Import Text TextFacts NormalizeFacts.

Lemma punct_char (c : ascii) :
  is_punct c = true -> lower_char c = c /\ Ascii.eqb c "(" = false /\ nonspace c = true.
Proof. by_cases_on_char c. Qed.

Lemma space_char (c : ascii) :
  isspace c = true -> lower_char c = c /\ Ascii.eqb c "(" = false /\ is_punct c = false.
Proof. by_cases_on_char c. Qed.

Lemma no_open_no_pair (s : chars) :
  Forall (fun c => Ascii.eqb c "(" = false) s -> has_pair s = false.
Proof.
  induction 1 as [|c s Hc _ IH]; simpl; [reflexivity|]. now rewrite Hc.
Qed.

(** A text without blanks is one word. *)
Lemma collapse_ws_word (s : chars) :
  Forall (fun c => nonspace c = true) s -> collapse_ws s = s.
Proof.
  intros Hs. unfold collapse_ws, split_ws.
  rewrite <- (app_nil_r s) at 1. rewrite split_ws_from_app by exact Hs.
  rewrite app_nil_r. simpl.
  destruct (rev s) eqn:E.
  - apply (f_equal (@rev _)) in E. rewrite rev_involutive in E. now subst.
  - rewrite <- E. simpl. apply rev_involutive.
Qed.

(** A text of blanks has no word. *)
Lemma collapse_ws_blank (s : chars) :
  Forall (fun c => isspace c = true) s -> collapse_ws s = [].
Proof.
  unfold collapse_ws, split_ws.
  induction 1 as [|c s Hc _ IH]; simpl; [reflexivity|]. now rewrite Hc.
Qed.

(** After [collapse_ws] the only white space is the blank. *)
Lemma collapse_ws_only_blanks (s : chars) :
  Forall (fun c => isspace c = true -> c = " "%char) (collapse_ws s).
Proof.
  apply join_Forall; [reflexivity|].
  unfold split_ws.
  eapply Forall_impl; [|exact (split_ws_from_words s [] (Forall_nil _))].
  intros w [_ Hw]. eapply Forall_impl; [|exact Hw].
  intros c Hc Hs. unfold nonspace in Hc. rewrite Hs in Hc. discriminate.
Qed.
End MoreTextFacts.

(** X1: what [normalize_answer] returns has none of the characters
    [. , ! ? ; :] anywhere, no upper-case ASCII letter, no opening parenthesis
    with a closing one after it, and no white space but the blank. *)
Theorem X1_normalized_answer_shape (x : string) :
  let out := Text.of_string (normalize_answer x) in
  Forall (fun c => Text.is_punct c = false) out /\
  Forall (fun c => Text.lower_char c = c) out /\
  Text.has_pair out = false /\
  Forall (fun c => Text.isspace c = true -> c = " "%char) out.
Proof.
  cbv zeta. rewrite NormalizeFacts.normalize_answer_chars, TextFacts.of_to_string.
  destruct (NormalizeFacts.norm_chars_clean (Text.of_string x)) as (Hl & Hp & Hq).
  repeat split; try assumption.
  - eapply Forall_impl; [|exact Hq]. intros c Hc.
    unfold Text.nonpunct in Hc. now apply negb_true_iff in Hc.
  - unfold Text.norm_chars. apply TextFacts.Forall_filter_keep.
    apply MoreTextFacts.collapse_ws_only_blanks.
Qed.

(** X2: an answer made of punctuation marks only, or of blanks only,
    normalizes to the empty string; any two such answers are therefore equal
    after normalization. *)
Theorem X2_punctuation_or_blanks_normalize_to_empty (x : string) :
  Forall (fun c => Text.is_punct c = true) (Text.of_string x) \/
  Forall (fun c => Text.isspace c = true) (Text.of_string x) ->
  normalize_answer x = "".
Proof.
  rewrite NormalizeFacts.normalize_answer_chars. unfold Text.norm_chars.
  generalize (Text.of_string x). intros s [Hs|Hs].
  - assert (Hlow : Text.lower_chars s = s).
    { apply NormalizeFacts.lower_chars_fix. eapply Forall_impl; [|exact Hs].
      intros c Hc. now apply MoreTextFacts.punct_char. }
    rewrite Hlow, TextFacts.sub_paren_fix, MoreTextFacts.collapse_ws_word.
    + unfold Text.sub_punct.
      replace (filter (fun c => negb (Text.is_punct c)) s) with (@nil ascii); [reflexivity|].
      clear Hlow. induction Hs as [|c s Hc _ IH]; simpl; [reflexivity|]. now rewrite Hc.
    + eapply Forall_impl; [|exact Hs]. intros c Hc. now apply MoreTextFacts.punct_char.
    + apply MoreTextFacts.no_open_no_pair. eapply Forall_impl; [|exact Hs].
      intros c Hc. now apply MoreTextFacts.punct_char.
  - assert (Hlow : Text.lower_chars s = s).
    { apply NormalizeFacts.lower_chars_fix. eapply Forall_impl; [|exact Hs].
      intros c Hc. now apply MoreTextFacts.space_char. }
    rewrite Hlow, TextFacts.sub_paren_fix, MoreTextFacts.collapse_ws_blank;
      [reflexivity|exact Hs|].
    apply MoreTextFacts.no_open_no_pair. eapply Forall_impl; [|exact Hs].
    intros c Hc. now apply MoreTextFacts.space_char.
Qed.

Lemma X2_punctuation_or_blanks_normalize_to_empty_witness :
  normalize_answer "?!..." = "" /\ normalize_answer "   " = "".
Proof.
  split; apply X2_punctuation_or_blanks_normalize_to_empty.
  - left. repeat constructor.
  - right. repeat constructor.
Defined.

(** X3: [preprocess_text] maps a text of blanks to the empty string, which
    is why [compute_question_similarity] treats a blank explanation as a
    missing one. *)
Theorem X3_preprocess_blank_text (text : string) :
  Forall (fun c => Text.isspace c = true) (Text.of_string text) ->
  preprocess_str text = "" /\ py_truthy_str (preprocess_str text) = false.
Proof.
  intros Hs.
  assert (E : preprocess_str text = "").
  { unfold preprocess_str, py_join, py_split.
    change (Text.split_ws (Text.of_string text))
      with (Text.split_ws_from [] (Text.of_string text)).
    assert (Hnil : Text.split_ws_from [] (Text.of_string text) = []).
    { induction Hs as [|c s Hc _ IH]; simpl; [reflexivity|]. now rewrite Hc. }
    rewrite Hnil. reflexivity. }
  now rewrite E.
Qed.

Lemma X3_preprocess_blank_text_witness :
  preprocess_str "  " = "" /\ py_truthy_str (preprocess_str "  ") = false.
Proof. apply X3_preprocess_blank_text. repeat constructor. Defined.

(** ** The cleaning of a model response *)

Module FenceFacts.
Import Text TextFacts Fence.

Lemma of_string_app (a b : string) : of_string (a ++ b) = of_string a ++ of_string b.
Proof. induction a as [|c a IH]; simpl; [reflexivity|]. now rewrite IH. Qed.

Lemma nth_to_string (l : list chars) (i : nat) :
  nth i (map to_string l) "" = to_string (nth i l []).
Proof. exact (map_nth to_string l [] i). Qed.

Lemma extract_json_text_chars (text : string) :
  extract_json_text text = to_string (extract_chars (of_string text)).
Proof.
  unfold extract_json_text, extract_chars, py_in, py_strip, py_split_on.
  rewrite !of_to_string.
  destruct (contains (of_string "```json") (strip_chars (of_string text))).
  - now rewrite !nth_to_string, !of_to_string.
  - destruct (contains (of_string "```") (strip_chars (of_string text))).
    + now rewrite !nth_to_string, !of_to_string.
    + reflexivity.
Qed.

(** *** Searching a marker that begins with a backtick *)

Lemma starts_with_app (p r : chars) : starts_with p (p ++ r) = Some r.
Proof.
  induction p as [|c p IH]; simpl; [now destruct r|].
  now rewrite Ascii.eqb_refl.
Qed.

Lemma starts_with_tick_none (p s : chars) :
  no_tick s -> starts_with (tick :: p) s = None.
Proof.
  destruct 1 as [|c s Hc _]; cbn [starts_with]; [reflexivity|].
  now rewrite (Ascii.eqb_sym tick c), Hc.
Qed.

Lemma find_sep_no_tick (p s : chars) : no_tick s -> find_sep (tick :: p) s = None.
Proof.
  induction 1 as [|c s Hc Hs IH].
  - reflexivity.
  - cbn [find_sep]. rewrite starts_with_tick_none by now constructor.
    now rewrite IH.
Qed.

(** Before the first backtick there is no occurrence. *)
Lemma find_sep_skip (p a x : chars) :
  no_tick a ->
  find_sep (tick :: p) (a ++ x) =
  match find_sep (tick :: p) x with
  | Some (b, r) => Some (a ++ b, r)
  | None => None
  end.
Proof.
  induction 1 as [|c a Hc Ha IH].
  - simpl app. destruct (find_sep (tick :: p) x) as [[b r]|]; reflexivity.
  - change ((c :: a) ++ x) with (c :: (a ++ x)). cbn [find_sep].
    assert (Hs : starts_with (tick :: p) (c :: a ++ x) = None).
    { cbn [starts_with]. now rewrite (Ascii.eqb_sym tick c), Hc. }
    rewrite Hs, IH.
    destruct (find_sep (tick :: p) x) as [[b r]|]; reflexivity.
Qed.

Lemma find_sep_here (sep r : chars) : find_sep sep (sep ++ r) = Some ([], r).
Proof.
  destruct (sep ++ r) eqn:E; cbn [find_sep]; rewrite <- E, starts_with_app; reflexivity.
Qed.

Lemma find_sep_first (p a r : chars) :
  no_tick a -> find_sep (tick :: p) (a ++ (tick :: p) ++ r) = Some (a, r).
Proof.
  intros Ha. rewrite find_sep_skip by exact Ha.
  rewrite find_sep_here. now rewrite app_nil_r.
Qed.

Lemma find_sep_length (sep s b a : chars) :
  find_sep sep s = Some (b, a) ->
  List.length s = List.length b + List.length sep + List.length a.
Proof.
  revert b. induction s as [|c s IH]; intros b.
  - cbn [find_sep]. destruct (starts_with sep []) as [r|] eqn:E; [|discriminate].
    intros [= <- <-]. destruct sep; [|discriminate]. injection E as <-. reflexivity.
  - cbn [find_sep]. destruct (starts_with sep (c :: s)) as [r|] eqn:E.
    + intros [= <- <-]. clear IH. revert E. generalize (c :: s). clear.
      induction sep as [|x sep IH]; intros l; simpl.
      * now intros [= ->].
      * destruct l as [|y l]; [discriminate|].
        destruct (Ascii.eqb x y); [|discriminate].
        intros H. apply IH in H. simpl in *. lia.
    + destruct (find_sep sep s) as [[b' a']|] eqn:F; [|discriminate].
      intros [= <- <-]. specialize (IH _ eq_refl). simpl. lia.
Qed.

(** *** The first two parts of a split *)

Lemma split_on_fuel_first (n : nat) (sep s : chars) :
  sep <> [] -> List.length s <= n ->
  nth 0 (split_on_fuel n sep s) [] = before sep s.
Proof.
  intros Hsep Hlen. unfold before. destruct n as [|n].
  - destruct s; [|simpl in Hlen; lia]. simpl.
    destruct sep; [contradiction|reflexivity].
  - simpl. destruct (find_sep sep s) as [[b a]|]; reflexivity.
Qed.

Lemma split_on_second_part (sep s b a : chars) :
  sep <> [] -> find_sep sep s = Some (b, a) ->
  nth 1 (split_on sep s) [] = before sep a.
Proof.
  intros Hsep E. pose proof (find_sep_length _ _ _ _ E) as Hlen.
  unfold split_on. destruct (List.length s) as [|n] eqn:En.
  - destruct sep; [contradiction|simpl in Hlen; lia].
  - cbn [split_on_fuel]. rewrite E. cbn [nth].
    apply split_on_fuel_first; [exact Hsep|].
    destruct sep; [contradiction|simpl in Hlen; lia].
Qed.

Lemma split_on_first_part (sep s : chars) :
  sep <> [] -> nth 0 (split_on sep s) [] = before sep s.
Proof. intros Hsep. now apply split_on_fuel_first. Qed.

(** *** Stripping around a fenced block *)

Lemma skip_space_app (a m : chars) (c : ascii) :
  isspace c = false -> skip_space (a ++ c :: m) = skip_space a ++ c :: m.
Proof.
  intros Hc. induction a as [|x a IH]; simpl.
  - now rewrite Hc.
  - destruct (isspace x); [exact IH|reflexivity].
Qed.

Lemma strip_chars_around (a mid b : chars) (c d : ascii) :
  isspace c = false -> isspace d = false ->
  strip_chars (a ++ (c :: mid ++ [d]) ++ b) = skip_space a ++ (c :: mid ++ [d]) ++ rskip b.
Proof.
  intros Hc Hd. unfold strip_chars, rskip.
  change ((c :: mid ++ [d]) ++ b) with (c :: (mid ++ [d]) ++ b).
  rewrite skip_space_app by exact Hc.
  change (c :: (mid ++ [d]) ++ b) with ((c :: mid ++ [d]) ++ b).
  rewrite !rev_app_distr.
  replace (rev (c :: mid ++ [d])) with (d :: rev mid ++ [c])
    by (simpl; rewrite rev_app_distr; reflexivity).
  rewrite <- app_assoc.
  change ((d :: rev mid ++ [c]) ++ rev (skip_space a))
    with (d :: (rev mid ++ [c]) ++ rev (skip_space a)).
  rewrite skip_space_app by exact Hd.
  rewrite !rev_app_distr. simpl rev at 1.
  rewrite !rev_app_distr, !rev_involutive. simpl.
  now rewrite <- !app_assoc.
Qed.

Lemma no_tick_skip_space (s : chars) : no_tick s -> no_tick (skip_space s).
Proof. apply Forall_skip_space. Qed.

Lemma no_tick_rskip (s : chars) : no_tick s -> no_tick (rskip s).
Proof.
  intros H. unfold rskip. apply Forall_rev, Forall_skip_space, Forall_rev, H.
Qed.

Lemma strip_chars_no_tick (s : chars) : no_tick s -> no_tick (strip_chars s).
Proof.
  intros H. unfold strip_chars.
  apply Forall_rev, Forall_skip_space, Forall_rev, Forall_skip_space, H.
Qed.

Lemma no_tick_head (s : chars) : no_tick s -> head_not_tick s.
Proof. destruct 1; simpl; trivial. Qed.

Lemma skip_space_suffix (l : chars) : exists pre, l = pre ++ skip_space l.
Proof.
  induction l as [|c l [pre IH]]; simpl; [now exists []|].
  destruct (isspace c); [|now exists []].
  exists (c :: pre). simpl. now rewrite <- IH.
Qed.

Lemma head_not_tick_rskip (s : chars) : head_not_tick s -> head_not_tick (rskip s).
Proof.
  intros H. unfold rskip.
  destruct (skip_space_suffix (rev s)) as [pre E].
  apply (f_equal (@rev _)) in E. rewrite rev_involutive, rev_app_distr in E.
  destruct (rev (skip_space (rev s))) as [|c r]; [exact I|].
  rewrite E in H. exact H.
Qed.

(** An occurrence of the json marker at a fence that no backtick follows can
    only begin at the fence. *)
Lemma find_fence_json_at_fence (y : chars) :
  head_not_tick y ->
  find_sep fence_json (fence ++ y) =
  match starts_with (of_string "json") y with
  | Some r => Some ([], r)
  | None =>
      match find_sep fence_json y with
      | Some (b, r) => Some (fence ++ b, r)
      | None => None
      end
  end.
Proof.
  intros Hy.
  change (fence ++ y) with (tick :: tick :: tick :: y).
  change fence_json with (tick :: tick :: tick :: of_string "json").
  cbn [find_sep starts_with]. rewrite !Ascii.eqb_refl.
  destruct (starts_with (of_string "json") y) as [r|] eqn:Ej; [reflexivity|].
  destruct y as [|c y']; [reflexivity|]. simpl in Hy.
  rewrite (Ascii.eqb_sym tick c), Hy.
  destruct (find_sep (tick :: tick :: tick :: of_string "json") (c :: y')) as [[b r]|];
    reflexivity.
Qed.

(** What [split("```json")[1].split("```")[0]] reads behind the json
    marker: the text up to the closing fence. *)
Lemma before_closing_fence (body post : chars) :
  no_tick body -> head_not_tick post ->
  before fence (before fence_json (body ++ fence ++ post)) = body.
Proof.
  intros Hb Hp.
  assert (Hshape : exists z, before fence_json (body ++ fence ++ post) = body ++ z /\
                             (z = [] \/ exists z', z = fence ++ z')).
  { unfold before.
    change fence_json with (tick :: tick :: tick :: of_string "json").
    rewrite find_sep_skip by exact Hb.
    change (tick :: tick :: tick :: of_string "json") with fence_json.
    rewrite find_fence_json_at_fence by exact Hp.
    destruct (starts_with (of_string "json") post) as [r|].
    - exists []. split; [reflexivity|now left].
    - destruct (find_sep fence_json post) as [[b r]|].
      + exists (fence ++ b). split; [reflexivity|]. right. now exists b.
      + exists (fence ++ post). split; [reflexivity|]. right. now exists post. }
  destruct Hshape as (z & -> & [->|[z' ->]]); unfold before.
  - rewrite app_nil_r.
    change fence with (tick :: tick :: [tick]).
    now rewrite find_sep_no_tick.
  - change fence with (tick :: tick :: [tick]).
    now rewrite find_sep_first.
Qed.

Lemma fence_json_block (body : chars) :
  fence_json ++ body ++ fence =
  tick :: (of_string "``json" ++ body ++ of_string "``") ++ [tick].
Proof.
  change fence_json with (tick :: of_string "``json").
  change fence with (of_string "``" ++ [tick]).
  simpl. now rewrite <- !app_assoc.
Qed.

Lemma fence_block (body : chars) :
  fence ++ body ++ fence = tick :: (of_string "``" ++ body ++ of_string "``") ++ [tick].
Proof.
  change fence with (of_string "``" ++ [tick]) at 2.
  change fence with (tick :: of_string "``").
  simpl. now rewrite <- !app_assoc.
Qed.

Lemma tick_not_space : isspace tick = false.
Proof. reflexivity. Qed.

Lemma fence_ne : fence <> [].
Proof. discriminate. Qed.

Lemma fence_json_ne : fence_json <> [].
Proof. discriminate. Qed.

Lemma extract_chars_plain (text : chars) :
  no_tick text -> extract_chars text = strip_chars text.
Proof.
  intros H. apply strip_chars_no_tick in H. unfold extract_chars, contains.
  change (of_string "```json") with (tick :: tick :: tick :: of_string "json").
  change (of_string "```") with (tick :: tick :: [tick]).
  now rewrite !find_sep_no_tick.
Qed.

Lemma extract_chars_json_block (pre body post : chars) :
  no_tick pre -> no_tick body -> head_not_tick post ->
  extract_chars (pre ++ fence_json ++ body ++ fence ++ post) = strip_chars body.
Proof.
  intros Hpre Hbody Hpost. unfold extract_chars.
  replace (pre ++ fence_json ++ body ++ fence ++ post)
    with (pre ++ (fence_json ++ body ++ fence) ++ post)
    by (now rewrite <- !app_assoc).
  rewrite fence_json_block, strip_chars_around by apply tick_not_space.
  rewrite <- fence_json_block. rewrite <- !app_assoc.
  fold fence_json. fold fence.
  assert (Hfind : find_sep fence_json
                    (skip_space pre ++ fence_json ++ body ++ fence ++ rskip post) =
                  Some (skip_space pre, body ++ fence ++ rskip post)).
  { change fence_json with (tick :: tick :: tick :: of_string "json").
    apply find_sep_first. now apply no_tick_skip_space. }
  unfold contains. rewrite Hfind.
  rewrite (split_on_second_part _ _ _ _ fence_json_ne Hfind).
  rewrite split_on_first_part by exact fence_ne.
  rewrite before_closing_fence; [reflexivity|exact Hbody|].
  now apply head_not_tick_rskip.
Qed.

Lemma extract_chars_fenced_block (pre body post : chars) :
  no_tick pre -> no_tick body ->
  contains fence_json (strip_chars (pre ++ fence ++ body ++ fence ++ post)) = false ->
  extract_chars (pre ++ fence ++ body ++ fence ++ post) = strip_chars body.
Proof.
  intros Hpre Hbody Hno. unfold extract_chars. fold fence_json. rewrite Hno.
  replace (pre ++ fence ++ body ++ fence ++ post)
    with (pre ++ (fence ++ body ++ fence) ++ post)
    by (now rewrite <- !app_assoc).
  rewrite fence_block, strip_chars_around by apply tick_not_space.
  rewrite <- fence_block. rewrite <- !app_assoc. fold fence.
  assert (Hfind : find_sep fence (skip_space pre ++ fence ++ body ++ fence ++ rskip post) =
                  Some (skip_space pre, body ++ fence ++ rskip post)).
  { change fence with (tick :: tick :: [tick]).
    apply find_sep_first. now apply no_tick_skip_space. }
  unfold contains. rewrite Hfind.
  rewrite (split_on_second_part _ _ _ _ fence_ne Hfind).
  unfold before. change fence with (tick :: tick :: [tick]).
  now rewrite find_sep_first.
Qed.
(** *** A json block that is not closed *)

Lemma skip_space_idem (s : chars) : skip_space (skip_space s) = skip_space s.
Proof.
  induction s as [|c s IH]; simpl; [reflexivity|].
  destruct (isspace c) eqn:Hc; [exact IH|]. simpl. now rewrite Hc.
Qed.

Lemma skip_space_snoc (l : chars) (c : ascii) :
  skip_space (l ++ [c]) =
  match skip_space l with
  | [] => if isspace c then [] else [c]
  | r => r ++ [c]
  end.
Proof.
  induction l as [|x l IH]; simpl; [reflexivity|].
  destruct (isspace x); [exact IH|reflexivity].
Qed.

Lemma rskip_cons (c : ascii) (s : chars) :
  rskip (c :: s) =
  match rskip s with
  | [] => if isspace c then [] else [c]
  | r => c :: r
  end.
Proof.
  unfold rskip. simpl rev at 2. rewrite skip_space_snoc.
  destruct (skip_space (rev s)) as [|x r].
  - destruct (isspace c); reflexivity.
  - rewrite rev_app_distr. simpl rev at 1.
    destruct (rev (x :: r)) eqn:E; [|reflexivity].
    apply (f_equal (@List.length _)) in E. rewrite length_rev in E. discriminate.
Qed.

Lemma skip_space_rskip (s : chars) : skip_space (rskip s) = rskip (skip_space s).
Proof.
  induction s as [|c s IH]; [reflexivity|].
  rewrite rskip_cons. cbn [skip_space].
  destruct (isspace c) eqn:Hc.
  - rewrite <- IH. destruct (rskip s); simpl; [reflexivity|now rewrite Hc].
  - rewrite rskip_cons, Hc. destruct (rskip s); simpl; now rewrite Hc.
Qed.

Lemma strip_chars_rskip (s : chars) : strip_chars (rskip s) = strip_chars s.
Proof.
  change (strip_chars (rskip s)) with (rskip (skip_space (rskip s))).
  rewrite skip_space_rskip. unfold rskip at 1 2.
  now rewrite rev_involutive, skip_space_idem.
Qed.

Lemma extract_chars_open_block (pre body : chars) :
  no_tick pre -> no_tick body ->
  extract_chars (pre ++ fence_json ++ body) = strip_chars body.
Proof.
  intros Hpre Hbody. unfold extract_chars.
  replace (pre ++ fence_json ++ body)
    with (pre ++ (tick :: of_string "``jso" ++ ["n"%char]) ++ body) by reflexivity.
  rewrite strip_chars_around by reflexivity.
  change (tick :: of_string "``jso" ++ ["n"%char]) with fence_json.
  fold fence_json. fold fence.
  assert (Hfind : find_sep fence_json (skip_space pre ++ fence_json ++ rskip body) =
                  Some (skip_space pre, rskip body)).
  { change fence_json with (tick :: tick :: tick :: of_string "json").
    apply find_sep_first. now apply no_tick_skip_space. }
  unfold contains. rewrite Hfind.
  rewrite (split_on_second_part _ _ _ _ fence_json_ne Hfind).
  rewrite split_on_first_part by exact fence_ne.
  pose proof (no_tick_rskip body Hbody) as Hr.
  unfold before.
  change fence_json with (tick :: tick :: tick :: of_string "json").
  rewrite (find_sep_no_tick _ _ Hr).
  change fence with (tick :: tick :: [tick]).
  rewrite (find_sep_no_tick _ _ Hr).
  apply strip_chars_rskip.
Qed.
End FenceFacts.

(** X4: a response without any backtick is only stripped. *)
Theorem X4_response_without_fence (text : string) :
  Fence.no_tick (Text.of_string text) ->
  extract_json_text text = py_strip text.
Proof.
  intros H. rewrite FenceFacts.extract_json_text_chars.
  unfold py_strip. f_equal. now apply FenceFacts.extract_chars_plain.
Qed.

Lemma X4_response_without_fence_witness :
  extract_json_text "  {1: 2}  " = py_strip "  {1: 2}  ".
Proof. apply X4_response_without_fence. repeat constructor. Defined.

(** X5: a document in a block fenced as json comes back stripped, whatever
    prose without backticks precedes the block and whatever text that does
    not begin with a backtick follows it. *)
Theorem X5_json_fence_round_trip (pre body post : string) :
  Fence.no_tick (Text.of_string pre) ->
  Fence.no_tick (Text.of_string body) ->
  Fence.head_not_tick (Text.of_string post) ->
  extract_json_text (pre ++ "```json" ++ body ++ "```" ++ post) = py_strip body.
Proof.
  intros Hpre Hbody Hpost. rewrite FenceFacts.extract_json_text_chars.
  rewrite !FenceFacts.of_string_app.
  unfold py_strip. f_equal.
  now apply FenceFacts.extract_chars_json_block.
Qed.

Lemma X5_json_fence_round_trip_witness :
  extract_json_text ("Here you are: " ++ "```json" ++ " {1: 2} " ++ "```" ++ " Use `x`.") =
  py_strip " {1: 2} ".
Proof.
  apply X5_json_fence_round_trip; [repeat constructor|repeat constructor|reflexivity].
Defined.

(** X6: in a response without the json marker, the text of the first fenced
    block comes back stripped, whatever follows the block; a language tag
    other than json stays in front of the document. *)
Theorem X6_plain_fence (pre body post : string) :
  Fence.no_tick (Text.of_string pre) ->
  Fence.no_tick (Text.of_string body) ->
  py_in "```json" (py_strip (pre ++ "```" ++ body ++ "```" ++ post)) = false ->
  extract_json_text (pre ++ "```" ++ body ++ "```" ++ post) = py_strip body.
Proof.
  intros Hpre Hbody Hno. rewrite FenceFacts.extract_json_text_chars.
  unfold py_in, py_strip in Hno. rewrite TextFacts.of_to_string in Hno.
  rewrite !FenceFacts.of_string_app in *.
  unfold py_strip. f_equal.
  now apply FenceFacts.extract_chars_fenced_block.
Qed.

Lemma X6_plain_fence_witness :
  extract_json_text ("Result: " ++ "```" ++ "python {1: 2} " ++ "```" ++ "``` again") =
  py_strip "python {1: 2} ".
Proof.
  apply X6_plain_fence; [repeat constructor|repeat constructor|reflexivity].
Defined.

(** X7: a json block that is never closed, as in a response that was cut
    short, is read to the end of the response and stripped. *)
Theorem X7_unclosed_json_fence (pre body : string) :
  Fence.no_tick (Text.of_string pre) ->
  Fence.no_tick (Text.of_string body) ->
  extract_json_text (pre ++ "```json" ++ body) = py_strip body.
Proof.
  intros Hpre Hbody. rewrite FenceFacts.extract_json_text_chars.
  rewrite !FenceFacts.of_string_app.
  unfold py_strip. f_equal.
  now apply FenceFacts.extract_chars_open_block.
Qed.

Lemma X7_unclosed_json_fence_witness :
  extract_json_text ("Sure. " ++ "```json" ++ " {1: 2} ") = py_strip " {1: 2} ".
Proof.
  apply X7_unclosed_json_fence; repeat constructor.
Defined.

(** ** The similarity of a question and the retrieval of chunks *)

Module RetrievalFacts.
Import MonadFacts TextFacts.

Lemma encode_inv_ok (W : World) (text : string) (tr tr' : trace) (v : tensor W) :
  model_encode W text tr = (Ok v, tr') ->
  encode W (List.length tr) text = Ok v /\ tr' = Encode text :: tr.
Proof. unfold model_encode. now intros [= -> <-]. Qed.

Lemma generate_inv_ok (W : World) (p : prompt) (tr tr' : trace) (text : string) :
  model_generate W p tr = (Ok text, tr') ->
  generate_content W (List.length tr) p = Ok text /\ tr' = Generate p :: tr.
Proof. unfold model_generate. now intros [= -> <-]. Qed.

(** *** Words, split and joined *)

Lemma py_split_words (text : string) :
  Forall (fun w => Text.word (Text.of_string w)) (py_split text).
Proof.
  unfold py_split. apply Forall_map.
  eapply Forall_impl; [|exact (split_ws_from_words (Text.of_string text) [] (Forall_nil _))].
  intros w Hw. now rewrite of_to_string.
Qed.

Lemma py_split_join (ws : list string) :
  Forall (fun w => Text.word (Text.of_string w)) ws ->
  py_split (py_join " " ws) = ws.
Proof.
  intros Hws. unfold py_split, py_join. rewrite of_to_string.
  change (Text.of_string " ") with Text.space.
  rewrite split_join by now apply Forall_map.
  rewrite map_map. rewrite <- (map_id ws) at 2.
  apply map_ext. intros w. apply to_of_string.
Qed.

(** *** The windows of [make_chunks] *)

Lemma make_chunks_windows (document : string) (chunk_size : Z) :
  (2 <= chunk_size)%Z ->
  let words := py_split document in
  let step := Z.to_nat (chunk_size / 2) in
  let count := window_count (Z.of_nat (List.length words)) (chunk_size / 2) in
  0 < step /\ 2 * step <= Z.to_nat chunk_size /\
  (forall k, k < count <-> k * step < List.length words) /\
  RAGService.make_chunks document chunk_size =
    Ok (map (fun k => py_join " " (firstn (Z.to_nat chunk_size) (skipn (k * step) words)))
            (seq 0 count)).
Proof.
  intros Hsize words step count.
  assert (Hstep : (0 < chunk_size / 2)%Z) by (apply Z.div_str_pos; lia).
  assert (Hcount : forall k, k < count <-> k * step < List.length words).
  { intros k. unfold count. rewrite ChunkFacts.window_count_spec by exact Hstep.
    unfold step. split; intros H.
    - apply Nat2Z.inj_lt. rewrite Nat2Z.inj_mul, Z2Nat.id by lia. exact H.
    - apply Nat2Z.inj_lt in H. rewrite Nat2Z.inj_mul, Z2Nat.id in H by lia. exact H. }
  split; [unfold step; lia|]. split.
  { unfold step. pose proof (Z.mul_div_le chunk_size 2 ltac:(lia)).
    apply Nat2Z.inj_le. rewrite Nat2Z.inj_mul, !Z2Nat.id by lia. lia. }
  split; [exact Hcount|].
  unfold RAGService.make_chunks. fold words.
  rewrite ChunkFacts.py_range_from_zero by exact Hstep. fold count.
  f_equal. rewrite map_map. apply map_ext_in. intros k Hk.
  apply in_seq in Hk. destruct Hk as [_ Hk]. simpl in Hk.
  apply Hcount in Hk.
  rewrite ChunkFacts.py_slice_window.
  - unfold step. do 3 f_equal. rewrite Z2Nat.inj_mul, Nat2Z.id by lia. reflexivity.
  - split; [lia|]. apply Nat2Z.inj_lt in Hk.
    rewrite Nat2Z.inj_mul in Hk. unfold step in Hk. rewrite Z2Nat.id in Hk by lia. lia.
  - lia.
Qed.

Lemma Forall_firstn_keep {A} (P : A -> Prop) (n : nat) (l : list A) :
  Forall P l -> Forall P (firstn n l).
Proof.
  intros H. revert n. induction H as [|x l Hx _ IH]; intros [|n]; simpl; auto.
Qed.

Lemma Forall_skipn_keep {A} (P : A -> Prop) (n : nat) (l : list A) :
  Forall P l -> Forall P (skipn n l).
Proof.
  intros H. revert n. induction H as [|x l Hx Hl IH]; intros [|n]; simpl; auto.
Qed.

Lemma window_words (words : list string) (size start : nat) :
  Forall (fun w => Text.word (Text.of_string w)) words ->
  py_split (py_join " " (firstn size (skipn start words))) = firstn size (skipn start words).
Proof.
  intros Hw. apply py_split_join.
  now apply Forall_firstn_keep, Forall_skipn_keep.
Qed.

(** *** The order of floats, NaN apart *)

Lemma lt_implies_le (x y : F.float) : F.lt x y = true -> F.le x y = true.
Proof.
  unfold F.lt, F.le, SFltb, SFleb. destruct (SFcompare x y) as [[]|]; congruence.
Qed.

Lemma not_lt_ge (x y : F.float) :
  x <> S754_nan -> y <> S754_nan -> F.lt x y = false -> F.ge x y = true.
Proof.
  unfold F.lt, F.ge, SFltb, SFleb.
  destruct x as [[]|[]| |[] mx ex], y as [[]|[]| |[] my ey]; simpl;
    try congruence; intros _ _;
    rewrite ?Pos.compare_cont_spec; simpl;
    rewrite (Z.compare_antisym ex ey);
    destruct (Z.compare ex ey) eqn:E; simpl; try congruence;
    rewrite (Pos.compare_antisym mx my);
    destruct (Pos.compare mx my); simpl; congruence.
Qed.

Lemma le_trans (x y z : F.float) :
  F.le x y = true -> F.le y z = true -> F.le x z = true.
Proof.
  unfold F.le, SFleb.
  destruct x as [[]|[]| |[] mx ex], y as [[]|[]| |[] my ey], z as [[]|[]| |[] mz ez];
    simpl; try congruence;
    rewrite ?Pos.compare_cont_spec; simpl;
    destruct (Z.compare_spec ex ey); try discriminate;
    destruct (Z.compare_spec ey ez); try discriminate;
    destruct (Z.compare_spec ex ez); try reflexivity; try lia; subst;
    try (destruct (Pos.compare_spec mx my); try discriminate;
         destruct (Pos.compare_spec my mz); try discriminate;
         destruct (Pos.compare_spec mx mz); try reflexivity; simpl; try congruence; lia).
Qed.

(** *** The stable sort *)

Lemma insert_desc_perm {A} (x : A * F.float) (l : list (A * F.float)) :
  Permutation (insert_desc x l) (x :: l).
Proof.
  induction l as [|y l IH]; simpl; [reflexivity|].
  destruct (F.lt (snd x) (snd y)); [|reflexivity].
  rewrite IH. apply perm_swap.
Qed.

Lemma sort_desc_perm {A} (l : list (A * F.float)) : Permutation (sort_desc l) l.
Proof.
  induction l as [|x l IH]; simpl; [reflexivity|].
  rewrite insert_desc_perm. now constructor.
Qed.

Lemma insert_desc_sorted {A} (x : A * F.float) (l : list (A * F.float)) :
  has_number x -> Forall has_number l ->
  StronglySorted desc l -> StronglySorted desc (insert_desc x l).
Proof.
  intros Hx Hl Hs. induction Hs as [|y l Hs IH Hy]; simpl.
  - constructor; constructor.
  - inversion Hl as [|? ? Hny Hl']; subst.
    destruct (F.lt (snd x) (snd y)) eqn:E.
    + constructor; [now apply IH|].
      apply (Permutation_Forall (Permutation_sym (insert_desc_perm x l))).
      constructor; [|exact Hy].
      unfold desc, F.ge. now apply lt_implies_le in E.
    + assert (Hxy : desc x y) by now apply not_lt_ge.
      constructor; [now constructor|].
      constructor; [exact Hxy|].
      eapply Forall_impl; [|exact Hy].
      intros z Hz. unfold desc, F.ge in *. eapply le_trans; eassumption.
Qed.

Lemma sort_desc_sorted {A} (l : list (A * F.float)) :
  Forall has_number l -> StronglySorted desc (sort_desc l).
Proof.
  induction 1 as [|x l Hx Hl IH]; simpl; [constructor|].
  apply insert_desc_sorted; [exact Hx| |exact IH].
  now apply (Permutation_Forall (Permutation_sym (sort_desc_perm l))).
Qed.

Lemma sorted_app {A} (R : A -> A -> Prop) (a b : list A) :
  StronglySorted R (a ++ b) ->
  StronglySorted R a /\ forall x y, In x a -> In y b -> R x y.
Proof.
  induction a as [|c a IH]; simpl; intros H.
  - split; [constructor|]. intros x y [].
  - inversion H as [|? ? Hs Hc]; subst. destruct (IH Hs) as [Ha Hab].
    apply Forall_app in Hc. destruct Hc as [Hca Hcb].
    split; [now constructor|].
    intros x y [<-|Hx] Hy; [|now apply Hab].
    now apply (proj1 (Forall_forall _ _) Hcb).
Qed.

Lemma sorted_map {A B} (R : A -> A -> Prop) (S : B -> B -> Prop) (f : A -> B) (l : list A) :
  (forall x y, In x l -> In y l -> R x y -> S (f x) (f y)) ->
  StronglySorted R l -> StronglySorted S (map f l).
Proof.
  intros Hf Hs. induction Hs as [|x l Hs IH Hx]; simpl; [constructor|].
  constructor.
  - apply IH. intros a b Ha Hb. apply Hf; now right.
  - apply Forall_map. apply Forall_forall. intros y Hy.
    apply Hf; [now left|now right|].
    now apply (proj1 (Forall_forall _ _) Hx).
Qed.

(** [l[:k]] for a [k] that is not negative. *)
Lemma py_slice_to_firstn {A} (l : list A) (k : Z) :
  (0 <= k)%Z -> py_slice_to l k = firstn (Z.to_nat k) l.
Proof.
  intros Hk. unfold py_slice_to, py_slice, slice_bound. simpl (0 <? 0)%Z.
  destruct (k <? 0)%Z eqn:E; [apply Z.ltb_lt in E; lia|].
  rewrite (Z.min_l 0) by lia. rewrite Z.sub_0_r. simpl skipn.
  destruct (Z.le_ge_cases k (Z.of_nat (List.length l))) as [H|H].
  - now rewrite Z.min_l by lia.
  - rewrite Z.min_r by lia. rewrite Nat2Z.id.
    rewrite !firstn_all2; [reflexivity|lia|lia].
Qed.

Lemma py_slice_incl {A} (l : list A) (lo hi : Z) : incl (py_slice l lo hi) l.
Proof.
  unfold py_slice. intros x Hx.
  assert (H : Forall (fun y => In y l) l) by (apply Forall_forall; auto).
  apply (Forall_skipn_keep _ (Z.to_nat (slice_bound (Z.of_nat (List.length l)) lo))) in H.
  apply (Forall_firstn_keep _
           (Z.to_nat (slice_bound (Z.of_nat (List.length l)) hi -
                      slice_bound (Z.of_nat (List.length l)) lo))) in H.
  exact (proj1 (Forall_forall _ _) H x Hx).
Qed.

(** *** The scoring loop *)

Section Loop.
Variable W : World.
Variable q : tensor W.

Let body := fun (acc : list (string * F.float)) (chunk : string) =>
  chunk_embedding <- model_encode W chunk ;;
  ret (acc ++ [(chunk, cosine_similarity W q chunk_embedding)]).

(** When the loop ends it has embedded every chunk once, in order, and
    paired every chunk with a similarity. *)
Lemma scoring_loop_inv (chunks : list string) :
  forall acc tr res tr',
    for_each chunks acc body tr = (Ok res, tr') ->
    tr' = rev (map Encode chunks) ++ tr /\
    map fst res = map fst acc ++ chunks.
Proof.
  induction chunks as [|c chunks IH]; intros acc tr res tr'; simpl.
  - unfold ret. intros [= <- <-]. now rewrite app_nil_r.
  - intros H. apply bind_inv_ok in H. destruct H as (acc1 & tr1 & Hb & H).
    unfold body in Hb. apply bind_inv_ok in Hb. destruct Hb as (v & tr2 & He & Hr).
    apply encode_inv_ok in He. destruct He as [_ ->].
    apply ret_inv in Hr. destruct Hr as [-> ->].
    apply IH in H. destruct H as [-> Hm]. split.
    + now rewrite <- app_assoc.
    + rewrite Hm, map_app, <- app_assoc. reflexivity.
Qed.

(** With an embedding model that answers by a function of the text, the
    loop pairs every chunk with the similarity of its embedding. *)
Lemma scoring_loop_deterministic (enc : string -> tensor W) (chunks : list string) :
  (forall n text, encode W n text = Ok (enc text)) ->
  forall acc tr,
    for_each chunks acc body tr =
    (Ok (acc ++ map (fun c => (c, cosine_similarity W q (enc c))) chunks),
     rev (map Encode chunks) ++ tr).
Proof.
  intros Henc. induction chunks as [|c chunks IH]; intros acc tr; simpl.
  - unfold ret. now rewrite app_nil_r.
  - unfold bind at 1. unfold body at 1. unfold bind at 1, model_encode at 1.
    rewrite Henc. unfold ret at 1. rewrite IH.
    now rewrite <- !app_assoc.
Qed.
End Loop.
End RetrievalFacts.

(** X8: for a [chunk_size] of at least 2 the chunks lose no word: every
    word of the document occurs in a chunk, and the words of a chunk are at
    least one and at most [chunk_size] consecutive words of the document. *)
Theorem X8_chunks_cover_the_document (document : string) (chunk_size : Z) :
  (2 <= chunk_size)%Z ->
  exists chunks,
    RAGService.make_chunks document chunk_size = Ok chunks /\
    (forall w, In w (py_split document) ->
       exists chunk, In chunk chunks /\ In w (py_split chunk)) /\
    (forall chunk, In chunk chunks ->
       py_split chunk <> [] /\
       List.length (py_split chunk) <= Z.to_nat chunk_size /\
       exists front back, py_split document = front ++ py_split chunk ++ back).
Proof.
  intros Hsize.
  destruct (RetrievalFacts.make_chunks_windows document chunk_size Hsize)
    as (Hstep & Hdouble & Hcount & Hchunks).
  set (words := py_split document) in *.
  set (step := Z.to_nat (chunk_size / 2)) in *.
  set (count := window_count (Z.of_nat (List.length words)) (chunk_size / 2)) in *.
  pose proof (RetrievalFacts.py_split_words document) as Hwords. fold words in Hwords.
  eexists. split; [exact Hchunks|]. split.
  - intros w Hw. apply In_nth_error in Hw. destruct Hw as [p Hp].
    assert (Hlt : p < List.length words) by (apply nth_error_Some; congruence).
    pose proof (Nat.div_mod_eq p step) as Hdiv.
    pose proof (Nat.mod_upper_bound p step ltac:(lia)) as Hmod.
    set (k := p / step) in *.
    assert (Hk : k * step <= p) by lia.
    exists (py_join " " (firstn (Z.to_nat chunk_size) (skipn (k * step) words))). split.
    + apply in_map_iff. exists k. split; [reflexivity|].
      apply in_seq. split; [lia|]. simpl. apply Hcount. lia.
    + rewrite RetrievalFacts.window_words by exact Hwords.
      apply nth_error_In with (n := p - k * step).
      rewrite nth_error_firstn.
      replace (Nat.ltb (p - k * step) (Z.to_nat chunk_size)) with true
        by (symmetry; apply Nat.ltb_lt; lia).
      rewrite nth_error_skipn. now replace (k * step + (p - k * step)) with p by lia.
  - intros chunk Hin. apply in_map_iff in Hin. destruct Hin as (k & <- & Hk).
    apply in_seq in Hk. destruct Hk as [_ Hk]. simpl in Hk. apply Hcount in Hk.
    rewrite RetrievalFacts.window_words by exact Hwords.
    split; [|split].
    + intros E. apply (f_equal (@List.length _)) in E.
      rewrite length_firstn, length_skipn in E. simpl in E. lia.
    + rewrite length_firstn. lia.
    + exists (firstn (k * step) words),
             (skipn (Z.to_nat chunk_size) (skipn (k * step) words)).
      now rewrite firstn_skipn, firstn_skipn.
Qed.

Lemma X8_chunks_cover_the_document_witness :
  exists chunks,
    RAGService.make_chunks "a b c d e" 4 = Ok chunks /\
    (forall w, In w (py_split "a b c d e") ->
       exists chunk, In chunk chunks /\ In w (py_split chunk)).
Proof.
  destruct (X8_chunks_cover_the_document "a b c d e" 4 ltac:(lia))
    as (chunks & Hc & Hcover & _).
  exists chunks. split; [exact Hc|exact Hcover].
Defined.

(** X9: whenever there are two chunks or more, the last chunk adds no
    text: its words are the words of the chunk before it without the first
    [chunk_size // 2] of them. *)
Theorem X9_last_chunk_is_contained_in_the_one_before
    (document : string) (chunk_size : Z) (chunks : list string) :
  (2 <= chunk_size)%Z ->
  RAGService.make_chunks document chunk_size = Ok chunks ->
  2 <= List.length chunks ->
  exists front prev last,
    chunks = front ++ [prev; last] /\
    py_split last = skipn (Z.to_nat (chunk_size / 2)) (py_split prev).
Proof.
  intros Hsize Hmk Hlen.
  destruct (RetrievalFacts.make_chunks_windows document chunk_size Hsize)
    as (Hstep & Hdouble & Hcount & Hchunks).
  set (words := py_split document) in *.
  set (step := Z.to_nat (chunk_size / 2)) in *.
  set (count := window_count (Z.of_nat (List.length words)) (chunk_size / 2)) in *.
  pose proof (RetrievalFacts.py_split_words document) as Hwords. fold words in Hwords.
  rewrite Hchunks in Hmk. injection Hmk as <-.
  rewrite length_map, length_seq in Hlen.
  destruct count as [|[|m]]; try lia.
  assert (Hlast : ~ S (S m) * step < List.length words).
  { intros H. apply Hcount in H. lia. }
  assert (Hprev : S m * step < List.length words) by (apply Hcount; lia).
  rewrite (seq_S (S m)), (seq_S m), !map_app, <- app_assoc. simpl (0 + _).
  eexists. eexists. eexists. split; [reflexivity|].
  rewrite !RetrievalFacts.window_words by exact Hwords.
  rewrite !firstn_all2 by (rewrite length_skipn; lia).
  rewrite skipn_skipn. f_equal; lia.
Qed.

Lemma X9_last_chunk_is_contained_in_the_one_before_witness :
  exists front prev last,
    ["a b c d"; "c d e"; "e"] = front ++ [prev; last] /\
    py_split last = skipn 2 (py_split prev).
Proof.
  apply (X9_last_chunk_is_contained_in_the_one_before "a b c d e" 4);
    [lia|reflexivity|simpl; lia].
Defined.

(** X10: when the retriever returns, every chunk it returns is a chunk of
    the document, and its model calls were the embedding of the query
    followed by the embedding of every chunk, once each and in the order of
    the document; for a document without chunks it made no call. *)
Theorem X10_retriever_embeds_every_chunk_once
    (W : World) (query document : string) (chunk_size top_k : Z)
    (chunks r : list string) (tr tr' : trace) :
  RAGService.make_chunks document chunk_size = Ok chunks ->
  RAGService.extract_relevant_context W query document chunk_size top_k tr = (Ok r, tr') ->
  incl r chunks /\
  tr' = match chunks with
        | [] => tr
        | _ => rev (map Encode chunks) ++ Encode query :: tr
        end.
Proof.
  intros Hmk. unfold RAGService.extract_relevant_context.
  unfold bind at 1, lift at 1. rewrite Hmk.
  destruct chunks as [|c0 cs].
  - unfold ret. intros [= <- <-]. split; [intros x []|reflexivity].
  - intros H.
    apply MonadFacts.bind_inv_ok in H. destruct H as (qe & tr1 & He & H).
    apply RetrievalFacts.encode_inv_ok in He. destruct He as [_ ->].
    apply MonadFacts.bind_inv_ok in H. destruct H as (res & tr2 & Hloop & H).
    apply MonadFacts.ret_inv in H. destruct H as [-> ->].
    apply RetrievalFacts.scoring_loop_inv in Hloop. destruct Hloop as [-> Hfst].
    split; [|reflexivity].
    intros x Hx. apply in_map_iff in Hx. destruct Hx as (p & <- & Hp).
    apply RetrievalFacts.py_slice_incl in Hp.
    apply (Permutation_in _ (RetrievalFacts.sort_desc_perm res)) in Hp.
    simpl in Hfst. rewrite <- Hfst. now apply in_map.
Qed.

Lemma X10_retriever_embeds_every_chunk_once_witness :
  exists r tr',
    RAGService.extract_relevant_context babbling_world "q" "a b c d e" 4 2 [] = (Ok r, tr') /\
    incl r ["a b c d"; "c d e"; "e"] /\
    tr' = [Encode "e"; Encode "c d e"; Encode "a b c d"; Encode "q"].
Proof.
  destruct (RAGService.extract_relevant_context babbling_world "q" "a b c d e" 4 2 [])
    as [[r|e] tr'] eqn:Hrun.
  - exists r, tr'. split; [reflexivity|].
    exact (X10_retriever_embeds_every_chunk_once babbling_world "q" "a b c d e" 4 2
             ["a b c d"; "c d e"; "e"] r [] tr' eq_refl Hrun).
  - exfalso. vm_compute in Hrun. discriminate.
Defined.

(** X11: with an embedding model that answers by a function of the text,
    a [top_k] that is not negative and similarities that are numbers, the
    retriever returns [min top_k (number of chunks)] chunks in descending
    order of similarity to the query, and none of the chunks it drops is
    more similar to the query than one it returns. *)
Theorem X11_retriever_returns_the_most_similar
    (W : World) (enc : string -> tensor W) (query document : string)
    (chunk_size top_k : Z) (chunks : list string) (tr : trace) :
  (forall n text, encode W n text = Ok (enc text)) ->
  RAGService.make_chunks document chunk_size = Ok chunks ->
  (0 <= top_k)%Z ->
  let sim := fun chunk => cosine_similarity W (enc query) (enc chunk) in
  (forall chunk, In chunk chunks -> sim chunk <> S754_nan) ->
  exists r dropped tr',
    RAGService.extract_relevant_context W query document chunk_size top_k tr = (Ok r, tr') /\
    Permutation (r ++ dropped) chunks /\
    List.length r = Nat.min (Z.to_nat top_k) (List.length chunks) /\
    StronglySorted (fun a b => F.ge (sim a) (sim b) = true) r /\
    (forall a b, In a r -> In b dropped -> F.ge (sim a) (sim b) = true).
Proof.
  intros Henc Hmk Htop sim Hnum.
  unfold RAGService.extract_relevant_context.
  unfold bind at 1, lift at 1. rewrite Hmk.
  destruct chunks as [|c0 cs] eqn:Echunks.
  { exists [], [], tr. unfold ret. repeat split; try constructor.
    - now rewrite Nat.min_0_r.
    - intros a b []. }
  rewrite <- Echunks in *. clear Echunks.
  set (scored := map (fun c => (c, sim c)) chunks).
  set (sorted := sort_desc scored).
  set (k := Z.to_nat top_k).
  exists (map fst (firstn k sorted)), (map fst (skipn k sorted)).
  eexists. split.
  { unfold bind at 1, model_encode at 1. rewrite Henc.
    unfold bind at 1.
    rewrite (RetrievalFacts.scoring_loop_deterministic W (enc query) enc chunks Henc).
    unfold ret. rewrite RetrievalFacts.py_slice_to_firstn by exact Htop.
    reflexivity. }
  assert (Hperm : Permutation sorted scored) by apply RetrievalFacts.sort_desc_perm.
  assert (Hkey : Forall (fun p => snd p = sim (fst p)) sorted).
  { apply (Permutation_Forall (Permutation_sym Hperm)).
    unfold scored. apply Forall_map. apply Forall_forall. reflexivity. }
  assert (Hsorted : StronglySorted desc sorted).
  { apply RetrievalFacts.sort_desc_sorted. unfold scored.
    apply Forall_map. apply Forall_forall. intros c Hc. now apply Hnum. }
  rewrite <- (firstn_skipn k sorted) in Hsorted.
  apply RetrievalFacts.sorted_app in Hsorted. destruct Hsorted as [Hfirst Hcross].
  assert (Hin : forall p, In p sorted -> snd p = sim (fst p))
    by (apply Forall_forall; exact Hkey).
  assert (Hfirst_in : forall p, In p (firstn k sorted) -> In p sorted).
  { intros p Hp. rewrite <- (firstn_skipn k sorted). apply in_or_app. now left. }
  assert (Hskip_in : forall p, In p (skipn k sorted) -> In p sorted).
  { intros p Hp. rewrite <- (firstn_skipn k sorted). apply in_or_app. now right. }
  split; [|split; [|split]].
  - rewrite <- map_app, firstn_skipn.
    rewrite (Permutation_map fst Hperm). unfold scored.
    rewrite map_map. simpl. now rewrite map_id.
  - rewrite length_map, length_firstn.
    rewrite (Permutation_length Hperm). unfold scored. now rewrite length_map.
  - eapply RetrievalFacts.sorted_map; [|exact Hfirst].
    intros x y Hx Hy Hxy. unfold desc in Hxy.
    now rewrite <- (Hin x (Hfirst_in x Hx)), <- (Hin y (Hfirst_in y Hy)).
  - intros a b Ha Hb.
    apply in_map_iff in Ha. destruct Ha as (pa & <- & Ha).
    apply in_map_iff in Hb. destruct Hb as (pb & <- & Hb).
    rewrite <- (Hin pa (Hfirst_in pa Ha)), <- (Hin pb (Hskip_in pb Hb)).
    now apply Hcross.
Qed.

Lemma X11_retriever_returns_the_most_similar_witness :
  exists r dropped tr',
    RAGService.extract_relevant_context example_world "q" "a b c d e" 4 2 [] = (Ok r, tr') /\
    Permutation (r ++ dropped) ["a b c d"; "c d e"; "e"] /\
    List.length r = 2.
Proof.
  destruct (X11_retriever_returns_the_most_similar example_world (fun text => text)
              "q" "a b c d e" 4 2 ["a b c d"; "c d e"; "e"] []
              (fun n text => eq_refl) eq_refl ltac:(lia))
    as (r & dropped & tr' & Hrun & Hperm & Hlen & _).
  - intros chunk _. unfold example_sims.
    cbn [cosine_similarity example_world scripted_world].
    unfold example_sims.
    destruct (String.eqb chunk "q"); [discriminate|].
    destruct (String.eqb chunk "a"); discriminate.
  - exists r, dropped, tr'. split; [exact Hrun|]. split; [exact Hperm|exact Hlen].
Defined.

(** ** The preprocessor on a text without bullets *)

Module PreprocessFacts.
Import Text TextFacts.

Lemma starts_with_inv (p s r : chars) : starts_with p s = Some r -> s = p ++ r.
Proof.
  revert s. induction p as [|x p IH]; intros s; simpl.
  - now intros [= ->].
  - destruct s as [|y s]; [discriminate|].
    destruct (Ascii.eqb x y) eqn:E; [|discriminate].
    apply Ascii.eqb_eq in E. subst y. intros H. now rewrite (IH _ H).
Qed.

Lemma find_sep_inv (p s b a : chars) : find_sep p s = Some (b, a) -> s = b ++ p ++ a.
Proof.
  revert b. induction s as [|c s IH]; intros b; cbn [find_sep].
  - destruct (starts_with p []) as [r|] eqn:E; [|discriminate].
    intros [= <- <-]. exact (starts_with_inv _ _ _ E).
  - destruct (starts_with p (c :: s)) as [r|] eqn:E.
    + intros [= <- <-]. exact (starts_with_inv _ _ _ E).
    + destruct (find_sep p s) as [[b' a']|]; [|discriminate].
      intros [= <- <-]. simpl. f_equal. now apply IH.
Qed.

Lemma find_sep_tail (p s : chars) (c : ascii) :
  find_sep p (c :: s) = None -> starts_with p (c :: s) = None /\ find_sep p s = None.
Proof.
  cbn [find_sep]. destruct (starts_with p (c :: s)); [discriminate|].
  destruct (find_sep p s) as [[b a]|]; [discriminate|]. now split.
Qed.

(** No occurrence found means that there is none. *)
Lemma find_sep_none (p : chars) (a s b : chars) :
  find_sep p s = None -> s <> a ++ p ++ b.
Proof.
  revert s. induction a as [|c a IH]; intros s Hnone E; subst s.
  - simpl in Hnone. destruct (p ++ b) as [|c l] eqn:Epb.
    + destruct p; [|discriminate]. simpl in Hnone. discriminate.
    + apply find_sep_tail in Hnone. destruct Hnone as [Hsw _].
      rewrite <- Epb, FenceFacts.starts_with_app in Hsw. discriminate.
  - simpl in Hnone. apply find_sep_tail in Hnone. destruct Hnone as [_ Hrest].
    now apply (IH _ Hrest).
Qed.

Lemma remove_all_fuel_none (n : nat) (p s : chars) :
  find_sep p s = None -> remove_all_fuel n p s = s.
Proof.
  revert s. induction n as [|n IH]; intros s Hnone; [reflexivity|].
  destruct s as [|c s]; [reflexivity|]. cbn [remove_all_fuel].
  apply find_sep_tail in Hnone. destruct Hnone as [-> Hrest].
  now rewrite IH.
Qed.

(** A word of [split] is a segment of the text. *)
Lemma split_ws_from_segment (s cur w : chars) :
  In w (split_ws_from cur s) -> exists x y, rev cur ++ s = x ++ w ++ y.
Proof.
  revert cur. induction s as [|c s IH]; intros cur; cbn [split_ws_from].
  - destruct cur as [|a cur]; [intros []|].
    intros [<-|[]]. exists [], []. now rewrite !app_nil_r.
  - destruct (isspace c).
    + destruct cur as [|a cur].
      * intros H. destruct (IH [] H) as (x & y & E). simpl in E.
        exists (c :: x), y. simpl. now rewrite E.
      * intros [<-|H].
        -- exists [], (c :: s). reflexivity.
        -- destruct (IH [] H) as (x & y & E). simpl in E.
           exists (rev (a :: cur) ++ c :: x), y. rewrite E.
           now rewrite <- !app_assoc.
    + intros H. destruct (IH (c :: cur) H) as (x & y & E).
      exists x, y. rewrite <- E. simpl. now rewrite <- app_assoc.
Qed.

(** A text without blanks that occurs in joined words occurs in one of
    them. *)
Lemma join_segment (p : chars) (ws : list chars) :
  p <> [] -> Forall (fun c => nonspace c = true) p ->
  forall a b, join space ws = a ++ p ++ b ->
  exists w a1 b1, In w ws /\ w = a1 ++ p ++ b1.
Proof.
  intros Hne Hp.
  assert (Hblank : forall l r, " "%char :: r <> p ++ l).
  { intros l r E. destruct p as [|c p']; [contradiction|].
    injection E as <- _. inversion Hp as [|? ? Hc _]. discriminate. }
  induction ws as [|w ws IH]; intros a b E.
  - simpl in E. destruct a; destruct p; try discriminate. contradiction.
  - destruct ws as [|w2 ws].
    + simpl in E. exists w, a, b. split; [now left|exact E].
    + change (join space (w :: w2 :: ws)) with (w ++ " "%char :: join space (w2 :: ws)) in E.
      apply app_eq_app in E. destruct E as [l [[Ew El]|[Ea El]]].
      * (* the occurrence starts inside [w] *)
        apply app_eq_app in El. destruct El as [l2 [[Ep Er]|[El2 Eb]]].
        -- destruct l2 as [|c l2].
           ++ rewrite app_nil_r in Ep. subst l.
              exists w, a, []. split; [now left|]. now rewrite app_nil_r.
           ++ exfalso. injection Er as <- _. subst p.
              apply Forall_app in Hp. destruct Hp as [_ Hp].
              inversion Hp as [|? ? Hc _]. discriminate.
        -- subst l. exists w, a, l2. split; [now left|exact Ew].
      * destruct l as [|c l].
        -- exfalso. simpl in El. exact (Hblank _ _ El).
        -- injection El as _ El.
           destruct (IH l b El) as (w' & a1 & b1 & Hin & Ew').
           exists w', a1, b1. split; [now right|exact Ew'].
Qed.

(** Collapsing the blanks creates no occurrence of a text without
    blanks. *)
Lemma collapse_ws_no_segment (p s : chars) :
  p <> [] -> Forall (fun c => nonspace c = true) p ->
  find_sep p s = None -> find_sep p (collapse_ws s) = None.
Proof.
  intros Hne Hp Hnone.
  destruct (find_sep p (collapse_ws s)) as [[b a]|] eqn:E; [exfalso|reflexivity].
  apply find_sep_inv in E.
  destruct (join_segment p (split_ws s) Hne Hp _ _ E) as (w & a1 & b1 & Hin & ->).
  apply split_ws_from_segment in Hin. destruct Hin as (x & y & Es). simpl in Es.
  apply (find_sep_none p (x ++ a1) s (b1 ++ y) Hnone).
  rewrite Es. now rewrite <- !app_assoc.
Qed.

Lemma py_join_split (text : string) :
  Text.of_string (py_join " " (py_split text)) = collapse_ws (Text.of_string text).
Proof.
  unfold py_join, py_split. rewrite of_to_string, map_map.
  unfold collapse_ws. f_equal.
  rewrite <- (map_id (split_ws (of_string text))) at 2.
  apply map_ext. intros w. apply of_to_string.
Qed.

Lemma preprocess_without_bullet (text : string) :
  py_in bullet text = false ->
  preprocess_str text = py_join " " (py_split text).
Proof.
  unfold py_in, contains. intros Hno.
  destruct (find_sep (of_string bullet) (of_string text)) eqn:E; [discriminate|].
  unfold preprocess_str. rewrite py_join_split.
  unfold remove_all. rewrite remove_all_fuel_none.
  - rewrite <- py_join_split. apply to_of_string.
  - apply collapse_ws_no_segment; [discriminate|repeat constructor|exact E].
Qed.

Lemma joined_without_bullet (text : string) :
  py_in bullet text = false ->
  py_in bullet (py_join " " (py_split text)) = false.
Proof.
  unfold py_in, contains. intros Hno.
  destruct (find_sep (of_string bullet) (of_string text)) eqn:E; [discriminate|].
  rewrite py_join_split.
  rewrite collapse_ws_no_segment; [reflexivity|discriminate|repeat constructor|exact E].
Qed.

Lemma preprocess_idem (text : string) :
  py_in bullet text = false ->
  preprocess_str (preprocess_str text) = preprocess_str text.
Proof.
  intros Hno. pose proof (preprocess_without_bullet text Hno) as E.
  rewrite (preprocess_without_bullet (preprocess_str text)).
  - rewrite E at 1.
    rewrite RetrievalFacts.py_split_join by apply RetrievalFacts.py_split_words.
    now rewrite E.
  - rewrite E. now apply joined_without_bullet.
Qed.

End PreprocessFacts.

(** X12: on a text without the bullet, [preprocess_text] joins the words of
    the text with single blanks; it keeps the words, and preprocessing its
    result again changes nothing. *)
Theorem X12_preprocess_keeps_the_words (text : string) :
  py_in bullet text = false ->
  preprocess_str text = py_join " " (py_split text) /\
  py_split (preprocess_str text) = py_split text /\
  preprocess_str (preprocess_str text) = preprocess_str text.
Proof.
  intros Hno.
  pose proof (PreprocessFacts.preprocess_without_bullet text Hno) as E.
  assert (Hsplit : py_split (preprocess_str text) = py_split text).
  { rewrite E. apply RetrievalFacts.py_split_join. apply RetrievalFacts.py_split_words. }
  split; [exact E|]. split; [exact Hsplit|].
  rewrite (PreprocessFacts.preprocess_without_bullet (preprocess_str text)).
  - rewrite Hsplit. now rewrite E.
  - rewrite E. now apply PreprocessFacts.joined_without_bullet.
Qed.

Lemma X12_preprocess_keeps_the_words_witness :
  preprocess_str "  What   is 2+2? " = "What is 2+2?" /\
  py_split (preprocess_str "  What   is 2+2? ") = ["What"; "is"; "2+2?"].
Proof.
  destruct (X12_preprocess_keeps_the_words "  What   is 2+2? " eq_refl) as (E & Hs & _).
  split; [rewrite E; reflexivity|rewrite Hs; reflexivity].
Defined.

(** X13: [compute_similarity] preprocesses its two texts itself; for texts
    without the bullet, passing them already preprocessed changes neither the
    texts that are embedded nor the similarity. *)
Theorem X13_similarity_of_preprocessed_texts (W : World) (source_text generated_text : string) :
  py_in bullet source_text = false ->
  py_in bullet generated_text = false ->
  RAGService.compute_similarity W (preprocess_str source_text) (preprocess_str generated_text) =
  RAGService.compute_similarity W source_text generated_text.
Proof.
  intros Hs Hg. unfold RAGService.compute_similarity. cbv zeta.
  now rewrite !PreprocessFacts.preprocess_idem.
Qed.

Lemma X13_similarity_of_preprocessed_texts_witness :
  RAGService.compute_similarity example_world (preprocess_str " a  b ") (preprocess_str "q") [] =
  (Ok (F.lit 9 10), [Encode "q"; Encode "a b"]).
Proof.
  rewrite (X13_similarity_of_preprocessed_texts example_world " a  b " "q" eq_refl eq_refl).
  reflexivity.
Defined.

(** ** The verifiers on questions and judgments they do not expect *)

Module PipelineFacts.
Import MonadFacts.

Lemma getitem_raises (v : json) (k : string) (e : exn) :
  py_getitem v k = Raise e -> is_JSONDecodeError e = false.
Proof.
  destruct v; simpl; try (intros [= <-]; reflexivity).
  destruct (assoc k members); [discriminate|]. intros [= <-]. reflexivity.
Qed.

Lemma iter_raises (v : json) (e : exn) :
  py_iter v = Raise e -> is_JSONDecodeError e = false.
Proof. destruct v; simpl; try discriminate; intros [= <-]; reflexivity. Qed.

Lemma mul_float_raises (v : json) (x : F.float) (e : exn) :
  py_mul_float v x = Raise e -> is_JSONDecodeError e = false.
Proof.
  destruct v; simpl; try discriminate; try (intros [= <-]; reflexivity).
  unfold py_int_to_float. destruct (F.of_Z z); try discriminate.
  intros [= <-]. reflexivity.
Qed.

(** On anything but a dictionary the handler of [verify_question_with_rag]
    fails itself, at [question.get]. *)
Lemma Main_verify_non_dict (W : World) (question : json) (context : string) (tr : trace) :
  is_dict question = false ->
  exists msg,
    Main.verify_question_with_rag W question context tr =
    (Raise (Exn AttributeError msg), Encode context :: tr).
Proof.
  intros Hq.
  unfold Main.verify_question_with_rag, try_except, Main.verify_question_with_rag_body.
  unfold bind at 1, model_encode at 1.
  destruct question; try discriminate;
    (destruct (encode W (List.length tr) context);
     [unfold bind at 1, lift at 1; cbn [py_getitem]|];
     cbn [is_Exception]; unfold bind, lift; cbn [py_get]; eexists; reflexivity).
Qed.

Lemma Main_verify_raises (W : World) (question : json) (context : string) tr e tr' :
  Main.verify_question_with_rag W question context tr = (Raise e, tr') ->
  is_dict question = false /\ exists msg, e = Exn AttributeError msg.
Proof.
  intros H. destruct (is_dict question) eqn:Hd.
  - destruct question; try discriminate.
    destruct (VerifyFacts.Main_verify_total W members context tr) as (out & tr1 & Hrun & _).
    rewrite Hrun in H. discriminate.
  - destruct (Main_verify_non_dict W question context tr Hd) as [msg Hrun].
    rewrite Hrun in H. injection H as <- _. eauto.
Qed.

End PipelineFacts.

(** X14: [verify_question_with_rag] raises exactly when the question is not
    a dictionary, and then with an [AttributeError] from its own handler;
    on a dictionary it returns a result whatever the models do and whatever
    the dictionary holds. *)
Theorem X14_main_verifier_raises_only_on_non_dictionaries
    (W : World) (question : json) (context : string) (tr : trace) :
  (is_dict question = true ->
   exists out tr', Main.verify_question_with_rag W question context tr = (Ok out, tr')) /\
  (is_dict question = false ->
   exists msg,
     Main.verify_question_with_rag W question context tr =
     (Raise (Exn AttributeError msg), Encode context :: tr)).
Proof.
  split.
  - destruct question; try discriminate. intros _.
    destruct (VerifyFacts.Main_verify_total W members context tr) as (out & tr1 & Hrun & _).
    eauto.
  - apply PipelineFacts.Main_verify_non_dict.
Qed.

Lemma X14_main_verifier_raises_only_on_non_dictionaries_witness :
  (exists out tr',
     Main.verify_question_with_rag embedder_down (JObj []) "ctx" [] = (Ok out, tr')) /\
  (exists msg,
     Main.verify_question_with_rag embedder_down (JStr "What is 2+2?") "ctx" [] =
     (Raise (Exn AttributeError msg), [Encode "ctx"])).
Proof.
  split.
  - exact (proj1 (X14_main_verifier_raises_only_on_non_dictionaries
                    embedder_down (JObj []) "ctx" []) eq_refl).
  - exact (proj2 (X14_main_verifier_raises_only_on_non_dictionaries
                    embedder_down (JStr "What is 2+2?") "ctx" []) eq_refl).
Defined.

(** X15: in main.py a question dictionary that lacks ["question"],
    ["correct_answer"] or ["explanation"] is never valid: after the
    embedding of the context, and before any other model call,
    [verify_question_with_rag] returns an error result without a total
    score. *)
Theorem X15_main_verifier_requires_the_three_keys
    (W : World) (members : list (string * json)) (context : string) (tr : trace) :
  assoc "question" members = None \/
  assoc "correct_answer" members = None \/
  assoc "explanation" members = None ->
  exists out msg,
    Main.verify_question_with_rag W (JObj members) context tr =
      (Ok out, Encode context :: tr) /\
    is_valid (verification_of out) = false /\
    total_score (verification_of out) = None /\
    error (verification_of out) = Some msg.
Proof.
  intros Hmiss.
  assert (Hbody : exists e,
    Main.verify_question_with_rag_body W (JObj members) context tr =
    (Raise e, Encode context :: tr)).
  { unfold Main.verify_question_with_rag_body.
    unfold bind at 1, model_encode at 1.
    destruct (encode W (List.length tr) context) as [d|e]; [|eauto].
    unfold bind at 1, lift at 1. cbn [py_getitem].
    destruct (assoc "question" members) as [qv|]; [|eauto].
    unfold bind at 1, lift at 1.
    destruct (preprocess_text qv) as [qt|e]; [|eauto].
    unfold bind at 1, lift at 1.
    destruct (assoc "correct_answer" members) as [av|]; [|eauto].
    unfold bind at 1, lift at 1.
    destruct (preprocess_text av) as [at_|e]; [|eauto].
    unfold bind at 1, lift at 1.
    destruct (assoc "explanation" members) as [ev|]; [|eauto].
    exfalso. destruct Hmiss as [H|[H|H]]; discriminate. }
  destruct Hbody as [e Hbody].
  unfold Main.verify_question_with_rag, try_except. rewrite Hbody.
  cbn [is_Exception]. unfold bind, lift, ret. cbn [py_get].
  destruct (assoc "id" members); eexists; eexists; (split; [reflexivity|]);
    repeat split.
Qed.

Lemma X15_main_verifier_requires_the_three_keys_witness :
  exists out msg,
    Main.verify_question_with_rag example_world
      (JObj [("question", JStr "q"); ("correct_answer", JStr "a")]) "ctx" [] =
      (Ok out, [Encode "ctx"]) /\
    is_valid (verification_of out) = false /\
    total_score (verification_of out) = None /\
    error (verification_of out) = Some msg.
Proof.
  apply (X15_main_verifier_requires_the_three_keys example_world
           [("question", JStr "q"); ("correct_answer", JStr "a")] "ctx" []).
  right. right. reflexivity.
Defined.

(** ** The generators after the response was decoded *)

Module LoopFacts.
Import MonadFacts.

Section Loops.
Variable W : World.
Variable content : string.

(** The bodies of the two verification loops. *)
Local Abbreviation Main_round :=
  (fun (verified_questions : list verified_question) (q : json) =>
     v <- Main.verify_question_with_rag W q content ;;
     if is_valid (verification_of v)
     then lift (py_setitem_check q) ;;;
          ret (verified_questions ++
               [{| vq_question := q; vq_verification := verification_of v |}])
     else ret verified_questions).

Local Abbreviation QG_round :=
  (fun (verified_questions : list verified_question) (q : json) =>
     v <- QuestionGenerator.verify_question W q content ;;
     if is_valid (verification_of v)
     then lift (py_setitem_check q) ;;;
          ret (verified_questions ++
               [{| vq_question := q; vq_verification := verification_of v |}])
     else ret verified_questions).

Lemma Main_round_dict (members : list (string * json)) acc tr :
  exists acc' tr', Main_round acc (JObj members) tr = (Ok acc', tr').
Proof.
  destruct (VerifyFacts.Main_verify_total W members content tr) as (out & tr1 & Hrun & _).
  rewrite (bind_ok _ _ _ _ _ Hrun).
  destruct (is_valid (verification_of out)); unfold bind, lift, ret; cbn; eauto.
Qed.

(** The loop of the endpoint stops at the first item that is no
    dictionary. *)
Lemma Main_loop_non_dict (items : list json) :
  existsb (fun x => negb (is_dict x)) items = true ->
  forall acc tr,
  exists msg tr',
    for_each items acc Main_round tr = (Raise (Exn AttributeError msg), tr').
Proof.
  induction items as [|q items IH]; [discriminate|].
  intros Hex acc tr. cbn [for_each].
  destruct (is_dict q) eqn:Hq.
  - destruct q; try discriminate.
    destruct (Main_round_dict members acc tr) as (acc' & tr1 & Hround).
    rewrite (bind_ok _ _ _ _ _ Hround).
    apply IH. cbn [existsb is_dict negb orb] in Hex. exact Hex.
  - destruct (PipelineFacts.Main_verify_non_dict W q content tr Hq) as [msg Hrun].
    exists msg. eexists.
    apply bind_raise. apply bind_raise. exact Hrun.
Qed.

(** It fails in no other way. *)
Lemma Main_loop_raises (items : list json) :
  forall acc tr e tr',
    for_each items acc Main_round tr = (Raise e, tr') ->
    exists msg, e = Exn AttributeError msg.
Proof.
  induction items as [|q items IH]; intros acc tr e tr'; cbn [for_each].
  - discriminate.
  - destruct (is_dict q) eqn:Hq.
    + destruct q; try discriminate.
      destruct (Main_round_dict members acc tr) as (acc' & tr1 & Hround).
      rewrite (bind_ok _ _ _ _ _ Hround). apply IH.
    + destruct (PipelineFacts.Main_verify_non_dict W q content tr Hq) as [msg Hrun].
      erewrite bind_raise by (apply bind_raise; exact Hrun).
      intros [= <- _]. eauto.
Qed.

Lemma Main_loop_accepted (items : list json) :
  forall acc tr res tr',
    Forall (fun vq => accepted (vq_verification vq)) acc ->
    for_each items acc Main_round tr = (Ok res, tr') ->
    Forall (fun vq => accepted (vq_verification vq)) res.
Proof.
  induction items as [|q items IH]; intros acc tr res tr' Hacc; cbn [for_each].
  - intros H. apply ret_inv in H. destruct H as [-> _]. exact Hacc.
  - intros H. apply bind_inv_ok in H. destruct H as (acc' & tr1 & Hround & H).
    apply (IH acc' tr1 res tr'); [|exact H].
    apply bind_inv_ok in Hround. destruct Hround as (v & tr2 & Hv & Hround).
    apply VerifyFacts.Main_verify_inv in Hv.
    destruct (is_valid (verification_of v)) eqn:Hvalid.
    + apply bind_inv_ok in Hround. destruct Hround as (? & ? & _ & Hround).
      apply ret_inv in Hround. destruct Hround as [-> _].
      apply Forall_app. split; [exact Hacc|]. constructor; [|constructor].
      cbn [vq_verification]. split; [exact Hvalid|].
      destruct Hv as [(t & Ht & Hge)|(_ & Hno & _)]; [|congruence].
      exists t. split; [exact Ht|congruence].
    + apply ret_inv in Hround. destruct Hround as [-> _]. exact Hacc.
Qed.

Lemma QG_loop_accepted (items : list json) :
  forall acc tr res tr',
    Forall (fun vq => accepted (vq_verification vq)) acc ->
    for_each items acc QG_round tr = (Ok res, tr') ->
    Forall (fun vq => accepted (vq_verification vq)) res.
Proof.
  induction items as [|q items IH]; intros acc tr res tr' Hacc; cbn [for_each].
  - intros H. apply ret_inv in H. destruct H as [-> _]. exact Hacc.
  - intros H. apply bind_inv_ok in H. destruct H as (acc' & tr1 & Hround & H).
    apply (IH acc' tr1 res tr'); [|exact H].
    apply bind_inv_ok in Hround. destruct Hround as (v & tr2 & Hv & Hround).
    apply VerifyFacts.QG_verify_inv in Hv. destruct Hv as (t & Ht & Hge).
    destruct (is_valid (verification_of v)) eqn:Hvalid.
    + apply bind_inv_ok in Hround. destruct Hround as (? & ? & _ & Hround).
      apply ret_inv in Hround. destruct Hround as [-> _].
      apply Forall_app. split; [exact Hacc|]. constructor; [|constructor].
      cbn [vq_verification]. split; [exact Hvalid|].
      exists t. split; [exact Ht|congruence].
    + apply ret_inv in Hround. destruct Hround as [-> _]. exact Hacc.
Qed.

Lemma Main_verify_all_accepted (generated : json) tr res tr' :
  Main.verify_all W generated content tr = (Ok res, tr') ->
  Forall (fun vq => accepted (vq_verification vq)) (questions res).
Proof.
  unfold Main.verify_all. intros H.
  apply bind_inv_ok in H. destruct H as (qs & tr1 & _ & H).
  apply bind_inv_ok in H. destruct H as (items & tr2 & _ & H).
  apply bind_inv_ok in H. destruct H as (vs & tr3 & Hloop & H).
  apply ret_inv in H. destruct H as [-> _]. cbn [questions].
  eapply Main_loop_accepted; [constructor|exact Hloop].
Qed.

Lemma QG_verify_all_accepted (generated : json) tr res tr' :
  QuestionGenerator.verify_all W generated content tr = (Ok res, tr') ->
  Forall (fun vq => accepted (vq_verification vq)) res.
Proof.
  unfold QuestionGenerator.verify_all. intros H.
  apply bind_inv_ok in H. destruct H as (qs & tr1 & _ & H).
  apply bind_inv_ok in H. destruct H as (items & tr2 & _ & H).
  eapply QG_loop_accepted; [constructor|exact H].
Qed.

(** What the loop of the endpoint raises is never a [JSONDecodeError]. *)
Lemma Main_verify_all_raises (generated : json) tr e tr' :
  Main.verify_all W generated content tr = (Raise e, tr') ->
  is_JSONDecodeError e = false.
Proof.
  unfold Main.verify_all. unfold bind at 1, lift at 1.
  destruct (py_getitem generated "questions") as [qs|e0] eqn:Hqs.
  - unfold bind at 1, lift at 1.
    destruct (py_iter qs) as [items|e1] eqn:Hit.
    + unfold bind at 1.
      destruct (for_each items [] Main_round tr) as [[vs|e2] tr2] eqn:Hloop.
      * discriminate.
      * intros [= <- _]. apply Main_loop_raises in Hloop.
        destruct Hloop as [msg ->]. reflexivity.
    + intros [= <- _]. eapply PipelineFacts.iter_raises. exact Hit.
  - intros [= <- _]. eapply PipelineFacts.getitem_raises. exact Hqs.
Qed.

(** On dictionaries the loop of the endpoint completes, and keeps some of
    them in their order. *)
Lemma Main_round_dict_keeps (members : list (string * json)) acc tr :
  exists acc' tr',
    Main_round acc (JObj members) tr = (Ok acc', tr') /\
    (acc' = acc \/
     exists v, acc' = acc ++ [{| vq_question := JObj members; vq_verification := v |}]).
Proof.
  destruct (VerifyFacts.Main_verify_total W members content tr) as (out & tr1 & Hrun & _).
  rewrite (bind_ok _ _ _ _ _ Hrun).
  destruct (is_valid (verification_of out)); unfold bind, lift, ret; cbn;
    eexists; eexists; (split; [reflexivity|]); [right; eauto|now left].
Qed.

Lemma Main_loop_dicts (items : list json) :
  forallb is_dict items = true ->
  forall acc tr,
  exists kept tr',
    for_each items acc Main_round tr = (Ok (acc ++ kept), tr') /\
    List.length kept <= List.length items /\
    Forall (fun vq => In (vq_question vq) items) kept.
Proof.
  induction items as [|q items IH]; intros Hall acc tr.
  - exists [], tr. rewrite app_nil_r. repeat split; constructor.
  - cbn [forallb] in Hall. apply andb_true_iff in Hall. destruct Hall as [Hq Hall].
    destruct q; try discriminate. cbn [for_each].
    destruct (Main_round_dict_keeps members acc tr) as (acc' & tr1 & Hround & Hacc).
    rewrite (bind_ok _ _ _ _ _ Hround).
    destruct (IH Hall acc' tr1) as (kept & tr' & Hloop & Hlen & Hin).
    assert (Hin' : Forall (fun vq => In (vq_question vq) (JObj members :: items)) kept).
    { eapply Forall_impl; [|exact Hin]. intros vq Hvq. now right. }
    destruct Hacc as [->|[v ->]].
    + exists kept, tr'. split; [exact Hloop|]. split; [cbn [List.length]; lia|exact Hin'].
    + exists ({| vq_question := JObj members; vq_verification := v |} :: kept), tr'.
      split; [now rewrite <- app_assoc in Hloop|].
      split; [cbn [List.length]; lia|].
      constructor; [now left|exact Hin'].
Qed.

(** With the embedding model down every dictionary gets an error result,
    which the loop of the endpoint skips. *)
Lemma Main_loop_embedder_down (err : exn) (items : list json) :
  (forall n text, encode W n text = Raise err) ->
  forallb is_dict items = true ->
  forall acc tr,
    for_each items acc Main_round tr =
    (Ok acc, repeat (Encode content) (List.length items) ++ tr).
Proof.
  intros Hdown. induction items as [|q items IH]; intros Hall acc tr; [reflexivity|].
  cbn [forallb] in Hall. apply andb_true_iff in Hall. destruct Hall as [Hq Hall].
  destruct q; try discriminate. cbn [for_each].
  assert (Hround : Main_round acc (JObj members) tr = (Ok acc, Encode content :: tr)).
  { unfold Main.verify_question_with_rag, Main.verify_question_with_rag_body.
    unfold bind at 1, try_except at 1.
    unfold bind at 1, model_encode at 1. rewrite Hdown.
    cbn [is_Exception]. unfold bind, lift, ret. cbn [py_get].
    destruct (assoc "id" members); reflexivity. }
  rewrite (bind_ok _ _ _ _ _ Hround). rewrite (IH Hall).
  f_equal. cbn [List.length].
  change (Encode content :: tr) with ([Encode content] ++ tr).
  now rewrite app_assoc, <- repeat_cons.
Qed.

End Loops.

(** A first response that decodes: the endpoint runs the verification loop
    once and wraps whatever it raises. *)
Lemma Main_generate_decoded
    (W : World) (content : string) (num_questions : Z) (question_types : list string)
    (tr : trace) (r1 : string) (v : json) :
  generate_content W (List.length tr)
    (GenerationPrompt content num_questions question_types) = Ok r1 ->
  json_loads W (extract_json_text r1) = inr v ->
  exists res new,
    Main.generate_questions W content num_questions question_types tr =
      (res, new ++ Generate (GenerationPrompt content num_questions question_types) :: tr) /\
    generation_calls new = 0 /\
    match res with
    | Ok _ => True
    | Raise e => exists e0, is_JSONDecodeError e0 = false /\
                            e = HTTPException 500 ("문제 생성 실패: " ++ exn_str e0)
    end.
Proof.
  intros Hgen Hdec.
  set (gen := Generate (GenerationPrompt content num_questions question_types)).
  destruct (Main.verify_all W v content (gen :: tr)) as [res0 tr0] eqn:Hall.
  destruct (GenerationFacts.Main_verify_all_quiet W v content _ _ _ Hall)
    as (new & -> & Hnew).
  assert (Hloads : loads W (extract_json_text r1) = Ok v)
    by (unfold loads; now rewrite Hdec).
  assert (Hbody :
    (generated_questions <- lift (loads W (extract_json_text r1)) ;;
     Main.verify_all W generated_questions content) (gen :: tr) = (res0, new ++ gen :: tr)).
  { unfold bind at 1, lift at 1. rewrite Hloads. exact Hall. }
  unfold Main.generate_questions. unfold try_except at 1.
  erewrite bind_ok by (unfold model_generate; rewrite Hgen; reflexivity).
  cbv zeta. fold gen.
  destruct res0 as [res|e].
  - rewrite (try_ok _ _ _ _ _ _ Hbody).
    exists (Ok res), new. split; [reflexivity|]. split; [lia|exact I].
  - pose proof (Main_verify_all_raises W content v _ _ _ Hall) as Hcls.
    rewrite (try_unhandled _ _ _ _ _ _ Hbody Hcls).
    cbn [is_Exception]. unfold raise.
    eexists. exists new. split; [reflexivity|]. split; [lia|]. eauto.
Qed.

End LoopFacts.

(** X16: every question that a generator returns, after the first response
    or after the retry, carries a verification that is valid and has a total
    score of at least 0.6; a result of the catch-all path of
    [verify_question_with_rag] never lets a question through. *)
Theorem X16_returned_questions_are_accepted
    (W : World) (content : string) (num_questions : Z) (question_types : list string)
    (tr tr' : trace) :
  (forall res,
     Main.generate_questions W content num_questions question_types tr = (Ok res, tr') ->
     Forall (fun vq => accepted (vq_verification vq)) (questions res)) /\
  (forall res,
     QuestionGenerator.generate_questions W content num_questions question_types tr =
       (Ok res, tr') ->
     Forall (fun vq => accepted (vq_verification vq)) res).
Proof.
  split; intros res H.
  - unfold Main.generate_questions in H.
    apply MonadFacts.try_inv_ok in H. destruct H as [H|(e & tr1 & _ & _ & H)]; [|discriminate].
    apply MonadFacts.bind_inv_ok in H. destruct H as (r1 & tr1 & _ & H).
    apply MonadFacts.try_inv_ok in H. destruct H as [H|(e & tr2 & _ & _ & H)].
    + apply MonadFacts.bind_inv_ok in H. destruct H as (v & tr2 & _ & H).
      eapply LoopFacts.Main_verify_all_accepted. exact H.
    + apply MonadFacts.bind_inv_ok in H. destruct H as (r2 & tr3 & _ & H).
      apply MonadFacts.try_inv_ok in H. destruct H as [H|(e' & tr4 & _ & _ & H)]; [|discriminate].
      apply MonadFacts.bind_inv_ok in H. destruct H as (v & tr4 & _ & H).
      eapply LoopFacts.Main_verify_all_accepted. exact H.
  - unfold QuestionGenerator.generate_questions in H.
    apply MonadFacts.bind_inv_ok in H. destruct H as (r1 & tr1 & _ & H).
    apply MonadFacts.try_inv_ok in H. destruct H as [H|(e & tr2 & _ & _ & H)].
    + apply MonadFacts.bind_inv_ok in H. destruct H as (v & tr2 & _ & H).
      eapply LoopFacts.QG_verify_all_accepted. exact H.
    + apply MonadFacts.bind_inv_ok in H. destruct H as (r2 & tr3 & _ & H).
      apply MonadFacts.try_inv_ok in H. destruct H as [H|(e' & tr4 & _ & _ & H)]; [|discriminate].
      apply MonadFacts.bind_inv_ok in H. destruct H as (v & tr4 & _ & H).
      eapply LoopFacts.QG_verify_all_accepted. exact H.
Qed.

Lemma X16_returned_questions_are_accepted_witness :
  exists res tr',
    Main.generate_questions tutoring_world "ctx" 1 ["short_answer"] [] = (Ok res, tr') /\
    List.length (questions res) = 1 /\
    Forall (fun vq => accepted (vq_verification vq)) (questions res).
Proof.
  destruct (Main.generate_questions tutoring_world "ctx" 1 ["short_answer"] [])
    as [[res|e] tr'] eqn:Hrun.
  - exists res, tr'. split; [reflexivity|]. split.
    + vm_compute in Hrun. injection Hrun as <- _. reflexivity.
    + exact (proj1 (X16_returned_questions_are_accepted tutoring_world "ctx" 1
                      ["short_answer"] [] tr') res Hrun).
  - exfalso. vm_compute in Hrun. discriminate.
Defined.

(** X17: in the endpoint of main.py a first response that decodes is never
    retried, whatever the decoded value is and whatever the verification of
    its questions does: the request ends with a response or with an
    [HTTPException] of status 500, and its only generation call is the first
    one. *)
Theorem X17_decodable_response_is_not_retried
    (W : World) (content : string) (num_questions : Z) (question_types : list string)
    (tr : trace) (r1 : string) (v : json) :
  generate_content W (List.length tr)
    (GenerationPrompt content num_questions question_types) = Ok r1 ->
  json_loads W (extract_json_text r1) = inr v ->
  exists res new,
    Main.generate_questions W content num_questions question_types tr =
      (res, new ++ Generate (GenerationPrompt content num_questions question_types) :: tr) /\
    generation_calls new = 0 /\
    match res with
    | Ok _ => True
    | Raise e => exists e0, is_JSONDecodeError e0 = false /\
                            e = HTTPException 500 ("문제 생성 실패: " ++ exn_str e0)
    end.
Proof.
  apply LoopFacts.Main_generate_decoded.
Qed.

Lemma X17_decodable_response_is_not_retried_witness :
  exists res new,
    Main.generate_questions (replying_world (JArr [])) "ctx" 1 ["short_answer"] [] =
      (res, new ++ [Generate (GenerationPrompt "ctx" 1 ["short_answer"])]) /\
    generation_calls new = 0.
Proof.
  destruct (X17_decodable_response_is_not_retried (replying_world (JArr [])) "ctx" 1
              ["short_answer"] [] "{}" (JArr []) eq_refl eq_refl)
    as (res & new & Hrun & Hnew & _).
  exists res, new. split; [exact Hrun|exact Hnew].
Defined.

(** X18: when the decoded first response lists, under ["questions"],
    something that is no dictionary (an item of a list, a character of a
    string, a key of a dictionary), the endpoint of main.py fails with an
    [HTTPException] of status 500 and returns none of the questions it had
    verified; it does not retry. *)
Theorem X18_non_dictionary_item_fails_the_endpoint
    (W : World) (content : string) (num_questions : Z) (question_types : list string)
    (tr : trace) (r1 : string) (v qs : json) (items : list json) :
  generate_content W (List.length tr)
    (GenerationPrompt content num_questions question_types) = Ok r1 ->
  json_loads W (extract_json_text r1) = inr v ->
  py_getitem v "questions" = Ok qs ->
  py_iter qs = Ok items ->
  existsb (fun x => negb (is_dict x)) items = true ->
  exists msg new,
    Main.generate_questions W content num_questions question_types tr =
      (Raise (HTTPException 500 ("문제 생성 실패: " ++ msg)),
       new ++ Generate (GenerationPrompt content num_questions question_types) :: tr) /\
    generation_calls new = 0.
Proof.
  intros Hgen Hdec Hqs Hitems Hbad.
  destruct (LoopFacts.Main_generate_decoded W content num_questions question_types
              tr r1 v Hgen Hdec) as (res & new & Hrun & Hnew & Hres).
  set (gen := Generate (GenerationPrompt content num_questions question_types)) in *.
  destruct res as [res|e].
  - exfalso.
    unfold Main.generate_questions in Hrun.
    apply MonadFacts.try_inv_ok in Hrun.
    destruct Hrun as [H|(e & tr1 & _ & _ & H)]; [|discriminate].
    apply MonadFacts.bind_inv_ok in H. destruct H as (r & tr1 & Hr & H).
    unfold model_generate in Hr. rewrite Hgen in Hr. injection Hr as <- <-.
    cbv zeta in H.
    assert (Hloads : loads W (extract_json_text r1) = Ok v)
      by (unfold loads; now rewrite Hdec).
    assert (Hraise : exists msg tr2,
      (generated_questions <- lift (loads W (extract_json_text r1)) ;;
       Main.verify_all W generated_questions content) (gen :: tr) =
      (Raise (Exn AttributeError msg), tr2)).
    { unfold bind at 1, lift at 1. rewrite Hloads. unfold Main.verify_all.
      unfold bind at 1, lift at 1. rewrite Hqs.
      unfold bind at 1, lift at 1. rewrite Hitems.
      destruct (LoopFacts.Main_loop_non_dict W content items Hbad [] (gen :: tr))
        as (msg & tr2 & Hloop).
      exists msg, tr2. now apply MonadFacts.bind_raise. }
    destruct Hraise as (msg & tr2 & Hraise).
    rewrite (MonadFacts.try_unhandled _ _ _ _ _ _ Hraise eq_refl) in H. discriminate.
  - destruct Hres as (e0 & _ & ->). exists (exn_str e0), new. split; [exact Hrun|exact Hnew].
Qed.

Lemma X18_non_dictionary_item_fails_the_endpoint_witness :
  exists msg new,
    Main.generate_questions
      (replying_world (JObj [("questions", JArr [JStr "What is 2+2?"])]))
      "ctx" 1 ["short_answer"] [] =
      (Raise (HTTPException 500 ("문제 생성 실패: " ++ msg)),
       new ++ [Generate (GenerationPrompt "ctx" 1 ["short_answer"])]) /\
    generation_calls new = 0.
Proof.
  exact (X18_non_dictionary_item_fails_the_endpoint
           (replying_world (JObj [("questions", JArr [JStr "What is 2+2?"])]))
           "ctx" 1 ["short_answer"] [] "{}" _ _ _ eq_refl eq_refl eq_refl eq_refl eq_refl).
Defined.

(** X19: when the decoded first response has no ["questions"] (it lacks the
    key or is no dictionary), generation fails at once, without an embedding
    and without a retry: the agent raises the lookup error, the endpoint an
    [HTTPException] of status 500 whose detail ends with the message of that
    error. *)
Theorem X19_response_without_questions
    (W : World) (content : string) (num_questions : Z) (question_types : list string)
    (tr : trace) (r1 : string) (v : json) (e : exn) :
  generate_content W (List.length tr)
    (GenerationPrompt content num_questions question_types) = Ok r1 ->
  json_loads W (extract_json_text r1) = inr v ->
  py_getitem v "questions" = Raise e ->
  let tr' := Generate (GenerationPrompt content num_questions question_types) :: tr in
  QuestionGenerator.generate_questions W content num_questions question_types tr =
    (Raise e, tr') /\
  Main.generate_questions W content num_questions question_types tr =
    (Raise (HTTPException 500 ("문제 생성 실패: " ++ exn_str e)), tr').
Proof.
  intros Hgen Hdec Hqs tr'.
  pose proof (PipelineFacts.getitem_raises _ _ _ Hqs) as Hcls.
  assert (Hloads : loads W (extract_json_text r1) = Ok v)
    by (unfold loads; now rewrite Hdec).
  split.
  - unfold QuestionGenerator.generate_questions.
    erewrite MonadFacts.bind_ok by (unfold model_generate; rewrite Hgen; reflexivity).
    cbv zeta. apply MonadFacts.try_unhandled; [|exact Hcls].
    unfold bind at 1, lift at 1. rewrite Hloads.
    unfold QuestionGenerator.verify_all. unfold bind at 1, lift at 1. now rewrite Hqs.
  - unfold Main.generate_questions. unfold try_except at 1.
    erewrite MonadFacts.bind_ok by (unfold model_generate; rewrite Hgen; reflexivity).
    cbv zeta. erewrite MonadFacts.try_unhandled; [reflexivity| |exact Hcls].
    unfold bind at 1, lift at 1. rewrite Hloads.
    unfold Main.verify_all. unfold bind at 1, lift at 1. now rewrite Hqs.
Qed.

Lemma X19_response_without_questions_witness :
  QuestionGenerator.generate_questions (replying_world (JObj [])) "ctx" 1 ["short_answer"] [] =
    (Raise (Exn KeyError "'questions'"),
     [Generate (GenerationPrompt "ctx" 1 ["short_answer"])]) /\
  Main.generate_questions (replying_world (JObj [])) "ctx" 1 ["short_answer"] [] =
    (Raise (HTTPException 500 ("문제 생성 실패: " ++ "'questions'")),
     [Generate (GenerationPrompt "ctx" 1 ["short_answer"])]).
Proof.
  exact (X19_response_without_questions (replying_world (JObj [])) "ctx" 1
           ["short_answer"] [] "{}" (JObj []) (Exn KeyError "'questions'")
           eq_refl eq_refl eq_refl).
Defined.

(** X20: when the first response decodes into a dictionary whose
    ["questions"] are dictionaries, the endpoint of main.py answers, whatever
    the models do while the questions are verified: it returns some of the
    decoded questions in their order, each with a verification that is valid
    and has a total score of at least 0.6, and it does not retry. *)
Theorem X20_endpoint_answers_on_dictionaries
    (W : World) (content : string) (num_questions : Z) (question_types : list string)
    (tr : trace) (r1 : string) (v qs : json) (items : list json) :
  generate_content W (List.length tr)
    (GenerationPrompt content num_questions question_types) = Ok r1 ->
  json_loads W (extract_json_text r1) = inr v ->
  py_getitem v "questions" = Ok qs ->
  py_iter qs = Ok items ->
  forallb is_dict items = true ->
  exists res new,
    Main.generate_questions W content num_questions question_types tr =
      (Ok res, new ++ Generate (GenerationPrompt content num_questions question_types) :: tr) /\
    generation_calls new = 0 /\
    List.length (questions res) <= List.length items /\
    Forall (fun vq => In (vq_question vq) items /\ accepted (vq_verification vq))
      (questions res).
Proof.
  intros Hgen Hdec Hqs Hitems Hdicts.
  destruct (LoopFacts.Main_generate_decoded W content num_questions question_types
              tr r1 v Hgen Hdec) as (res & new & Hrun & Hnew & _).
  set (gen := Generate (GenerationPrompt content num_questions question_types)) in *.
  destruct (LoopFacts.Main_loop_dicts W content items Hdicts [] (gen :: tr))
    as (kept & tr1 & Hloop & Hlen & Hin).
  assert (Hloads : loads W (extract_json_text r1) = Ok v)
    by (unfold loads; now rewrite Hdec).
  assert (Hbody :
    (generated_questions <- lift (loads W (extract_json_text r1)) ;;
     Main.verify_all W generated_questions content) (gen :: tr) =
    (Ok {| questions := kept |}, tr1)).
  { unfold bind at 1, lift at 1. rewrite Hloads. unfold Main.verify_all.
    unfold bind at 1, lift at 1. rewrite Hqs.
    unfold bind at 1, lift at 1. rewrite Hitems.
    unfold bind at 1. rewrite Hloop. reflexivity. }
  assert (Hrun' :
    Main.generate_questions W content num_questions question_types tr =
    (Ok {| questions := kept |}, tr1)).
  { unfold Main.generate_questions. unfold try_except at 1.
    erewrite MonadFacts.bind_ok by (unfold model_generate; rewrite Hgen; reflexivity).
    cbv zeta. fold gen. now rewrite (MonadFacts.try_ok _ _ _ _ _ _ Hbody). }
  rewrite Hrun' in Hrun. injection Hrun as <- ->.
  exists {| questions := kept |}, new. split; [exact Hrun'|]. split; [exact Hnew|].
  cbn [questions]. split; [exact Hlen|].
  pose proof (LoopFacts.Main_loop_accepted W content items [] _ _ _
                (Forall_nil _) Hloop) as Hacc.
  cbn [app] in Hacc.
  apply Forall_forall. intros vq Hvq. split.
  - exact (proj1 (Forall_forall _ _) Hin vq Hvq).
  - exact (proj1 (Forall_forall _ _) Hacc vq Hvq).
Qed.

Lemma X20_endpoint_answers_on_dictionaries_witness :
  exists res new,
    Main.generate_questions tutoring_world "ctx" 1 ["short_answer"] [] =
      (Ok res, new ++ [Generate (GenerationPrompt "ctx" 1 ["short_answer"])]) /\
    generation_calls new = 0 /\
    List.length (questions res) <= 1.
Proof.
  destruct (X20_endpoint_answers_on_dictionaries tutoring_world "ctx" 1 ["short_answer"] []
              "questions" (JObj [("questions", JArr [example_question])])
              (JArr [example_question]) [example_question]
              eq_refl eq_refl eq_refl eq_refl eq_refl)
    as (res & new & Hrun & Hnew & Hlen & _).
  exists res, new. split; [exact Hrun|]. split; [exact Hnew|exact Hlen].
Defined.

(** X21: the embedding model is down and the first response decodes into a
    dictionary whose ["questions"] are dictionaries, at least one.  The
    endpoint of main.py tries to embed the content once for each question and
    answers with an empty list of questions; the agent's
    [generate_questions] fails at the first question with the exception of
    the embedding model. *)
Theorem X21_embedder_down_during_generation
    (W : World) (content : string) (num_questions : Z) (question_types : list string)
    (tr : trace) (r1 : string) (v qs q : json) (items : list json) (err : exn) :
  (forall n text, encode W n text = Raise err) ->
  is_JSONDecodeError err = false ->
  generate_content W (List.length tr)
    (GenerationPrompt content num_questions question_types) = Ok r1 ->
  json_loads W (extract_json_text r1) = inr v ->
  py_getitem v "questions" = Ok qs ->
  py_iter qs = Ok (q :: items) ->
  forallb is_dict (q :: items) = true ->
  let gen := Generate (GenerationPrompt content num_questions question_types) in
  Main.generate_questions W content num_questions question_types tr =
    (Ok {| questions := [] |},
     repeat (Encode content) (S (List.length items)) ++ gen :: tr) /\
  QuestionGenerator.generate_questions W content num_questions question_types tr =
    (Raise err, Encode (preprocess_str content) :: gen :: tr).
Proof.
  intros Hdown Hcls Hgen Hdec Hqs Hitems Hdicts gen.
  assert (Hloads : loads W (extract_json_text r1) = Ok v)
    by (unfold loads; now rewrite Hdec).
  split.
  - unfold Main.generate_questions. unfold try_except at 1.
    erewrite MonadFacts.bind_ok by (unfold model_generate; rewrite Hgen; reflexivity).
    cbv zeta. fold gen.
    erewrite MonadFacts.try_ok; [reflexivity|].
    unfold bind at 1, lift at 1. rewrite Hloads. unfold Main.verify_all.
    unfold bind at 1, lift at 1. rewrite Hqs.
    unfold bind at 1, lift at 1. rewrite Hitems.
    unfold bind at 1.
    rewrite (LoopFacts.Main_loop_embedder_down W content err (q :: items) Hdown Hdicts).
    reflexivity.
  - unfold QuestionGenerator.generate_questions.
    erewrite MonadFacts.bind_ok by (unfold model_generate; rewrite Hgen; reflexivity).
    cbv zeta. fold gen.
    apply MonadFacts.try_unhandled; [|exact Hcls].
    unfold bind at 1, lift at 1. rewrite Hloads. unfold QuestionGenerator.verify_all.
    unfold bind at 1, lift at 1. rewrite Hqs.
    unfold bind at 1, lift at 1. rewrite Hitems.
    cbn [for_each]. apply MonadFacts.bind_raise. apply MonadFacts.bind_raise.
    unfold QuestionGenerator.verify_question. apply MonadFacts.bind_raise.
    unfold RAGService.compute_question_similarity. apply MonadFacts.bind_raise.
    unfold model_encode. now rewrite Hdown.
Qed.

Lemma X21_embedder_down_during_generation_witness :
  Main.generate_questions (deaf_world (JObj [("questions", JArr [example_question])]))
    "ctx" 1 ["short_answer"] [] =
    (Ok {| questions := [] |},
     [Encode "ctx"; Generate (GenerationPrompt "ctx" 1 ["short_answer"])]) /\
  QuestionGenerator.generate_questions
    (deaf_world (JObj [("questions", JArr [example_question])]))
    "ctx" 1 ["short_answer"] [] =
    (Raise (Exn ModelError "embedding model unavailable"),
     [Encode (preprocess_str "ctx"); Generate (GenerationPrompt "ctx" 1 ["short_answer"])]).
Proof.
  exact (X21_embedder_down_during_generation
           (deaf_world (JObj [("questions", JArr [example_question])]))
           "ctx" 1 ["short_answer"] [] "{}" _ _ example_question [] _
           (fun _ _ => eq_refl) eq_refl eq_refl eq_refl eq_refl eq_refl eq_refl).
Defined.

(** ** A judgment that decodes but cannot be scored *)

Module JudgmentFacts.
Import MonadFacts.

(** The scoring block calls no model, and what it raises is a lookup or
    type error of the judgment. *)
Lemma judgment_total_score_pure (vr : json) (tr tr' : trace) (r : result F.float) :
  judgment_total_score vr tr = (r, tr') ->
  tr' = tr /\
  (forall tr2, judgment_total_score vr tr2 = (r, tr2)) /\
  (forall e, r = Raise e -> is_JSONDecodeError e = false).
Proof.
  unfold judgment_total_score, bind, lift, ret.
  destruct (py_getitem vr "hallucination_check") as [hc|e0] eqn:H0;
    [|intros [= <- <-]; repeat split; intros e [= <-];
      eapply PipelineFacts.getitem_raises; exact H0].
  destruct (py_getitem hc "result") as [hr|e1] eqn:H1;
    [|intros [= <- <-]; repeat split; intros e [= <-];
      eapply PipelineFacts.getitem_raises; exact H1].
  destruct (py_getitem vr "quality_check") as [qc|e2] eqn:H2;
    [|intros [= <- <-]; repeat split; intros e [= <-];
      eapply PipelineFacts.getitem_raises; exact H2].
  destruct (py_getitem qc "rating") as [qr|e3] eqn:H3;
    [|intros [= <- <-]; repeat split; intros e [= <-];
      eapply PipelineFacts.getitem_raises; exact H3].
  destruct (py_getitem vr "semantic_consistency") as [sc|e4] eqn:H4;
    [|intros [= <- <-]; repeat split; intros e [= <-];
      eapply PipelineFacts.getitem_raises; exact H4].
  destruct (py_getitem sc "average_score") as [ss|e5] eqn:H5;
    [|intros [= <- <-]; repeat split; intros e [= <-];
      eapply PipelineFacts.getitem_raises; exact H5].
  destruct (py_mul_float ss F.f0_3) as [w|e6] eqn:H6;
    intros [= <- <-]; repeat split; intros e [= <-];
    eapply PipelineFacts.mul_float_raises; exact H6.
Qed.

(** The inner [try] of both verifiers on such a judgment. *)
Lemma unscored (W : World) (question : json) scores (llm_text : string) (vr : json)
    (e : exn) (tr0 tr0' tr : trace) handler :
  json_loads W (extract_json_text llm_text) = inr vr ->
  judgment_total_score vr tr0 = (Raise e, tr0') ->
  try_except
    (verification_result <- lift (loads W (extract_json_text llm_text)) ;;
     total <- judgment_total_score verification_result ;;
     judged_output question scores verification_result total)
    is_JSONDecodeError handler tr = (Raise e, tr).
Proof.
  intros Hdec Hscore.
  destruct (judgment_total_score_pure vr tr0 tr0' _ Hscore) as (_ & Hany & Hcls).
  apply try_unhandled; [|now apply Hcls].
  unfold bind at 1, lift at 1, loads. rewrite Hdec.
  apply bind_raise. apply Hany.
Qed.

End JudgmentFacts.

(** X22: a question with its three texts and models that answer.  When the
    judgment response decodes but the scoring block raises on it (a field is
    missing, or the semantic average is no number), the similarities that
    were computed are not used as a fallback: the agent's [verify_question]
    raises that error to its caller, and [verify_question_with_rag] returns
    an error result that is not valid and has neither a total score nor the
    embedding similarities. *)
Theorem X22_unscorable_judgment_gets_no_fallback
    (W : World) (question : json) (context q a e : string) (tr tr0 tr0' : trace)
    (llm_text : string) (vr : json) (err : exn) :
  py_getitem question "question" = Ok (JStr q) ->
  py_getitem question "correct_answer" = Ok (JStr a) ->
  py_getitem question "explanation" = Ok (JStr e) ->
  (forall n text, exists v, encode W n text = Ok v) ->
  (forall n, generate_content W n
               (VerificationPrompt context (JStr q) (JStr a) (JStr e)) = Ok llm_text) ->
  json_loads W (extract_json_text llm_text) = inr vr ->
  judgment_total_score vr tr0 = (Raise err, tr0') ->
  (exists tr',
     QuestionGenerator.verify_question W question context tr = (Raise err, tr')) /\
  (exists out tr',
     Main.verify_question_with_rag W question context tr = (Ok out, tr') /\
     is_valid (verification_of out) = false /\
     total_score (verification_of out) = None /\
     embedding_similarity (verification_of out) = None /\
     error (verification_of out) = Some (exn_str err)).
Proof.
  intros Hq Ha He Henc Hgen Hdec Hscore.
  destruct (VerifyFacts.getitem_get_total question _ (JStr "") "question" "id" Hq)
    as [qid Hid].
  split.
  - destruct (VerifyFacts.QG_reaches_try W question context q a e Hq Ha He Henc
                llm_text Hgen tr) as (sr & tr1 & _ & Hrun).
    exists tr1. rewrite Hrun.
    eapply JudgmentFacts.unscored; eassumption.
  - destruct (VerifyFacts.Main_body_reaches_try W question context q a e Hq Ha He Henc
                llm_text Hgen tr) as (scores & tr1 & _ & Hbody).
    unfold Main.verify_question_with_rag.
    erewrite MonadFacts.try_handled; cycle 1.
    + rewrite Hbody. eapply JudgmentFacts.unscored; eassumption.
    + reflexivity.
    + unfold bind, lift, ret. rewrite Hid.
      eexists. eexists. split; [reflexivity|]. repeat split.
Qed.

Lemma X22_unscorable_judgment_gets_no_fallback_witness :
  (exists tr',
     QuestionGenerator.verify_question (replying_world (JObj [])) example_question "ctx" [] =
       (Raise (Exn KeyError "'hallucination_check'"), tr')) /\
  (exists out tr',
     Main.verify_question_with_rag (replying_world (JObj [])) example_question "ctx" [] =
       (Ok out, tr') /\
     is_valid (verification_of out) = false /\
     total_score (verification_of out) = None /\
     embedding_similarity (verification_of out) = None /\
     error (verification_of out) = Some "'hallucination_check'").
Proof.
  exact (X22_unscorable_judgment_gets_no_fallback (replying_world (JObj []))
           example_question "ctx" "q" "a" "because" [] [] [] "{}" (JObj [])
           (Exn KeyError "'hallucination_check'")
           eq_refl eq_refl eq_refl (fun n text => ex_intro _ text eq_refl)
           (fun n => eq_refl) eq_refl eq_refl).
Defined.

(** ** Every round of grading *)

(** X23: whatever the answer and the models, a round of [check_answers]
    that completes has graded consistently.  The score is 1.0, 0.5 or 0.0 as
    the verdict is [True], ["partial"] or [False]; equal normal forms give
    [True]; a similarity is attached only when the normal forms differ, it is
    then below 0.8, and the verdict is ["partial"] exactly when a similarity
    of at least 0.6 is attached.  The round embeds nothing or the two normal
    forms, and its last model call asks for feedback on the answers and the
    verdict that the result records. *)
Theorem X23_every_graded_answer_is_consistent
    (W : World) (answer : json) (tr tr' : trace) (pa : processed_answer) :
  Main.check_answer W answer tr = (Ok pa, tr') ->
  let nu := normalize_answer (pa_user_answer pa) in
  let nc := normalize_answer (pa_correct_answer pa) in
  score pa = match is_correct pa with
             | IsTrue => F.f1_0
             | IsPartial => F.f0_5
             | IsFalse => F.f0_0
             end /\
  (nu = nc -> is_correct pa = IsTrue) /\
  (forall s, similarity pa = Some s -> nu <> nc /\ F.ge s F.f0_8 = false) /\
  (is_correct pa = IsPartial <->
   exists s, similarity pa = Some s /\ F.ge s F.f0_6 = true) /\
  exists embedded,
    (embedded = [] \/ embedded = [Encode nc; Encode nu]) /\
    tr' = Generate (FeedbackPrompt (pa_question pa) (pa_user_answer pa)
                      (pa_correct_answer pa) (Main.verdict_text (is_correct pa)))
          :: embedded ++ tr.
Proof.
  unfold Main.check_answer. intros H.
  apply MonadFacts.bind_inv_ok in H. destruct H as (question & t & Hl & H).
  apply MonadFacts.lift_inv_ok in Hl. destruct Hl as [_ ->].
  apply MonadFacts.bind_inv_ok in H. destruct H as (ua_raw & t & Hl & H).
  apply MonadFacts.lift_inv_ok in Hl. destruct Hl as [_ ->].
  apply MonadFacts.bind_inv_ok in H. destruct H as (ua_str & t & Hl & H).
  apply MonadFacts.lift_inv_ok in Hl. destruct Hl as [_ ->].
  apply MonadFacts.bind_inv_ok in H. destruct H as (ca_raw & t & Hl & H).
  apply MonadFacts.lift_inv_ok in Hl. destruct Hl as [_ ->].
  apply MonadFacts.bind_inv_ok in H. destruct H as (ca_str & t & Hl & H).
  apply MonadFacts.lift_inv_ok in Hl. destruct Hl as [_ ->].
  apply MonadFacts.bind_inv_ok in H. destruct H as (question_type & t & Hl & H).
  apply MonadFacts.lift_inv_ok in Hl. destruct Hl as [_ ->].
  cbv zeta in H.
  set (user_answer := py_strip ua_str) in *.
  set (correct_answer := py_strip ca_str) in *.
  set (nu0 := normalize_answer user_answer) in *.
  set (nc0 := normalize_answer correct_answer) in *.
  apply MonadFacts.bind_inv_ok in H. destruct H as ([c s] & trg & Hg & H).
  apply MonadFacts.bind_inv_ok in H. destruct H as (fb & trf & Hfb & H).
  apply RetrievalFacts.generate_inv_ok in Hfb. destruct Hfb as [_ ->].
  apply MonadFacts.ret_inv in H. destruct H as [-> ->].
  cbn [pa_user_answer pa_correct_answer pa_question is_correct score similarity].
  fold nu0 nc0.
  split; [reflexivity|].
  destruct (py_eq_str question_type "short_answer" && negb (String.eqb nu0 nc0)) eqn:Hcond.
  - apply andb_true_iff in Hcond. destruct Hcond as [Hshort Hne].
    apply negb_true_iff in Hne. pose proof (proj1 (String.eqb_neq _ _) Hne) as Hdiff.
    apply MonadFacts.bind_inv_ok in Hg. destruct Hg as (eu & t1 & Heu & Hg).
    apply RetrievalFacts.encode_inv_ok in Heu. destruct Heu as [_ ->].
    apply MonadFacts.bind_inv_ok in Hg. destruct Hg as (ec & t2 & Hec & Hg).
    apply RetrievalFacts.encode_inv_ok in Hec. destruct Hec as [_ ->].
    cbv zeta in Hg. rewrite Hshort. cbn [andb].
    assert (Htrace : exists embedded,
      (embedded = [] \/ embedded = [Encode nc0; Encode nu0]) /\
      Generate (FeedbackPrompt question user_answer correct_answer (Main.verdict_text c))
        :: Encode nc0 :: Encode nu0 :: tr =
      Generate (FeedbackPrompt question user_answer correct_answer (Main.verdict_text c))
        :: embedded ++ tr).
    { exists [Encode nc0; Encode nu0]. split; [now right|reflexivity]. }
    destruct (F.ge (cosine_similarity W eu ec) F.f0_8) eqn:H8;
      [|destruct (F.ge (cosine_similarity W eu ec) F.f0_6) eqn:H6];
      apply MonadFacts.ret_inv in Hg; destruct Hg as [[= -> ->] ->]; cbn [negb].
    + split; [reflexivity|]. split; [discriminate|].
      split; [|exact Htrace]. split; [discriminate|]. intros (s & Hs & _). discriminate.
    + split; [intros E; contradiction|].
      split; [intros s [= <-]; now split|].
      split; [|exact Htrace]. split; [|reflexivity]. intros _. eauto.
    + split; [intros E; contradiction|].
      split; [intros s [= <-]; now split|].
      split; [|exact Htrace]. split; [discriminate|].
      intros (s & [= <-] & Hs). congruence.
  - apply MonadFacts.ret_inv in Hg. destruct Hg as [[= -> ->] ->].
    assert (Hnone :
      (if py_eq_str question_type "short_answer" &&
          negb (match (if String.eqb nu0 nc0 then IsTrue else IsFalse) with
                | IsTrue => true | _ => false end)
       then Some F.f0_0 else None) = None).
    { destruct (String.eqb nu0 nc0); cbn [negb]; [now rewrite andb_false_r|].
      cbn [negb] in Hcond. now rewrite Hcond. }
    rewrite Hnone.
    split.
    { intros E. rewrite (proj2 (String.eqb_eq nu0 nc0) E). reflexivity. }
    split; [discriminate|].
    split.
    { split; [destruct (String.eqb nu0 nc0); discriminate|].
      intros (s & Hs & _). discriminate. }
    exists []. split; [now left|reflexivity].
Qed.

Lemma X23_every_graded_answer_is_consistent_witness :
  exists pa tr',
    Main.check_answer
      (scripted_world (fun _ => F.lit 65 100) (fun _ _ => Ok "Close.") (fun _ => inl "no JSON"))
      (submission (JStr "Capital of France?") "Paris" "Paris city"
         (JStr "short_answer")) [] = (Ok pa, tr') /\
    score pa = match is_correct pa with
               | IsTrue => F.f1_0
               | IsPartial => F.f0_5
               | IsFalse => F.f0_0
               end.
Proof.
  destruct (Main.check_answer
      (scripted_world (fun _ => F.lit 65 100) (fun _ _ => Ok "Close.") (fun _ => inl "no JSON"))
      (submission (JStr "Capital of France?") "Paris" "Paris city"
         (JStr "short_answer")) []) as [[pa|e] tr'] eqn:Hrun.
  - exists pa, tr'. split; [reflexivity|].
    exact (proj1 (X23_every_graded_answer_is_consistent _ _ _ _ _ Hrun)).
  - exfalso. vm_compute in Hrun. discriminate.
Defined.

(** X24: a round of [check_answers] fails only at its input or at a model.
    When it raises, either no model was called and the answer is malformed
    (it has no ["question"], or its ["user_answer"] or ["correct_answer"] is
    missing or no string), or the exception is the one that the last model
    call of the round raised. *)
Theorem X24_grading_fails_at_the_input_or_at_a_model
    (W : World) (answer : json) (tr tr' : trace) (e : exn) :
  Main.check_answer W answer tr = (Raise e, tr') ->
  (tr' = tr /\
   forall q u c,
     py_getitem answer "question" = Ok q ->
     py_getitem answer "user_answer" = Ok (JStr u) ->
     py_getitem answer "correct_answer" = Ok (JStr c) -> False) \/
  (exists earlier,
     (exists text, tr' = Encode text :: earlier /\
                   encode W (List.length earlier) text = Raise e) \/
     (exists p, tr' = Generate p :: earlier /\
                generate_content W (List.length earlier) p = Raise e)).
Proof.
  unfold Main.check_answer.
  unfold bind at 1, lift at 1.
  destruct (py_getitem answer "question") as [question|e0] eqn:Hq;
    [|intros [= <- <-]; left; split; [reflexivity|intros; discriminate]].
  unfold bind at 1, lift at 1.
  destruct (py_getitem answer "user_answer") as [ua_raw|e0] eqn:Hu;
    [|intros [= <- <-]; left; split; [reflexivity|intros; discriminate]].
  unfold bind at 1, lift at 1.
  destruct (py_str_method ua_raw "strip") as [ua_str|e0] eqn:Hus;
    [|intros [= <- <-]; left; split; [reflexivity|];
      intros q u c _ [= ->] _; discriminate].
  unfold bind at 1, lift at 1.
  destruct (py_getitem answer "correct_answer") as [ca_raw|e0] eqn:Hc;
    [|intros [= <- <-]; left; split; [reflexivity|intros; discriminate]].
  unfold bind at 1, lift at 1.
  destruct (py_str_method ca_raw "strip") as [ca_str|e0] eqn:Hcs;
    [|intros [= <- <-]; left; split; [reflexivity|];
      intros q u c _ _ [= ->]; discriminate].
  unfold bind at 1, lift at 1.
  destruct (py_get answer "question_type" (JStr "unknown")) as [question_type|e0] eqn:Ht.
  2:{ exfalso. destruct answer; try discriminate.
      cbn [py_get] in Ht. destruct (assoc "question_type" members); discriminate. }
  cbv zeta.
  set (user_answer := py_strip ua_str).
  set (correct_answer := py_strip ca_str).
  set (nu := normalize_answer user_answer).
  set (nc := normalize_answer correct_answer).
  intros H. right.
  assert (Hfeedback : forall c s trg,
    (feedback_text <- model_generate W
        (FeedbackPrompt question user_answer correct_answer (Main.verdict_text c)) ;;
     ret {| pa_question := question;
            pa_user_answer := user_answer;
            pa_correct_answer := correct_answer;
            is_correct := c;
            score := match c with
                     | IsTrue => F.f1_0
                     | IsPartial => F.f0_5
                     | IsFalse => F.f0_0
                     end;
            feedback := py_strip feedback_text;
            similarity :=
              if py_eq_str question_type "short_answer" &&
                 negb (match c with IsTrue => true | _ => false end)
              then Some s else None |}) trg = (Raise e, tr') ->
    exists p, tr' = Generate p :: trg /\ generate_content W (List.length trg) p = Raise e).
  { intros c s trg. unfold bind, model_generate, ret.
    destruct (generate_content W (List.length trg) _) eqn:Hg; [discriminate|].
    intros [= <- <-]. eauto. }
  destruct (py_eq_str question_type "short_answer" && negb (String.eqb nu nc)).
  - unfold bind at 1 in H. unfold bind at 1, model_encode at 1 in H.
    destruct (encode W (List.length tr) nu) as [eu|e1] eqn:Heu.
    + unfold bind at 1, model_encode at 1 in H.
      destruct (encode W (List.length (Encode nu :: tr)) nc) as [ec|e2] eqn:Hec.
      * cbv zeta in H.
        destruct (F.ge (cosine_similarity W eu ec) F.f0_8);
          [|destruct (F.ge (cosine_similarity W eu ec) F.f0_6)];
          unfold ret at 1 in H; eexists; right; eapply Hfeedback; exact H.
      * injection H as <- <-. eexists. left. eauto.
    + injection H as <- <-. eexists. left. eauto.
  - unfold bind at 1, ret at 1 in H.
    destruct (String.eqb nu nc); eexists; right; eapply Hfeedback; exact H.
Qed.

Lemma X24_grading_fails_at_the_input_or_at_a_model_witness :
  Main.check_answer example_world
    (JObj [("question", JStr "2+2?"); ("user_answer", JInt 4);
           ("correct_answer", JStr "4")]) [] =
    (Raise (Exn AttributeError "'int' object has no attribute 'strip'"), []) /\
  ([] = @nil call /\
   forall q u c,
     py_getitem (JObj [("question", JStr "2+2?"); ("user_answer", JInt 4);
                       ("correct_answer", JStr "4")]) "question" = Ok q ->
     py_getitem (JObj [("question", JStr "2+2?"); ("user_answer", JInt 4);
                       ("correct_answer", JStr "4")]) "user_answer" = Ok (JStr u) ->
     py_getitem (JObj [("question", JStr "2+2?"); ("user_answer", JInt 4);
                       ("correct_answer", JStr "4")]) "correct_answer" = Ok (JStr c) ->
     False).
Proof.
  split; [reflexivity|].
  destruct (X24_grading_fails_at_the_input_or_at_a_model example_world
              (JObj [("question", JStr "2+2?"); ("user_answer", JInt 4);
                     ("correct_answer", JStr "4")]) [] []
              (Exn AttributeError "'int' object has no attribute 'strip'") eq_refl)
    as [H|(earlier & [(text & Habs & _)|(p & Habs & _)])];
    [exact H|discriminate|discriminate].
Defined.
